(** * vnpy_ftx: the FTX gateway of vn.py, embedded in Rocq

    A shallow embedding of [vnpy_ftx/ftx_gateway.py]: the REST connector
    ([FtxRestApi]), the WebSocket connector ([FtxWebsocketApi]) and the
    gateway facade ([FtxGateway]) become state-passing functions over one
    gateway state; everything the gateway does to the outside world (frames
    sent, REST requests queued, records pushed to the event engine, log
    lines, prints) is appended to one chronological trace of effects.

    What the transports do with a request or a frame once they have it
    (signing, sending, retrying, calling back) is outside the file; the
    callbacks are functions here, and whoever runs them supplies the decoded
    answer.  The clock is an argument of the two methods that read it. *)

From Stdlib Require Import ZArith QArith Qcanon String Ascii List Lia.
From Stdlib Require Import DecimalString DecimalZ.
From stdpp Require Import base option list gmap strings sorting.

Set Warnings "-register-all".

Open Scope string_scope.
Open Scope list_scope.
Open Scope Z_scope.

(** ** Python values *)

(** The exceptions the modelled code can raise. *)
Inductive exn :=
| KeyError
| TypeError
| ValueError
| AttributeError.

(** The outcome of a Python call: a value, or a raised exception. *)
Inductive result (A : Type) :=
| Ok (a : A)
| Raise (e : exn).
Arguments Ok {A} a.
Arguments Raise {A} e.

Global Instance result_ret : MRet result := fun _ a => Ok a.
Global Instance result_bind : MBind result := fun _ _ f r =>
  match r with
  | Ok a => f a
  | Raise e => Raise e
  end.

(** What [json.loads] delivers.  A number is an [int] or a finite [float],
    kept by its exact value: Python compares the two kinds with [==] by
    value.  An object keeps its keys in arrival order. *)
Inductive json :=
| JNull
| JBool (b : bool)
| JNum (q : Qc)
| JStr (s : string)
| JArr (items : list json)
| JObj (fields : list (string * json)).

Definition Qc_of_Z (z : Z) : Qc := Q2Qc (inject_Z z).

Definition JInt (z : Z) : json := JNum (Qc_of_Z z).

(** [bool] is a subclass of [int]: [True == 1] and [False == 0]. *)
Definition num_of (v : json) : option Qc :=
  match v with
  | JNum q => Some q
  | JBool b => Some (Qc_of_Z (if b then 1 else 0))
  | _ => None
  end.

Definition assoc {V} (k : string) (kv : list (string * V)) : option V :=
  snd <$> find (fun p => String.eqb (fst p) k) kv.

(** Python's [a == b] on decoded JSON. *)
Fixpoint py_eq (a b : json) : bool :=
  match a, b with
  | JNull, JNull => true
  | JStr x, JStr y => String.eqb x y
  | JArr xs, JArr ys =>
      (fix go (xs ys : list json) : bool :=
         match xs, ys with
         | [], [] => true
         | x :: xs', y :: ys' => py_eq x y && go xs' ys'
         | _, _ => false
         end) xs ys
  | JObj xs, JObj ys =>
      Nat.eqb (length xs) (length ys) &&
      (fix go (xs : list (string * json)) : bool :=
         match xs with
         | [] => true
         | (k, v) :: xs' =>
             match assoc k ys with
             | Some w => py_eq v w
             | None => false
             end && go xs'
         end) xs
  | (JNum _ | JBool _), (JNum _ | JBool _) =>
      match num_of a, num_of b with
      | Some x, Some y => bool_decide (x = y)
      | _, _ => false
      end
  | _, _ => false
  end.

(** [d[k]] with a text key. *)
Definition getitem (d : json) (k : string) : result json :=
  match d with
  | JObj kv => match assoc k kv with
               | Some v => Ok v
               | None => Raise KeyError
               end
  | _ => Raise TypeError
  end.

(** Truthiness, as [if x:] and [not x] test it. *)
Definition truthy (v : json) : bool :=
  match v with
  | JNull => false
  | JBool b => b
  | JNum q => negb (bool_decide (q = Qc_of_Z 0))
  | JStr s => negb (String.eqb s "")
  | JArr l => match l with [] => false | _ => true end
  | JObj l => match l with [] => false | _ => true end
  end.

(** [str(n)] for an [int]. *)
Definition str (n : Z) : string := NilZero.string_of_int (Z.to_int n).

(** [s.upper()], on the ASCII letters. *)
Definition upper_ascii (c : ascii) : ascii :=
  let n := nat_of_ascii c in
  if ((97 <=? n) && (n <=? 122))%nat then ascii_of_nat (n - 32) else c.

Fixpoint upper (s : string) : string :=
  match s with
  | EmptyString => EmptyString
  | String c s' => String (upper_ascii c) (upper s')
  end.

(** ** vn.py constants and records *)

(** [vnpy.trader.constant.Status]. *)
Inductive Status :=
| SUBMITTING
| NOTTRADED
| PARTTRADED
| ALLTRADED
| CANCELLED
| REJECTED.

(** What an order's [status] attribute can hold at run time: the field is
    declared as a [Status], but Python stores whatever is assigned. *)
Inductive status_value :=
| StatusMember (s : Status)
| StatusText (s : string).

Coercion StatusMember : Status >-> status_value.

Definition is_member (v : status_value) : bool :=
  match v with StatusMember _ => true | StatusText _ => false end.

(** ** Order-status reconciliation *)

Module Reconcile.

(** The [if]/[elif] chain of [FtxRestApi.on_query_order].  Python's [&] on
    two [bool]s evaluates both operands and is their conjunction. *)
Definition on_query_order_status
    (current_status size filled_size remaining_size : json) : status_value :=
  if py_eq current_status (JStr "new") then
    NOTTRADED
  else if py_eq current_status (JStr "open") && py_eq filled_size (JInt 0) then
    NOTTRADED
  else if py_eq current_status (JStr "open") && negb (py_eq size filled_size) then
    PARTTRADED
  else if py_eq current_status (JStr "closed") && negb (py_eq size filled_size) then
    CANCELLED
  else if py_eq remaining_size (JInt 0) && py_eq size filled_size then
    ALLTRADED
  else
    StatusText "other status".

(** The same chain, as written a second time in the [orders] branch of
    [FtxWebsocketApi.on_packet]. *)
Definition on_packet_status
    (current_status size filled_size remaining_size : json) : status_value :=
  if py_eq current_status (JStr "new") then
    NOTTRADED
  else if py_eq current_status (JStr "open") && py_eq filled_size (JInt 0) then
    NOTTRADED
  else if py_eq current_status (JStr "open") && negb (py_eq size filled_size) then
    PARTTRADED
  else if py_eq current_status (JStr "closed") && negb (py_eq size filled_size) then
    CANCELLED
  else if py_eq remaining_size (JInt 0) && py_eq size filled_size then
    ALLTRADED
  else
    StatusText "other status".

End Reconcile.

(** [vnpy.trader.constant.Direction], [OrderType] and [Interval]. *)
Inductive Direction :=
| LONG
| SHORT
| NET.

Inductive OrderType :=
| LIMIT
| MARKET
| STOP
| FAK
| FOK
| RFQ.

Inductive Interval :=
| MINUTE
| HOUR
| DAILY
| WEEKLY
| TICK.

Inductive Product :=
| FUTURES
| SPOT.

(** The mapping tables at the top of the module.  A table is a [dict]:
    looking up a key it does not hold raises [KeyError]. *)
Definition ORDERTYPE_VT2FTX (t : OrderType) : result string :=
  match t with
  | LIMIT => Ok "limit"
  | MARKET => Ok "market"
  | _ => Raise KeyError
  end.

Definition DIRECTION_VT2FTX (d : Direction) : result string :=
  match d with
  | LONG => Ok "buy"
  | SHORT => Ok "sell"
  | NET => Raise KeyError
  end.

Definition INTERVAL_VT2FTX (i : Interval) : result Z :=
  match i with
  | MINUTE => Ok 60
  | HOUR => Ok 3600
  | DAILY => Ok 86400
  | WEEKLY => Ok 604800
  | TICK => Raise KeyError
  end.

(** A dictionary key: the hashable values JSON can deliver.  [True] and [1]
    are the same key, as are [1] and [1.0]. *)
Inductive key :=
| KNone
| KNum (q : Qc)
| KStr (s : string).

Global Instance key_eq_dec : EqDecision key.
Proof. solve_decision. Defined.

Global Instance key_countable : Countable key.
Proof.
  refine (inj_countable'
    (fun k => match k with
              | KNone => inl tt
              | KNum q => inr (inl q)
              | KStr s => inr (inr s)
              end)
    (fun x => match x with
              | inl _ => KNone
              | inr (inl q) => KNum q
              | inr (inr s) => KStr s
              end) _).
  by intros [].
Defined.

(** Hashing a value to use it as a key; lists and dicts are unhashable. *)
Definition key_of (v : json) : result key :=
  match v with
  | JNull => Ok KNone
  | JBool _ | JNum _ => match num_of v with
                        | Some q => Ok (KNum q)
                        | None => Raise TypeError
                        end
  | JStr s => Ok (KStr s)
  | JArr _ | JObj _ => Raise TypeError
  end.

(** The reverse tables ([{v: k for k, v in ....items()}]), indexed with a
    value taken from a frame. *)
Definition ORDERTYPE_FTX2VT (v : json) : result OrderType :=
  k ← key_of v;
  if decide (k = KStr "limit") then Ok LIMIT
  else if decide (k = KStr "market") then Ok MARKET
  else Raise KeyError.

Definition DIRECTION_FTX2VT (v : json) : result Direction :=
  k ← key_of v;
  if decide (k = KStr "buy") then Ok LONG
  else if decide (k = KStr "sell") then Ok SHORT
  else Raise KeyError.

Definition PRODUCTTYPE_FTX2VT (v : json) : result Product :=
  k ← key_of v;
  if decide (k = KStr "future") then Ok FUTURES
  else if decide (k = KStr "spot") then Ok SPOT
  else Raise KeyError.

(** Iterating a decoded value with [for d in v]: a list yields its items, a
    dict its keys, a text its characters; nothing else is iterable. *)
Definition iter_items (v : json) : result (list json) :=
  match v with
  | JArr l => Ok l
  | JObj kv => Ok (map (fun p => JStr (fst p)) kv)
  | JStr s => Ok (map (fun c => JStr (String c EmptyString)) (list_ascii_of_string s))
  | _ => Raise TypeError
  end.

(** A [datetime], named by the library calls that produced it. *)
Inductive datetime :=
| utc_text_to_china (text : string)
| local_timestamp_as_china (timestamp : Qc)
| utcfromtimestamp (timestamp : Qc).

(** Four library functions whose results the gateway only passes along:
    [float] on a text, whether [datetime.strptime] accepts a text for the
    format [%Y-%m-%dT%H:%M:%S.%f] (each raises [ValueError] on a text it
    cannot read), [str] on a [float], and
    [hmac.new(key, msg, 'sha256').hexdigest()]. *)
Record Library := {
  float_of_text : string -> option Qc;
  strptime_accepts : string -> bool;
  str_of_float : Qc -> string;
  hmac_sha256_hexdigest : string -> string -> string
}.

Section Conversions.
Context (lib : Library).

(** [float(v)]. *)
Definition float (v : json) : result Qc :=
  match v with
  | JNum _ | JBool _ => match num_of v with
                        | Some q => Ok q
                        | None => Raise TypeError
                        end
  | JStr s => match float_of_text lib s with
              | Some q => Ok q
              | None => Raise ValueError
              end
  | _ => Raise TypeError
  end.

(** [change_datetime]: drop the six characters of the UTC offset, parse,
    stamp the result as UTC and convert it to the China time zone. *)
Definition change_datetime (created_time : json) : result datetime :=
  match created_time with
  | JStr s =>
      let text := substring 0 (String.length s - 6) s in
      if strptime_accepts lib text then Ok (utc_text_to_china text)
      else Raise ValueError
  | _ => Raise TypeError
  end.

End Conversions.

(** [generate_datetime]: the local wall-clock time of a POSIX timestamp,
    stamped with the China time zone. *)
Definition generate_datetime (timestamp : json) : result datetime :=
  match num_of timestamp with
  | Some t => Ok (local_timestamp_as_china t)
  | None => Raise TypeError
  end.

(** [vnpy.trader.object]: the requests the host hands to the gateway. *)
Record SubscribeRequest := {
  sub_symbol : string;
  sub_exchange : string
}.

(** [SubscribeRequest.vt_symbol], set by [__post_init__]. *)
Definition vt_symbol (req : SubscribeRequest) : string :=
  sub_symbol req +:+ "." +:+ sub_exchange req.

Record OrderRequest := {
  req_symbol : string;
  req_exchange : string;
  req_direction : Direction;
  req_type : OrderType;
  req_volume : Qc;
  req_price : Qc
}.

Record CancelRequest := {
  cancel_orderid : string;
  cancel_symbol : string;
  cancel_exchange : string
}.

Record HistoryRequest := {
  hist_symbol : string;
  hist_exchange : string;
  hist_start : Qc;
  hist_end : Qc;
  hist_interval : Interval
}.

(** [vnpy.trader.object]: the records the gateway pushes to the host. *)
Record OrderData := {
  orderid : json;
  order_symbol : json;
  order_exchange : string;
  order_price : Qc;
  order_volume : Qc;
  order_type : OrderType;
  order_direction : Direction;
  order_traded : json;
  status : status_value;
  order_datetime : option datetime;
  order_gateway_name : string
}.

Definition with_status (st : status_value) (o : OrderData) : OrderData :=
  {| orderid := orderid o;
     order_symbol := order_symbol o;
     order_exchange := order_exchange o;
     order_price := order_price o;
     order_volume := order_volume o;
     order_type := order_type o;
     order_direction := order_direction o;
     order_traded := order_traded o;
     status := st;
     order_datetime := order_datetime o;
     order_gateway_name := order_gateway_name o |}.

(** [OrderRequest.create_order_data]: a fresh order; [status] takes the
    dataclass default, [Status.SUBMITTING]. *)
Definition create_order_data (req : OrderRequest) (id gateway_name : string)
    : OrderData :=
  {| orderid := JStr id;
     order_symbol := JStr (req_symbol req);
     order_exchange := req_exchange req;
     order_price := req_price req;
     order_volume := req_volume req;
     order_type := req_type req;
     order_direction := req_direction req;
     order_traded := JInt 0;
     status := SUBMITTING;
     order_datetime := None;
     order_gateway_name := gateway_name |}.

Record TradeData := {
  trade_symbol : json;
  trade_exchange : string;
  trade_orderid : json;
  tradeid : json;
  trade_direction : Direction;
  trade_price : Qc;
  trade_volume : Qc;
  trade_datetime : datetime;
  trade_gateway_name : string
}.

Record TickData := {
  tick_gateway_name : string;
  tick_symbol : json;
  tick_exchange : string;
  tick_datetime : datetime;
  bid_price_1 : json;
  ask_price_1 : json;
  bid_volume_1 : json;
  ask_volume_1 : json;
  last_price : json
}.

Record ContractData := {
  contract_symbol : json;
  contract_exchange : string;
  contract_name : json;
  pricetick : json;
  contract_size : Z;
  min_volume : json;
  product : Product;
  net_position : bool;
  history_data : bool;
  contract_gateway_name : string
}.

Record BarData := {
  bar_symbol : string;
  bar_exchange : string;
  bar_datetime : datetime;
  bar_interval : Interval;
  bar_volume : json;
  open_price : json;
  high_price : json;
  low_price : json;
  close_price : json;
  bar_gateway_name : string
}.

(** ** The gateway state *)

(** Orders are mutable objects that several parties hold at once (the order
    cache, a queued request's [extra], the event handed to the host), so they
    live in a heap and are passed around by address. *)
Definition addr := nat.

Inductive Security :=
| NONE
| SIGNED.

(** The callbacks a REST request can carry. *)
Inductive callback :=
| cb_on_query_account
| cb_on_query_position
| cb_on_query_order
| cb_on_query_contract
| cb_on_send_order
| cb_on_send_order_error
| cb_on_send_order_failed
| cb_on_cancel_order
| cb_on_cancel_failed.

(** A request as handed to [RestClient.add_request] or [RestClient.request].
    [data] is the payload; its ["security"] entry is kept apart. *)
Record Request := {
  method : string;
  path : string;
  callback_ : option callback;
  security : Security;
  data : list (string * json);
  params : list (string * json);
  extra : option addr;
  on_error_ : option callback;
  on_failed_ : option callback
}.

Inductive printed :=
| PText (s : string)
| PJson (v : json)
| POrder (o : OrderData)
| PTrade (t : TradeData).

(** Everything the gateway does to the outside world. *)
Inductive effect :=
| write_log (msg : string)            (* BaseGateway.write_log *)
| print (p : printed)
| send_packet (frame : json)          (* WebsocketClient.send_packet *)
| add_request (r : Request)           (* RestClient.add_request *)
| request (r : Request)               (* RestClient.request, synchronous *)
| rest_start
| ws_start
| push_order (a : addr)               (* BaseGateway.on_order: the object itself *)
| push_trade (t : TradeData)          (* BaseGateway.on_trade *)
| push_tick (t : TickData)            (* BaseGateway.on_tick *)
| push_contract (c : ContractData)    (* BaseGateway.on_contract *)
| rest_on_error.                      (* RestClient.on_error *)

Record Gateway := {
  gateway_name : string;
  (* the Python heap of order objects *)
  heap : list OrderData;
  (* FtxGateway *)
  orders : gmap key addr;
  order_id : gmap key json;
  (* FtxRestApi *)
  order_count : Z;
  connect_time : Z;
  (* FtxWebsocketApi *)
  api_key : string;
  api_secret_key : string;
  subscribed : list (string * SubscribeRequest);
  (* the module-level contract cache *)
  symbol_contract_map : gmap key ContractData;
  (* what the outside world has seen so far, oldest first *)
  trace : list effect
}.

Definition set_heap (f : list OrderData -> list OrderData) (g : Gateway) :=
  {| gateway_name := gateway_name g; heap := f (heap g); orders := orders g;
     order_id := order_id g; order_count := order_count g;
     connect_time := connect_time g; api_key := api_key g;
     api_secret_key := api_secret_key g; subscribed := subscribed g;
     symbol_contract_map := symbol_contract_map g; trace := trace g |}.

Definition set_orders (f : gmap key addr -> gmap key addr) (g : Gateway) :=
  {| gateway_name := gateway_name g; heap := heap g; orders := f (orders g);
     order_id := order_id g; order_count := order_count g;
     connect_time := connect_time g; api_key := api_key g;
     api_secret_key := api_secret_key g; subscribed := subscribed g;
     symbol_contract_map := symbol_contract_map g; trace := trace g |}.

Definition set_order_id (f : gmap key json -> gmap key json) (g : Gateway) :=
  {| gateway_name := gateway_name g; heap := heap g; orders := orders g;
     order_id := f (order_id g); order_count := order_count g;
     connect_time := connect_time g; api_key := api_key g;
     api_secret_key := api_secret_key g; subscribed := subscribed g;
     symbol_contract_map := symbol_contract_map g; trace := trace g |}.

Definition set_order_count (f : Z -> Z) (g : Gateway) :=
  {| gateway_name := gateway_name g; heap := heap g; orders := orders g;
     order_id := order_id g; order_count := f (order_count g);
     connect_time := connect_time g; api_key := api_key g;
     api_secret_key := api_secret_key g; subscribed := subscribed g;
     symbol_contract_map := symbol_contract_map g; trace := trace g |}.

Definition set_connect_time (f : Z -> Z) (g : Gateway) :=
  {| gateway_name := gateway_name g; heap := heap g; orders := orders g;
     order_id := order_id g; order_count := order_count g;
     connect_time := f (connect_time g); api_key := api_key g;
     api_secret_key := api_secret_key g; subscribed := subscribed g;
     symbol_contract_map := symbol_contract_map g; trace := trace g |}.

Definition set_credentials (k secret : string) (g : Gateway) :=
  {| gateway_name := gateway_name g; heap := heap g; orders := orders g;
     order_id := order_id g; order_count := order_count g;
     connect_time := connect_time g; api_key := k;
     api_secret_key := secret; subscribed := subscribed g;
     symbol_contract_map := symbol_contract_map g; trace := trace g |}.

Definition set_subscribed
    (f : list (string * SubscribeRequest) -> list (string * SubscribeRequest))
    (g : Gateway) :=
  {| gateway_name := gateway_name g; heap := heap g; orders := orders g;
     order_id := order_id g; order_count := order_count g;
     connect_time := connect_time g; api_key := api_key g;
     api_secret_key := api_secret_key g; subscribed := f (subscribed g);
     symbol_contract_map := symbol_contract_map g; trace := trace g |}.

Definition set_symbol_contract_map
    (f : gmap key ContractData -> gmap key ContractData) (g : Gateway) :=
  {| gateway_name := gateway_name g; heap := heap g; orders := orders g;
     order_id := order_id g; order_count := order_count g;
     connect_time := connect_time g; api_key := api_key g;
     api_secret_key := api_secret_key g; subscribed := subscribed g;
     symbol_contract_map := f (symbol_contract_map g); trace := trace g |}.

Definition set_trace (f : list effect -> list effect) (g : Gateway) :=
  {| gateway_name := gateway_name g; heap := heap g; orders := orders g;
     order_id := order_id g; order_count := order_count g;
     connect_time := connect_time g; api_key := api_key g;
     api_secret_key := api_secret_key g; subscribed := subscribed g;
     symbol_contract_map := symbol_contract_map g; trace := f (trace g) |}.

(** The state [FtxGateway.__init__] builds (with [FtxRestApi.__init__] and
    [FtxWebsocketApi.__init__]), before anything is connected; the contract
    cache is a module global and may already hold entries. *)
Definition init (name : string) (contracts : gmap key ContractData) : Gateway :=
  {| gateway_name := name; heap := []; orders := ∅; order_id := ∅;
     order_count := 1000000; connect_time := 0;
     api_key := ""; api_secret_key := ""; subscribed := [];
     symbol_contract_map := contracts; trace := [] |}.

(** ** A state-and-exception monad for method bodies

    A method runs on a gateway state and ends with a value or a raised
    exception; what it did to the state before raising stays done. *)
Definition M (A : Type) : Type := Gateway -> result A * Gateway.

Global Instance M_ret : MRet M := fun _ a g => (Ok a, g).
Global Instance M_bind : MBind M := fun _ _ f m g =>
  match m g with
  | (Ok a, g') => f a g'
  | (Raise e, g') => (Raise e, g')
  end.

Definition lift {A} (r : result A) : M A := fun g => (r, g).
Definition gets {A} (f : Gateway -> A) : M A := fun g => (Ok (f g), g).
Definition modify (f : Gateway -> Gateway) : M unit := fun g => (Ok tt, f g).
Definition emit (e : effect) : M unit := modify (set_trace (fun t => t ++ [e])).

(** Run a loop body over the items in order, stopping at the first raise. *)
Fixpoint for_each {A} (l : list A) (body : A -> M unit) : M unit :=
  match l with
  | [] => mret tt
  | x :: l' => body x ;; for_each l' body
  end.

(** Heap access. *)
Definition alloc (o : OrderData) : M addr :=
  a ← gets (fun g => length (heap g));
  modify (set_heap (fun h => h ++ [o])) ;;
  mret a.

(** Reading through an address; the gateway never holds one that dangles,
    and [None] where an order is expected is an [AttributeError]. *)
Definition deref (a : addr) : M OrderData :=
  h ← gets heap;
  match h !! a with
  | Some o => mret o
  | None => lift (Raise AttributeError)
  end.

Definition store (a : addr) (o : OrderData) : M unit :=
  modify (set_heap (fun h => <[a := o]> h)).

(** ** FtxGateway: the parts the two connectors call back into *)

Module FtxGateway.

Definition write_log (msg : string) : M unit := emit (write_log msg).

(** [on_order]: cache a copy of the order under its [orderid], then push
    the order object itself to the event engine. *)
Definition on_order (order : addr) : M unit :=
  o ← deref order;
  c ← alloc o;
  k ← lift (key_of (orderid o));
  modify (set_orders (fun m => <[k := c]> m)) ;;
  emit (push_order order).

(** [get_order]: [self.orders.get(orderid, None)], the cached object. *)
Definition get_order (id : string) : M (option addr) :=
  gets (fun g => orders g !! KStr id).

End FtxGateway.

(** ** FtxRestApi *)

Module FtxRestApi.

Definition get_request (p : string) (cb : callback) (sec : Security) : Request :=
  {| method := "GET"; path := p; callback_ := Some cb; security := sec;
     data := []; params := []; extra := None;
     on_error_ := None; on_failed_ := None |}.

Definition query_account : M unit :=
  emit (add_request (get_request "/api/wallet/balances" cb_on_query_account SIGNED)).

Definition query_position : M unit :=
  emit (add_request (get_request "/api/positions" cb_on_query_position SIGNED)).

Definition query_order : M unit :=
  emit (add_request (get_request "/api/orders" cb_on_query_order SIGNED)).

Definition query_contract : M unit :=
  emit (add_request (get_request "/api/markets" cb_on_query_contract NONE)).

(** [connect]; [now] is [int(datetime.now().strftime("%y%m%d%H%M%S"))]. *)
Definition connect (now : Z) : M unit :=
  c ← gets order_count;
  modify (set_connect_time (fun _ => now * c)) ;;
  emit rest_start ;;
  FtxGateway.write_log "REST API启动成功" ;;
  query_account ;;
  query_position ;;
  query_order ;;
  query_contract.

(** [_new_order_id]: the increment and the read happen under
    [order_count_lock]. *)
Definition _new_order_id : M Z :=
  modify (set_order_count (fun c => c + 1)) ;;
  gets order_count.

Section WithLibrary.
Context (lib : Library).

Definition send_order (req : OrderRequest) : M string :=
  ct ← gets connect_time;
  n ← _new_order_id;
  let orderid := str (ct + n) in
  name ← gets gateway_name;
  order ← alloc (create_order_data req orderid name);
  FtxGateway.on_order order ;;
  side ← lift (DIRECTION_VT2FTX (req_direction req));
  type ← lift (ORDERTYPE_VT2FTX (req_type req));
  let data :=
    [ ("market", JStr (upper (req_symbol req)));
      ("side", JStr side);
      ("price", JStr (str_of_float lib (req_price req)));
      ("size", JStr (str_of_float lib (req_volume req)));
      ("type", JStr type);
      ("reduceOnly", JBool false);
      ("ioc", JBool false);
      ("postOnly", JBool false);
      ("clientId", JStr orderid);
      ("rejectOnPriceBand", JBool false) ] in
  emit (add_request
    {| method := "POST"; path := "/api/orders";
       callback_ := Some cb_on_send_order; security := SIGNED;
       data := data; params := []; extra := Some order;
       on_error_ := Some cb_on_send_order_error;
       on_failed_ := Some cb_on_send_order_failed |}) ;;
  mret (name +:+ "." +:+ orderid).

Definition cancel_order (req : CancelRequest) : M unit :=
  let p := "/api/orders/by_client_id/" +:+ cancel_orderid req in
  order ← FtxGateway.get_order (cancel_orderid req);
  emit (add_request
    {| method := "DELETE"; path := p;
       callback_ := Some cb_on_cancel_order; security := SIGNED;
       data := []; params := []; extra := order;
       on_error_ := None;
       on_failed_ := Some cb_on_cancel_failed |}).

(** The body of the loop of [on_query_order]. *)
Definition on_query_order_item (d : json) : M unit :=
  current_status ← lift (getitem d "status");
  size ← lift (getitem d "size");
  filled_size ← lift (getitem d "filledSize");
  remaining_size ← lift (getitem d "remainingSize");
  let st := Reconcile.on_query_order_status
              current_status size filled_size remaining_size in
  id ← lift (getitem d "clientId");
  market ← lift (getitem d "market");
  price ← lift (getitem d "price" ≫= float lib);
  volume ← lift (getitem d "size" ≫= float lib);
  type ← lift (getitem d "type" ≫= ORDERTYPE_FTX2VT);
  direction ← lift (getitem d "side" ≫= DIRECTION_FTX2VT);
  traded ← lift (getitem d "filledSize");
  dt ← lift (getitem d "createdAt" ≫= change_datetime lib);
  name ← gets gateway_name;
  let o := {| orderid := id; order_symbol := market; order_exchange := "FTX";
              order_price := price; order_volume := volume;
              order_type := type; order_direction := direction;
              order_traded := traded; status := st;
              order_datetime := Some dt; order_gateway_name := name |} in
  order ← alloc o;
  FtxGateway.on_order order ;;
  o' ← deref order;
  emit (print (POrder o')).

Definition on_query_order (data : json) : M unit :=
  items ← lift (getitem data "result" ≫= iter_items);
  for_each items on_query_order_item ;;
  FtxGateway.write_log "委托信息查询成功".

End WithLibrary.

Definition on_query_contract_item (d : json) : M unit :=
  symbol ← lift (getitem d "name");
  name ← lift (getitem d "name");
  tick ← lift (getitem d "priceIncrement");
  minv ← lift (getitem d "sizeIncrement");
  prod ← lift (getitem d "type" ≫= PRODUCTTYPE_FTX2VT);
  gw ← gets gateway_name;
  let contract :=
    {| contract_symbol := symbol; contract_exchange := "FTX";
       contract_name := name; pricetick := tick; contract_size := 1;
       min_volume := minv; product := prod; net_position := true;
       history_data := true; contract_gateway_name := gw |} in
  emit (push_contract contract) ;;
  k ← lift (key_of symbol);
  modify (set_symbol_contract_map (fun m => <[k := contract]> m)).

Definition on_query_contract (data : json) : M unit :=
  items ← lift (getitem data "result" ≫= iter_items);
  emit (print (PText ("合约数量: " +:+ str (Z.of_nat (length items))))) ;;
  for_each items on_query_contract_item ;;
  FtxGateway.write_log "合约信息查询成功".

Definition on_send_order (data : json) (r : Request) : M unit := mret tt.

(** [request.extra] holds the order; [order.status = Status.REJECTED]
    writes through to the object every holder sees. *)
Definition reject (order : addr) : M unit :=
  o ← deref order;
  store order (with_status REJECTED o) ;;
  FtxGateway.on_order order.

(** [transient] says whether the exception is a [ConnectionError] or an
    [SSLError]. *)
Definition on_send_order_error
    (transient : bool) (exception_value : string) (r : Request) : M unit :=
  match extra r with
  | None => lift (Raise AttributeError)
  | Some order =>
      reject order ;;
      (if transient then mret tt else emit rest_on_error) ;;
      emit (print (PText exception_value))
  end.

Definition on_send_order_failed
    (status_code response_text : string) (r : Request) : M unit :=
  match extra r with
  | None => lift (Raise AttributeError)
  | Some order =>
      reject order ;;
      let msg := "委托失败，状态码：" +:+ status_code +:+ "，信息：" +:+ response_text in
      FtxGateway.write_log msg ;;
      emit (print (PText msg))
  end.

Definition on_cancel_order (status_code : string) (r : Request) : M unit :=
  mret tt.

Definition on_cancel_failed
    (status_code response_text : string) (r : Request) : M unit :=
  match extra r with
  | Some order => reject order
  | None => mret tt
  end ;;
  FtxGateway.write_log
    ("撤单失败，状态码：" +:+ status_code +:+ "，信息：" +:+ response_text).

(** What [query_history] hands back: the declared list of bars, or the
    integer of its early [return]. *)
Inductive returned :=
| ret_bars (history : list BarData)
| ret_int (n : Z).

Definition bar_of (req : HistoryRequest) (name : string) (his_data : json)
    : result BarData :=
  time ← getitem his_data "time";
  t ← match num_of time with
      | Some t => Ok (t / Qc_of_Z 1000)%Qc
      | None => Raise TypeError
      end;
  volume ← getitem his_data "volume";
  open ← getitem his_data "open";
  high ← getitem his_data "high";
  low ← getitem his_data "low";
  close ← getitem his_data "close";
  Ok {| bar_symbol := hist_symbol req; bar_exchange := hist_exchange req;
        bar_datetime := utcfromtimestamp t; bar_interval := hist_interval req;
        bar_volume := volume; open_price := open; high_price := high;
        low_price := low; close_price := close; bar_gateway_name := name |}.

(** The loop of [query_history]: [history.append(bar)] for each item. *)
Fixpoint bars_of (req : HistoryRequest) (name : string) (items : list json)
    (history : list BarData) : result (list BarData) :=
  match items with
  | [] => Ok history
  | his_data :: rest =>
      bar ← bar_of req name his_data;
      bars_of req name rest (history ++ [bar])
  end.

(** [query_history]; [response] is what [resp.json()] decodes from the
    exchange's answer to the request. *)
Definition query_history (req : HistoryRequest) (response : json) : M returned :=
  let history := [] in
  resolution ← lift (INTERVAL_VT2FTX (hist_interval req));
  let params := [ ("resolution", JInt resolution);
                  ("start_time", JNum (hist_start req));
                  ("end_time", JNum (hist_end req)) ] in
  let p := "/api/markets/" +:+ hist_symbol req +:+ "/candles?" in
  emit (request
    {| method := "GET"; path := p; callback_ := None; security := NONE;
       data := []; params := params; extra := None;
       on_error_ := None; on_failed_ := None |}) ;;
  let data := response in
  if negb (truthy data) then mret (ret_int 0)
  else
    items ← lift (getitem data "result" ≫= iter_items);
    name ← gets gateway_name;
    bars ← lift (bars_of req name items history);
    mret (ret_bars bars).

End FtxRestApi.

(** ** FtxWebsocketApi *)

Module FtxWebsocketApi.

(** [self.subscribed] is a [dict], which keeps its entries in insertion
    order: [d[k] = v] overwrites in place or appends, [k in d] tests the
    keys, [d.pop(k)] removes, [list(d.values())] lists the values. *)
Fixpoint dict_set {V} (k : string) (v : V) (d : list (string * V))
    : list (string * V) :=
  match d with
  | [] => [(k, v)]
  | (k', v') :: d' =>
      if String.eqb k' k then (k, v) :: d' else (k', v') :: dict_set k v d'
  end.

Definition dict_mem {V} (k : string) (d : list (string * V)) : bool :=
  existsb (fun p => String.eqb (fst p) k) d.

Definition dict_pop {V} (k : string) (d : list (string * V))
    : list (string * V) :=
  filter (fun p => fst p ≠ k) d.

Definition dict_values {V} (d : list (string * V)) : list V := map snd d.

(** [connect]: remember the credentials and start the client. *)
Definition connect (k secret : string) : M unit :=
  modify (set_credentials k secret) ;;
  emit ws_start ;;
  FtxGateway.write_log "行情Websocket API启动成功".

Definition ping : M unit :=
  emit (send_packet (JObj [("op", JStr "ping")])).

Definition subscribe_private_channels : M unit :=
  emit (send_packet (JObj [("op", JStr "subscribe"); ("channel", JStr "fills")])) ;;
  emit (send_packet (JObj [("op", JStr "subscribe"); ("channel", JStr "orders")])).

Definition subscribe_ticker (symbol : string) : json :=
  JObj [("op", JStr "subscribe"); ("channel", JStr "ticker"); ("market", JStr symbol)].

Definition unsubscribe_ticker (symbol : string) : json :=
  JObj [("op", JStr "unsubscribe"); ("channel", JStr "ticker"); ("market", JStr symbol)].

Definition subscribe (req : SubscribeRequest) : M unit :=
  contracts ← gets symbol_contract_map;
  if bool_decide (contracts !! KStr (sub_symbol req) = None) then
    FtxGateway.write_log ("找不到该合约代码" +:+ sub_symbol req)
  else
    subs ← gets subscribed;
    if dict_mem (vt_symbol req) subs then mret tt
    else
      modify (set_subscribed (dict_set (vt_symbol req) req)) ;;
      emit (send_packet (subscribe_ticker (sub_symbol req))) ;;
      subscribe_private_channels.

Definition unsubscribe (req : SubscribeRequest) : M unit :=
  contracts ← gets symbol_contract_map;
  if bool_decide (contracts !! KStr (sub_symbol req) = None) then
    FtxGateway.write_log ("找不到该合约代码" +:+ sub_symbol req)
  else
    subs ← gets subscribed;
    if dict_mem (vt_symbol req) subs then
      modify (set_subscribed (dict_pop (vt_symbol req))) ;;
      emit (send_packet (unsubscribe_ticker (sub_symbol req)))
    else mret tt.

Definition on_disconnected : M unit :=
  FtxGateway.write_log "行情Websocket 连接断开" ;;
  emit (print (PText "断开")).

Section WithLibrary.
Context (lib : Library).

(** [authenticate]; [timestamp] is [int(time.time() * 1000)]. *)
Definition authenticate (timestamp : Z) (k secret : string) : M unit :=
  let signature_payload := str timestamp +:+ "websocket_login" in
  let signature := hmac_sha256_hexdigest lib secret signature_payload in
  emit (send_packet
    (JObj [ ("args", JObj [ ("key", JStr k);
                            ("sign", JStr signature);
                            ("time", JInt timestamp) ]);
            ("op", JStr "login") ])).

(** [on_connected]: the loop runs over a snapshot of the registry's
    values, [list(self.subscribed.values())]. *)
Definition on_connected (timestamp : Z) : M unit :=
  FtxGateway.write_log "行情Websocket API连接刷新" ;;
  ping ;;
  k ← gets api_key;
  secret ← gets api_secret_key;
  authenticate timestamp k secret ;;
  subs ← gets subscribed;
  for_each (dict_values subs) subscribe.

Definition on_packet_ticker (packet : json) : M unit :=
  d ← lift (getitem packet "data");
  name ← gets gateway_name;
  symbol ← lift (getitem packet "market");
  dt ← lift (getitem d "time" ≫= generate_datetime);
  bid ← lift (getitem d "bid");
  ask ← lift (getitem d "ask");
  bid_size ← lift (getitem d "bidSize");
  ask_size ← lift (getitem d "askSize");
  last ← lift (getitem d "last");
  let tick :=
    {| tick_gateway_name := name; tick_symbol := symbol;
       tick_exchange := "FTX"; tick_datetime := dt;
       bid_price_1 := bid; ask_price_1 := ask;
       bid_volume_1 := bid_size; ask_volume_1 := ask_size;
       last_price := last |} in
  if truthy (last_price tick) then emit (push_tick tick) else mret tt.

Definition on_packet_fills (packet : json) : M unit :=
  d ← lift (getitem packet "data");
  symbol ← lift (getitem d "market");
  exchange_id ← lift (getitem d "orderId" ≫= key_of);
  ids ← gets order_id;
  id ← lift (match ids !! exchange_id with
             | Some id => Ok id
             | None => Raise KeyError
             end);
  trade_id ← lift (getitem d "tradeId");
  direction ← lift (getitem d "side" ≫= DIRECTION_FTX2VT);
  price ← lift (getitem d "price" ≫= float lib);
  volume ← lift (getitem d "size" ≫= float lib);
  dt ← lift (getitem d "time" ≫= change_datetime lib);
  name ← gets gateway_name;
  let trade :=
    {| trade_symbol := symbol; trade_exchange := "FTX";
       trade_orderid := id; tradeid := trade_id;
       trade_direction := direction; trade_price := price;
       trade_volume := volume; trade_datetime := dt;
       trade_gateway_name := name |} in
  emit (print (PTrade trade)) ;;
  emit (push_trade trade) ;;
  FtxRestApi.query_position.

Definition on_packet_orders (packet : json) : M unit :=
  d ← lift (getitem packet "data");
  current_status ← lift (getitem d "status");
  size ← lift (getitem d "size");
  filled_size ← lift (getitem d "filledSize");
  remaining_size ← lift (getitem d "remainingSize");
  let st := Reconcile.on_packet_status
              current_status size filled_size remaining_size in
  id ← lift (getitem d "clientId");
  market ← lift (getitem d "market");
  price ← lift (getitem d "price" ≫= float lib);
  volume ← lift (getitem d "size" ≫= float lib);
  type ← lift (getitem d "type" ≫= ORDERTYPE_FTX2VT);
  direction ← lift (getitem d "side" ≫= DIRECTION_FTX2VT);
  traded ← lift (getitem d "filledSize");
  dt ← lift (getitem d "createdAt" ≫= change_datetime lib);
  name ← gets gateway_name;
  let o := {| orderid := id; order_symbol := market; order_exchange := "FTX";
              order_price := price; order_volume := volume;
              order_type := type; order_direction := direction;
              order_traded := traded; status := st;
              order_datetime := Some dt; order_gateway_name := name |} in
  order ← alloc o;
  emit (print (POrder o)) ;;
  exchange_id ← lift (getitem d "id" ≫= key_of);
  client_id ← lift (getitem d "clientId");
  modify (set_order_id (fun m => <[exchange_id := client_id]> m)) ;;
  FtxGateway.on_order order.

(** [on_packet]: dispatch on the frame's type and channel. *)
Definition on_packet (packet : json) : M unit :=
  type ← lift (getitem packet "type");
  if py_eq type (JStr "update") then
    channel ← lift (getitem packet "channel");
    if py_eq channel (JStr "ticker") then on_packet_ticker packet
    else if py_eq channel (JStr "fills") then on_packet_fills packet
    else if py_eq channel (JStr "orders") then on_packet_orders packet
    else emit (print (PJson packet))
  else emit (print (PJson packet)).

End WithLibrary.

End FtxWebsocketApi.

(** ** Observing a run *)

(** Running a method for its final state. *)
Definition exec {A} (m : M A) (g : Gateway) : Gateway := snd (m g).

(** The frames a trace sent over the WebSocket, oldest first. *)
Definition sent (t : list effect) : list json :=
  omap (fun e => match e with send_packet f => Some f | _ => None end) t.

(** The REST requests a trace queued, oldest first. *)
Definition queued (t : list effect) : list Request :=
  omap (fun e => match e with add_request r => Some r | _ => None end) t.

(** The log lines of a trace. *)
Definition logged (t : list effect) : list string :=
  omap (fun e => match e with write_log m => Some m | _ => None end) t.

(** The order objects a trace pushed to the host. *)
Definition pushed (t : list effect) : list addr :=
  omap (fun e => match e with push_order a => Some a | _ => None end) t.

(** What happened between state [g] and a later state [g']. *)
Definition since (g g' : Gateway) : list effect :=
  drop (length (trace g)) (trace g').

(** The [orderid]s of the orders pushed between [g] and [g']. *)
Definition pushed_ids (g g' : Gateway) : list json :=
  omap (fun a => orderid <$> heap g' !! a) (pushed (since g g')).

(** A frame that subscribes to a ticker channel. *)
Definition is_ticker_subscribe (f : json) : bool :=
  match getitem f "op", getitem f "channel" with
  | Ok op, Ok ch => py_eq op (JStr "subscribe") && py_eq ch (JStr "ticker")
  | _, _ => false
  end.

(** A frame that subscribes to any channel. *)
Definition is_subscribe (f : json) : bool :=
  match getitem f "op" with
  | Ok op => py_eq op (JStr "subscribe")
  | _ => false
  end.

(** The status of the order cached under a client order id. *)
Definition cached_status (g : Gateway) (id : string) : option status_value :=
  a ← orders g !! KStr id;
  status <$> heap g !! a.

(** The order id text of a number. *)
Definition id_of (n : Z) : json := JStr (str n).

(** One call of [send_order] after the other; each call is listed with the
    order ids it pushed. *)
Fixpoint send_orders (lib : Library) (reqs : list OrderRequest) (g : Gateway)
    : list json * Gateway :=
  match reqs with
  | [] => ([], g)
  | req :: rest =>
      let g' := exec (FtxRestApi.send_order lib req) g in
      let '(ids, g'') := send_orders lib rest g' in
      (pushed_ids g g' ++ ids, g'')
  end.

(** Every key of the subscription registry is the [vt_symbol] of the request
    stored under it, as [subscribe] writes it. *)
Definition registry_keyed (subs : list (string * SubscribeRequest)) : Prop :=
  Forall (fun p => fst p = vt_symbol (snd p)) subs.

(** ** The reconciliation table of the specification *)

Module Table.

(** One row: a condition on (status, size, filledSize, remainingSize) and
    the canonical status it yields. *)
Definition row : Type := (json -> json -> json -> json -> bool) * Status.

(** The five rows, in the order the specification lists them. *)
Definition rows : list row :=
  [ (fun st _ _ _ => py_eq st (JStr "new"), NOTTRADED);
    (fun st _ filled _ => py_eq st (JStr "open") && py_eq filled (JInt 0), NOTTRADED);
    (fun st size filled _ => py_eq st (JStr "open") && negb (py_eq size filled), PARTTRADED);
    (fun st size filled _ => py_eq st (JStr "closed") && negb (py_eq size filled), CANCELLED);
    (fun _ size filled remaining =>
       py_eq size filled && py_eq remaining (JInt 0), ALLTRADED) ].

(** First match wins; [None] when no row matches. *)
Definition first_match (st size filled remaining : json) : option Status :=
  snd <$> find (fun r : row => fst r st size filled remaining) rows.

End Table.

(** ** Concurrent callers of [send_order]

    Several threads run the first statement of [send_order],
    [orderid = str(self.connect_time + self._new_order_id())], at once.  A
    thread is followed through the reads and writes of that statement; the
    scheduler picks who moves next; [order_count_lock] lets one thread at a
    time into the [with] block of [_new_order_id]. *)

Module Concurrent.

Inductive pc :=
| Start                          (* about to read [self.connect_time] *)
| WaitLock (ct : Z)              (* at [with self.order_count_lock] *)
| Locked (ct : Z)                (* lock held, about to load [order_count] *)
| Loaded (ct c : Z)              (* [order_count] loaded, about to store [c + 1] *)
| Incremented (ct : Z)           (* about to read the return value *)
| Returning (ct n : Z)           (* value in hand, about to release the lock *)
| Done (orderid : string).       (* [orderid] computed *)

Record world := {
  gw : Gateway;
  lock : option nat;
  threads : list pc;
  generated : list Z       (* the numbers handed out, in the order of the reads *)
}.

Definition spawn (n : nat) (g : Gateway) : world :=
  {| gw := g; lock := None; threads := replicate n Start; generated := [] |}.

(** Thread [t] takes its next step, or waits if it is blocked. *)
Definition step (t : nat) (w : world) : world :=
  match threads w !! t with
  | None => w
  | Some Start =>
      {| gw := gw w; lock := lock w;
         threads := <[t := WaitLock (connect_time (gw w))]> (threads w);
         generated := generated w |}
  | Some (WaitLock ct) =>
      match lock w with
      | None =>
          {| gw := gw w; lock := Some t;
             threads := <[t := Locked ct]> (threads w);
             generated := generated w |}
      | Some _ => w
      end
  | Some (Locked ct) =>
      {| gw := gw w; lock := lock w;
         threads := <[t := Loaded ct (order_count (gw w))]> (threads w);
         generated := generated w |}
  | Some (Loaded ct c) =>
      {| gw := set_order_count (fun _ => c + 1) (gw w); lock := lock w;
         threads := <[t := Incremented ct]> (threads w);
         generated := generated w |}
  | Some (Incremented ct) =>
      let n := order_count (gw w) in
      {| gw := gw w; lock := lock w;
         threads := <[t := Returning ct n]> (threads w);
         generated := generated w ++ [ct + n] |}
  | Some (Returning ct n) =>
      {| gw := gw w; lock := None;
         threads := <[t := Done (str (ct + n))]> (threads w);
         generated := generated w |}
  | Some (Done _) => w
  end.

(** A schedule names the thread that moves at each tick. *)
Definition run (schedule : list nat) (w : world) : world :=
  foldl (fun w t => step t w) w schedule.

(** The order ids of the calls that have finished. *)
Definition finished (w : world) : list string :=
  omap (fun p => match p with Done id => Some id | _ => None end) (threads w).

(** The seed a thread has read, if it has read it and not used it up. *)
Definition seed_of (p : pc) : option Z :=
  match p with
  | WaitLock ct | Locked ct | Loaded ct _ | Incremented ct | Returning ct _ => Some ct
  | Start | Done _ => None
  end.

(** Whether a thread is inside the [with] block. *)
Definition in_block (p : pc) : bool :=
  match p with
  | Locked _ | Loaded _ _ | Incremented _ | Returning _ _ => true
  | Start | WaitLock _ | Done _ => false
  end.

(** The order id a thread owns once it has read its number. *)
Definition owned (p : pc) : option string :=
  match p with
  | Returning ct n => Some (str (ct + n))
  | Done id => Some id
  | _ => None
  end.

(** What every reachable world satisfies, for the seed [ct0] of the
    connection lifetime. *)
Record inv (ct0 : Z) (w : world) : Prop := {
  inv_seed : connect_time (gw w) = ct0;
  inv_seeds : forall t p ct,
    threads w !! t = Some p -> seed_of p = Some ct -> ct = ct0;
  inv_lock : forall t p,
    threads w !! t = Some p -> in_block p = true -> lock w = Some t;
  inv_sorted : StronglySorted Z.lt (generated w);
  inv_bound : Forall (fun x => x <= ct0 + order_count (gw w)) (generated w);
  inv_loaded : forall t ct c,
    threads w !! t = Some (Loaded ct c) -> c = order_count (gw w);
  inv_fresh : forall t ct,
    threads w !! t = Some (Incremented ct) ->
    Forall (fun x => x < ct0 + order_count (gw w)) (generated w);
  inv_owned : omap owned (threads w) ≡ₚ str <$> generated w
}.

End Concurrent.

(** ** Sample data for the worked examples *)

Module Sample.

(** One library instance to run the model on concrete inputs: it reads
    integer texts as numbers, accepts timestamps written with exactly six
    fractional digits, and renders floats and digests symbolically. *)
Definition digit_to_zero (c : ascii) : ascii :=
  let n := nat_of_ascii c in
  if ((48 <=? n) && (n <=? 57))%nat then "0"%char else c.

Fixpoint digits_to_zero (s : string) : string :=
  match s with
  | EmptyString => EmptyString
  | String c s' => String (digit_to_zero c) (digits_to_zero s')
  end.

Definition library : Library :=
  {| float_of_text := fun s =>
       (fun d => Qc_of_Z (Z.of_int d)) <$> NilZero.int_of_string s;
     strptime_accepts := fun s =>
       String.eqb (digits_to_zero s) "0000-00-00T00:00:00.000000";
     str_of_float := fun q =>
       str (Qnum q) +:+ "/" +:+ str (Z.pos (Qden q));
     hmac_sha256_hexdigest := fun k msg =>
       "hmac-sha256(" +:+ k +:+ "," +:+ msg +:+ ")" |}.

Definition contract (symbol : string) : ContractData :=
  {| contract_symbol := JStr symbol; contract_exchange := "FTX";
     contract_name := JStr symbol; pricetick := JInt 1; contract_size := 1;
     min_volume := JInt 1; product := FUTURES; net_position := true;
     history_data := true; contract_gateway_name := "FTX" |}.

(** A fresh gateway that knows two contracts. *)
Definition gateway : Gateway :=
  init "FTX" (<[KStr "BTC-PERP" := contract "BTC-PERP"]>
             (<[KStr "ETH-PERP" := contract "ETH-PERP"]> ∅)).

Definition btc : SubscribeRequest :=
  {| sub_symbol := "BTC-PERP"; sub_exchange := "FTX" |}.

Definition eth : SubscribeRequest :=
  {| sub_symbol := "ETH-PERP"; sub_exchange := "FTX" |}.

Definition buy : OrderRequest :=
  {| req_symbol := "btc-perp"; req_exchange := "FTX"; req_direction := LONG;
     req_type := LIMIT; req_volume := Qc_of_Z 1; req_price := Qc_of_Z 20000 |}.

(** An order the tables cannot translate: a stop order. *)
Definition stop : OrderRequest :=
  {| req_symbol := "btc-perp"; req_exchange := "FTX"; req_direction := LONG;
     req_type := STOP; req_volume := Qc_of_Z 1; req_price := Qc_of_Z 20000 |}.

Definition order_record (st : string) (size filled remaining : Z) : json :=
  JObj [ ("id", JInt 4242); ("clientId", JStr "7");
         ("market", JStr "BTC-PERP"); ("type", JStr "limit");
         ("side", JStr "buy"); ("price", JInt 20000);
         ("size", JInt size); ("filledSize", JInt filled);
         ("remainingSize", JInt remaining); ("status", JStr st);
         ("createdAt", JStr "2021-03-01T10:00:00.000000+00:00") ].

Definition orders_frame (st : string) (size filled remaining : Z) : json :=
  JObj [ ("channel", JStr "orders"); ("type", JStr "update");
         ("data", order_record st size filled remaining) ].

Definition fills_frame (exchange_id : Z) : json :=
  JObj [ ("channel", JStr "fills"); ("type", JStr "update");
         ("data", JObj [ ("market", JStr "BTC-PERP"); ("orderId", JInt exchange_id);
                         ("tradeId", JInt 1); ("side", JStr "buy");
                         ("price", JInt 20000); ("size", JInt 1);
                         ("time", JStr "2021-03-01T10:00:01.000000+00:00") ]) ].

Definition history : HistoryRequest :=
  {| hist_symbol := "BTC-PERP"; hist_exchange := "FTX";
     hist_start := Qc_of_Z 1614592800; hist_end := Qc_of_Z 1614596400;
     hist_interval := MINUTE |}.

End Sample.

(** ** The heartbeat *)

Module Heartbeat.

(** [FtxGateway.init_ping]: the counter [self.count] starts at zero (and the
    timer handler is registered with the event engine). *)
Definition init_ping : Z := 0.

(** [FtxGateway.process_timer_event], with [self.count] passed in and handed
    back: the counter is reset before the ping goes out. *)
Definition process_timer_event (count : Z) : M Z :=
  let count := count + 1 in
  if count <? 15 then mret count
  else
    let count := 0 in
    FtxWebsocketApi.ping ;;
    mret count.

(** [n] timer events in a row. *)
Fixpoint ticks (n : nat) (count : Z) : M Z :=
  match n with
  | O => mret count
  | S n' => count' ← process_timer_event count; ticks n' count'
  end.

(** The ping frame. *)
Definition ping_frame : json := JObj [("op", JStr "ping")].

End Heartbeat.

(** ** Account and position answers

    [on_query_account] and [on_query_position] read and write nothing of the
    gateway but its name; what they publish, print and log is listed in
    order, next to how the call ended. *)

Module Queries.

(** A float difference that is passed along but never inspected: its two
    operands. *)
Inductive difference :=
| minus (minuend subtrahend : Qc).

(** [vnpy.trader.object.AccountData] and [PositionData]. *)
Record AccountData := {
  accountid : json;
  balance : json;
  available : json;
  frozen : difference;
  account_gateway_name : string
}.

Record PositionData := {
  position_symbol : json;
  position_exchange : string;
  position_direction : Direction;
  position_volume : Qc;
  position_price : Qc;
  pnl : Qc;
  position_gateway_name : string
}.

Inductive event :=
| on_account (a : AccountData)       (* BaseGateway.on_account *)
| print_account (a : AccountData)
| on_position (p : PositionData)     (* BaseGateway.on_position *)
| print_position (p : PositionData)
| log (msg : string).                (* BaseGateway.write_log *)

(** The account built from one item of the answer; [balance - available]
    needs two numbers. *)
Definition account_of (name : string) (asset : json) : result AccountData :=
  coin ← getitem asset "coin";
  total ← getitem asset "total";
  free ← getitem asset "free";
  match num_of total, num_of free with
  | Some b, Some a =>
      Ok {| accountid := coin; balance := total; available := free;
            frozen := minus b a; account_gateway_name := name |}
  | _, _ => Raise TypeError
  end.

(** The loop of [on_query_account]: an account is published, and printed,
    only [if account.balance]. *)
Fixpoint on_query_account_loop (name : string) (items : list json)
    : list event * result unit :=
  match items with
  | [] => ([], Ok tt)
  | asset :: rest =>
      match account_of name asset with
      | Raise e => ([], Raise e)
      | Ok account =>
          let now :=
            if truthy (balance account)
            then [on_account account; print_account account]
            else [] in
          let '(later, r) := on_query_account_loop name rest in
          (now ++ later, r)
      end
  end.

Definition on_query_account (name : string) (data : json)
    : list event * result unit :=
  match getitem data "result" ≫= iter_items with
  | Raise e => ([], Raise e)
  | Ok items =>
      match on_query_account_loop name items with
      | (events, Ok _) => (events ++ [log "账户资金查询成功"], Ok tt)
      | (events, Raise e) => (events, Raise e)
      end
  end.

(** The position built from one item, or [None] when its [entryPrice] is
    [None]: then nothing else of the item is read. *)
Definition position_of (lib : Library) (name : string) (d : json)
    : result (option PositionData) :=
  entry ← getitem d "entryPrice";
  match entry with
  | JNull => Ok None
  | _ =>
      symbol ← getitem d "future";
      direction ← getitem d "side" ≫= DIRECTION_FTX2VT;
      volume ← getitem d "size" ≫= float lib;
      price ← getitem d "entryPrice" ≫= float lib;
      unrealized ← getitem d "unrealizedPnl" ≫= float lib;
      Ok (Some {| position_symbol := symbol; position_exchange := "FTX";
                  position_direction := direction; position_volume := volume;
                  position_price := price; pnl := unrealized;
                  position_gateway_name := name |})
  end.

(** The loop of [on_query_position]: a position is published only
    [if position.volume], and printed either way. *)
Fixpoint on_query_position_loop (lib : Library) (name : string)
    (items : list json) : list event * result unit :=
  match items with
  | [] => ([], Ok tt)
  | d :: rest =>
      match position_of lib name d with
      | Raise e => ([], Raise e)
      | Ok found =>
          let now :=
            match found with
            | None => []
            | Some position =>
                (if bool_decide (position_volume position = Qc_of_Z 0)
                 then [] else [on_position position])
                ++ [print_position position]
            end in
          let '(later, r) := on_query_position_loop lib name rest in
          (now ++ later, r)
      end
  end.

Definition on_query_position (lib : Library) (name : string) (data : json)
    : list event * result unit :=
  match getitem data "result" ≫= iter_items with
  | Raise e => ([], Raise e)
  | Ok items =>
      match on_query_position_loop lib name items with
      | (events, Ok _) => (events ++ [log "持仓信息查询成功"], Ok tt)
      | (events, Raise e) => (events, Raise e)
      end
  end.

(** The accounts and positions a list of events published. *)
Definition accounts (events : list event) : list AccountData :=
  omap (fun e => match e with on_account a => Some a | _ => None end) events.

Definition positions (events : list event) : list PositionData :=
  omap (fun e => match e with on_position p => Some p | _ => None end) events.

Definition printed_positions (events : list event) : list PositionData :=
  omap (fun e => match e with print_position p => Some p | _ => None end) events.

Definition printed_accounts (events : list event) : list AccountData :=
  omap (fun e => match e with print_account a => Some a | _ => None end) events.

Definition logs (events : list event) : list string :=
  omap (fun e => match e with log m => Some m | _ => None end) events.

End Queries.

(** ** The gateway in use

    What can happen to a gateway: the host calls a method, the WebSocket
    client reports a connection event or hands over a frame, the REST client
    hands over the answer to a query, or reports the failure of a request
    it was given.  A failure callback runs on a request that was queued with
    that callback, named here by its place among the queued requests. *)

Module Host.

Inductive call :=
| rest_connect (now : Z)
| ws_connect (k secret : string)
| ws_connected (timestamp : Z)
| ws_disconnected
| ws_packet (packet : json)
| call_subscribe (req : SubscribeRequest)
| call_unsubscribe (req : SubscribeRequest)
| call_send_order (req : OrderRequest)
| call_cancel_order (req : CancelRequest)
| call_query_history (req : HistoryRequest) (response : json)
| answer_orders (data : json)
| answer_contracts (data : json)
| fail_send_order (n : nat) (status_code response_text : string)
| error_send_order (n : nat) (transient : bool) (exception_value : string)
| fail_cancel (n : nat) (status_code response_text : string).

(** Running a callback on the [n]-th queued request, if that request carries
    it. *)
Definition with_request (n : nat) (carries : Request -> bool)
    (body : Request -> M unit) : M unit :=
  t ← gets trace;
  match queued t !! n with
  | Some rq => if carries rq then body rq else mret tt
  | None => mret tt
  end.

Definition is_send_order_failed (rq : Request) : bool :=
  match on_failed_ rq with
  | Some cb_on_send_order_failed => true
  | _ => false
  end.

Definition is_send_order_error (rq : Request) : bool :=
  match on_error_ rq with
  | Some cb_on_send_order_error => true
  | _ => false
  end.

Definition is_cancel_failed (rq : Request) : bool :=
  match on_failed_ rq with
  | Some cb_on_cancel_failed => true
  | _ => false
  end.

Definition perform (lib : Library) (c : call) : M unit :=
  match c with
  | rest_connect now => FtxRestApi.connect now
  | ws_connect k secret => FtxWebsocketApi.connect k secret
  | ws_connected timestamp => FtxWebsocketApi.on_connected lib timestamp
  | ws_disconnected => FtxWebsocketApi.on_disconnected
  | ws_packet packet => FtxWebsocketApi.on_packet lib packet
  | call_subscribe req => FtxWebsocketApi.subscribe req
  | call_unsubscribe req => FtxWebsocketApi.unsubscribe req
  | call_send_order req => FtxRestApi.send_order lib req ;; mret tt
  | call_cancel_order req => FtxRestApi.cancel_order req
  | call_query_history req response =>
      FtxRestApi.query_history req response ;; mret tt
  | answer_orders data => FtxRestApi.on_query_order lib data
  | answer_contracts data => FtxRestApi.on_query_contract data
  | fail_send_order n status_code response_text =>
      with_request n is_send_order_failed
        (FtxRestApi.on_send_order_failed status_code response_text)
  | error_send_order n transient exception_value =>
      with_request n is_send_order_error
        (FtxRestApi.on_send_order_error transient exception_value)
  | fail_cancel n status_code response_text =>
      with_request n is_cancel_failed
        (FtxRestApi.on_cancel_failed status_code response_text)
  end.

(** A history of calls, oldest first; a call that raises leaves the gateway
    as it was when it raised. *)
Definition run (lib : Library) (calls : list call) (g : Gateway) : Gateway :=
  foldl (fun g c => exec (perform lib c) g) g calls.

End Host.

(** ** What every gateway state satisfies *)

(** The object at an address, known by a property of its [orderid]. *)
Definition order_at (g : Gateway) (a : addr) (P : json -> Prop) : Prop :=
  exists o, heap g !! a = Some o /\ P (orderid o).

(** The keys of the subscription registry, in order. *)
Definition registry_keys (g : Gateway) : list string := fst <$> subscribed g.

(** The id of the order a request carries: it can be hashed, and it is the
    client id the request names, if it names one. *)
Definition carried_id (rq : Request) (id : json) : Prop :=
  (exists k, key_of id = Ok k) /\
  forall c, assoc "clientId" (data rq) = Some c -> id = c.

Record consistent (g : Gateway) : Prop := {
  (* the order cache points into the heap, each key at an order with that id *)
  cache_in_heap : forall k a,
    orders g !! k = Some a -> order_at g a (fun id => key_of id = Ok k);
  (* the order a queued request carries is in the heap, and has the client
     id the request names *)
  queued_in_heap : forall rq a,
    rq ∈ queued (trace g) -> extra rq = Some a ->
    order_at g a (carried_id rq);
  (* a request queued by [send_order] carries an order and names its id *)
  queued_send_order : forall rq,
    rq ∈ queued (trace g) -> Host.is_send_order_failed rq = true ->
    Host.is_send_order_error rq = true /\
    exists a id, extra rq = Some a /\ assoc "clientId" (data rq) = Some (JStr id);
  (* every order pushed to the host is in the heap *)
  pushed_in_heap : forall a, a ∈ pushed (trace g) -> (a < length (heap g))%nat;
  (* the registry is keyed by [vt_symbol], without repeated keys *)
  registry_is_keyed : registry_keyed (subscribed g);
  registry_no_repeat : NoDup (registry_keys g);
  (* the order counter never falls below its start *)
  counter_from_start : 1000000 <= order_count g
}.

(** The status of the order cached under a key. *)
Definition status_under (g : Gateway) (k : key) : option status_value :=
  a ← orders g !! k;
  status <$> heap g !! a.

(** Consistency, once there, stays. *)
Definition keeps_consistent (g g' : Gateway) : Prop :=
  consistent g -> consistent g'.

(** An effect that names no order. *)
Definition names_no_order (e : effect) : bool :=
  match e with
  | push_order _ => false
  | add_request rq =>
      match extra rq with
      | Some _ => false
      | None => negb (Host.is_send_order_failed rq)
      end
  | _ => true
  end.

(** A relation between the state before and the state after, kept by every
    run of a method. *)
Definition rel (R : Gateway -> Gateway -> Prop) {A} (m : M A) : Prop :=
  forall g, R g (snd (m g)).

(** The parts of the gateway a call can leave alone. *)
Definition same_count (g g' : Gateway) : Prop :=
  order_count g' = order_count g.

Definition same_seed (g g' : Gateway) : Prop :=
  connect_time g' = connect_time g.

Definition same_id_cache (g g' : Gateway) : Prop :=
  order_id g' = order_id g.

Definition same_registry (g g' : Gateway) : Prop :=
  subscribed g' = subscribed g.

Definition same_contracts (g g' : Gateway) : Prop :=
  symbol_contract_map g' = symbol_contract_map g.

Definition same_orders (g g' : Gateway) : Prop :=
  heap g' = heap g /\ orders g' = orders g.

Definition same_credentials (g g' : Gateway) : Prop :=
  api_key g' = api_key g /\ api_secret_key g' = api_secret_key g.

(** Nothing is ever taken away: the order ids that are cached, the exchange
    ids that are known and the contracts that are known stay so, and the
    order counter does not go down. *)
Definition grows (g g' : Gateway) : Prop :=
  dom (orders g) ⊆ dom (orders g') /\
  dom (order_id g) ⊆ dom (order_id g') /\
  dom (symbol_contract_map g) ⊆ dom (symbol_contract_map g') /\
  order_count g <= order_count g'.

(** ** More on the concurrent callers *)

Module Accounting.
Import Concurrent.

(** One while the caller that holds the lock has stored the incremented
    counter and not yet read it back; zero otherwise. *)
Definition pending (w : world) : Z :=
  match lock w with
  | Some t =>
      match threads w !! t with
      | Some (Incremented _) => 1
      | _ => 0
      end
  | None => 0
  end.

(** For the counter value [c0] and the seed [ct0] the callers started with:
    the lock is held by a caller inside the block, the numbers handed out so
    far are the next ones after [c0], and the counter has moved once for
    each of them. *)
Record accounted (c0 ct0 : Z) (w : world) : Prop := {
  lock_has_owner : forall t,
    lock w = Some t -> exists p, threads w !! t = Some p /\ in_block p = true;
  handed_out : generated w
    = seqZ (ct0 + (c0 + 1)) (Z.of_nat (length (generated w)));
  counted : order_count (gw w)
    = c0 + Z.of_nat (length (generated w)) + pending w
}.

(** The steps a caller still has to take. *)
Definition remaining (p : pc) : nat :=
  match p with
  | Start => 6
  | WaitLock _ => 5
  | Locked _ => 4
  | Loaded _ _ => 3
  | Incremented _ => 2
  | Returning _ _ => 1
  | Done _ => 0
  end.

Definition work (w : world) : nat := sum_list_with remaining (threads w).

End Accounting.

(** ** What a call can do to the outside world *)

(** The trace grows at its end only, and by effects that satisfy [P]. *)
Definition adds_only (P : effect -> bool) (g g' : Gateway) : Prop :=
  exists l, trace g' = trace g ++ l /\ forallb P l = true.

(** The position query, [query_position]'s request. *)
Definition is_position_query (r : Request) : bool :=
  String.eqb (method r) "GET" && String.eqb (path r) "/api/positions" &&
  match extra r with None => true | Some _ => false end.

(** The kinds of effect each call can have.  The WebSocket side queues one
    kind of REST request only, the position query after a fill; the REST
    side sends no frame; a tick goes out only with a last price. *)
Definition allowed (c : Host.call) (e : effect) : bool :=
  match c, e with
  | Host.rest_connect _, (rest_start | write_log _ | add_request _) => true
  | Host.ws_connect _ _, (ws_start | write_log _) => true
  | Host.ws_connected _, (write_log _ | send_packet _) => true
  | Host.ws_disconnected, (write_log _ | print _) => true
  | Host.ws_packet _, (print _ | push_order _ | push_trade _) => true
  | Host.ws_packet _, push_tick t => truthy (last_price t)
  | Host.ws_packet _, add_request r => is_position_query r
  | Host.call_subscribe _, (write_log _ | send_packet _) => true
  | Host.call_unsubscribe _, (write_log _ | send_packet _) => true
  | Host.call_send_order _, (push_order _ | add_request _) => true
  | Host.call_cancel_order _, add_request _ => true
  | Host.call_query_history _ _, request _ => true
  | Host.answer_orders _, (push_order _ | print _ | write_log _) => true
  | Host.answer_contracts _, (print _ | push_contract _ | write_log _) => true
  | Host.fail_send_order _ _ _, (push_order _ | write_log _ | print _) => true
  | Host.error_send_order _ _ _, (push_order _ | rest_on_error | print _) => true
  | Host.fail_cancel _ _ _, (push_order _ | write_log _) => true
  | _, _ => false
  end.

(** The trades a trace published. *)
Definition trades (t : list effect) : list TradeData :=
  omap (fun e => match e with push_trade x => Some x | _ => None end) t.

(** A call that is not the answer to the contract query. *)
Definition no_contracts_answer (c : Host.call) : bool :=
  match c with
  | Host.answer_contracts _ => false
  | _ => true
  end.

(** The contracts a trace published. *)
Definition published_contracts (t : list effect) : list ContractData :=
  omap (fun e => match e with push_contract c => Some c | _ => None end) t.

(** The contract cache holds a contract for the market [s]. *)
Definition knows (g : Gateway) (s : string) : Prop :=
  exists c, symbol_contract_map g !! KStr s = Some c /\ contract_symbol c = JStr s.

(** A call that is not the WebSocket [connect]. *)
Definition keeps_credentials (c : Host.call) : bool :=
  match c with
  | Host.ws_connect _ _ => false
  | _ => true
  end.
(** * Results *)

(** Unfolding the monad of method bodies. *)
Ltac unfold_m :=
  unfold exec, FtxGateway.write_log, FtxGateway.on_order, FtxGateway.get_order,
    alloc, deref, store, emit, modify, gets, lift in *;
  unfold mbind, M_bind, mret, M_ret in *.

Lemma since_app (g g' : Gateway) (l : list effect) :
  trace g' = trace g ++ l -> since g g' = l.
Proof. intros H. unfold since. rewrite H. apply drop_app_length. Qed.

Lemma sent_cons (e : effect) (l : list effect) :
  sent (e :: l) = sent [e] ++ sent l.
Proof. by destruct e. Qed.


(** ** Worked examples of the reconciliation (specification, section 8) *)

Example reconcile_new :
  Reconcile.on_query_order_status (JStr "new") (JInt 10) (JInt 0) (JInt 10)
  = StatusMember NOTTRADED.
Proof. reflexivity. Qed.

Example reconcile_part :
  Reconcile.on_packet_status (JStr "open") (JInt 10) (JInt 4) (JInt 6)
  = StatusMember PARTTRADED.
Proof. vm_compute. reflexivity. Qed.

Example reconcile_cancelled :
  Reconcile.on_packet_status (JStr "closed") (JInt 10) (JInt 6) (JInt 4)
  = StatusMember CANCELLED.
Proof. vm_compute. reflexivity. Qed.

Example reconcile_all :
  Reconcile.on_query_order_status (JStr "open") (JInt 10) (JInt 10) (JInt 0)
  = StatusMember ALLTRADED.
Proof. vm_compute. reflexivity. Qed.

Example reconcile_gibberish :
  Reconcile.on_packet_status (JStr "gibberish") (JInt 1) (JInt 1) (JInt 0)
  = StatusMember ALLTRADED.
Proof. vm_compute. reflexivity. Qed.

Example str_examples : str 0 = "0" /\ str 1000001 = "1000001" /\ str (-5) = "-5".
Proof. repeat split. Qed.

(** ** The reconciliation rules *)

Section ReconcileFacts.
Variables current_status size filled_size remaining_size : json.

(** The REST copy and the WebSocket copy of the chain are the same
    function. *)
Lemma status_paths_agree :
  Reconcile.on_query_order_status current_status size filled_size remaining_size
  = Reconcile.on_packet_status current_status size filled_size remaining_size.
Proof. reflexivity. Qed.

(** The chain is the first-match reading of the table, with the text
    ["other status"] where the table has no row. *)
Lemma status_is_first_match :
  Reconcile.on_packet_status current_status size filled_size remaining_size
  = match Table.first_match current_status size filled_size remaining_size with
    | Some st => StatusMember st
    | None => StatusText "other status"
    end.
Proof.
  unfold Reconcile.on_packet_status, Table.first_match, Table.rows. simpl.
  destruct (py_eq current_status (JStr "new")); [done|].
  destruct (py_eq current_status (JStr "open")); simpl.
  - destruct (py_eq filled_size (JInt 0)); [done|].
    destruct (py_eq size filled_size); simpl; [|done].
    destruct (py_eq current_status (JStr "closed")); simpl;
      by destruct (py_eq remaining_size (JInt 0)).
  - destruct (py_eq current_status (JStr "closed")); simpl;
      destruct (py_eq size filled_size); simpl; try done;
      by destruct (py_eq remaining_size (JInt 0)).
Qed.

(** With [filledSize == size] the [CANCELLED] row cannot fire. *)
Lemma filled_never_cancelled :
  py_eq size filled_size = true ->
  Reconcile.on_packet_status current_status size filled_size remaining_size
  <> StatusMember CANCELLED.
Proof.
  intros Hf. unfold Reconcile.on_packet_status. rewrite Hf. simpl.
  rewrite !andb_false_r.
  destruct (py_eq current_status (JStr "new")); [done|].
  destruct (py_eq current_status (JStr "open") && py_eq filled_size (JInt 0));
    [done|].
  by destruct (py_eq remaining_size (JInt 0)).
Qed.

End ReconcileFacts.

(** C3, the claim as written fails: a record with [filledSize == size] and
    [remainingSize == 0] whose raw status is ["new"] is caught by the first
    row and comes out as [NOTTRADED], on both paths. *)
Lemma new_and_filled_is_not_all_traded :
  py_eq (JInt 1) (JInt 1) = true /\
  py_eq (JInt 0) (JInt 0) = true /\
  Reconcile.on_query_order_status (JStr "new") (JInt 1) (JInt 1) (JInt 0)
    = StatusMember NOTTRADED /\
  Reconcile.on_packet_status (JStr "new") (JInt 1) (JInt 1) (JInt 0)
    = StatusMember NOTTRADED.
Proof. vm_compute. done. Qed.

(** C3, as amended.  The REST path and the WebSocket path compute the same
    status; that status is the first matching row of the table in its fixed
    order; a record with [filledSize == size] is never [CANCELLED]; and a
    record with [filledSize == size] and [remainingSize == 0] that neither
    of the two [NOTTRADED] rows catches (its status is not ["new"], and is
    not ["open"] with [filledSize == 0]) is [ALLTRADED], whatever its status
    text: ["closed"], or a text the gateway has never heard of. *)
Theorem reconcile_first_match_all_traded :
  forall current_status size filled_size remaining_size : json,
    Reconcile.on_query_order_status current_status size filled_size remaining_size
    = Reconcile.on_packet_status current_status size filled_size remaining_size
    /\
    Reconcile.on_packet_status current_status size filled_size remaining_size
    = match Table.first_match current_status size filled_size remaining_size with
      | Some st => StatusMember st
      | None => StatusText "other status"
      end
    /\
    (py_eq size filled_size = true ->
     Reconcile.on_packet_status current_status size filled_size remaining_size
     <> StatusMember CANCELLED)
    /\
    (py_eq size filled_size = true ->
     py_eq remaining_size (JInt 0) = true ->
     py_eq current_status (JStr "new") = false ->
     py_eq current_status (JStr "open") && py_eq filled_size (JInt 0) = false ->
     Reconcile.on_packet_status current_status size filled_size remaining_size
     = StatusMember ALLTRADED).
Proof.
  intros st size filled remaining. split; [reflexivity|].
  split; [apply status_is_first_match|].
  split; [apply filled_never_cancelled|].
  intros Hf Hr Hnew Hopen. unfold Reconcile.on_packet_status.
  by rewrite Hnew, Hopen, Hf, Hr, !andb_false_r.
Qed.

(** The amended C3 at work: a closed order that is filled, and one with a
    status text the gateway does not know, are both [ALLTRADED]. *)
Lemma reconcile_first_match_all_traded_witness :
  Reconcile.on_packet_status (JStr "closed") (JInt 10) (JInt 10) (JInt 0)
    = StatusMember ALLTRADED /\
  Reconcile.on_packet_status (JStr "gibberish") (JInt 1) (JInt 1) (JInt 0)
    = StatusMember ALLTRADED.
Proof.
  split.
  - apply (reconcile_first_match_all_traded
             (JStr "closed") (JInt 10) (JInt 10) (JInt 0)); reflexivity.
  - apply (reconcile_first_match_all_traded
             (JStr "gibberish") (JInt 1) (JInt 1) (JInt 0)); reflexivity.
Defined.

(** ** Records that match no row *)

(** Where the table has no row the chain answers with a text. *)
Lemma unmatched_is_other_status (current_status size filled_size remaining_size : json) :
  Table.first_match current_status size filled_size remaining_size = None ->
  Reconcile.on_query_order_status current_status size filled_size remaining_size
    = StatusText "other status" /\
  Reconcile.on_packet_status current_status size filled_size remaining_size
    = StatusText "other status".
Proof.
  intros H. rewrite status_paths_agree, status_is_first_match, H. done.
Qed.

(** C4, the code at a record no row matches (status ["cancelled"], 4 of 10
    filled).  Pushed over the WebSocket, the order is published and cached
    with the text ["other status"] as its status, which is no member of
    [Status], and no log line is written; returned by the REST query, the
    same, the only log line being the closing success message. *)
Theorem unmatched_record_gets_other_status :
  let record := Sample.order_record "cancelled" 10 4 6 in
  let pushed_over_ws :=
    exec (FtxWebsocketApi.on_packet Sample.library
            (Sample.orders_frame "cancelled" 10 4 6)) Sample.gateway in
  let returned_by_rest :=
    exec (FtxRestApi.on_query_order Sample.library
            (JObj [("success", JBool true); ("result", JArr [record])]))
         Sample.gateway in
  Table.first_match (JStr "cancelled") (JInt 10) (JInt 4) (JInt 6) = None /\
  pushed (trace pushed_over_ws) = [0%nat] /\
  status <$> heap pushed_over_ws !! 0%nat = Some (StatusText "other status") /\
  cached_status pushed_over_ws "7" = Some (StatusText "other status") /\
  logged (trace pushed_over_ws) = [] /\
  pushed (trace returned_by_rest) = [0%nat] /\
  status <$> heap returned_by_rest !! 0%nat = Some (StatusText "other status") /\
  cached_status returned_by_rest "7" = Some (StatusText "other status") /\
  logged (trace returned_by_rest) = ["委托信息查询成功"] /\
  is_member (StatusText "other status") = false.
Proof. vm_compute. done. Qed.

(** ** History queries *)

(** Whatever the request, an empty decoded body takes the early [return]. *)
Lemma query_history_no_data (req : HistoryRequest) (response : json)
    (resolution : Z) (g : Gateway) :
  INTERVAL_VT2FTX (hist_interval req) = Ok resolution ->
  truthy response = false ->
  fst (FtxRestApi.query_history req response g) = Ok (FtxRestApi.ret_int 0).
Proof.
  intros Hi Ht. unfold FtxRestApi.query_history. unfold_m.
  rewrite Hi. simpl. by rewrite Ht.
Qed.

(** C9, the code at an empty answer.  When the decoded body is empty ([{}]),
    [query_history] returns the integer [0], not a list of bars; it returns
    the empty list only when the body carries an empty ["result"]. *)
Theorem query_history_empty_body_returns_zero :
  fst (FtxRestApi.query_history Sample.history (JObj []) Sample.gateway)
    = Ok (FtxRestApi.ret_int 0) /\
  fst (FtxRestApi.query_history Sample.history JNull Sample.gateway)
    = Ok (FtxRestApi.ret_int 0) /\
  fst (FtxRestApi.query_history Sample.history
         (JObj [("success", JBool true); ("result", JArr [])]) Sample.gateway)
    = Ok (FtxRestApi.ret_bars []).
Proof. vm_compute. done. Qed.

(** ** The subscription registry *)

Section Registry.
Import FtxWebsocketApi.

Lemma dict_mem_set {V} k (v : V) d : dict_mem k (dict_set k v d) = true.
Proof.
  induction d as [|[k' v'] d IH]; simpl.
  - by rewrite String.eqb_refl.
  - destruct (String.eqb k' k) eqn:E; simpl.
    + by rewrite String.eqb_refl.
    + by rewrite E.
Qed.

(** [subscribe], case by case. *)
Lemma subscribe_unknown_symbol req g :
  symbol_contract_map g !! KStr (sub_symbol req) = None ->
  subscribe req g
  = (Ok tt, set_trace
              (fun t => t ++ [write_log ("找不到该合约代码" +:+ sub_symbol req)]) g).
Proof.
  intros H. unfold subscribe. unfold_m. simpl.
  by rewrite bool_decide_eq_true_2.
Qed.

Lemma subscribe_again req g :
  symbol_contract_map g !! KStr (sub_symbol req) <> None ->
  dict_mem (vt_symbol req) (subscribed g) = true ->
  subscribe req g = (Ok tt, g).
Proof.
  intros H Hm. unfold subscribe. unfold_m. simpl.
  rewrite bool_decide_eq_false_2 by done. by rewrite Hm.
Qed.

Lemma subscribe_fresh req g :
  symbol_contract_map g !! KStr (sub_symbol req) <> None ->
  dict_mem (vt_symbol req) (subscribed g) = false ->
  subscribe req g
  = (Ok tt,
     set_trace
       (fun t => t ++ [ send_packet (subscribe_ticker (sub_symbol req));
                        send_packet (JObj [("op", JStr "subscribe"); ("channel", JStr "fills")]);
                        send_packet (JObj [("op", JStr "subscribe"); ("channel", JStr "orders")]) ])
       (set_subscribed (dict_set (vt_symbol req) req) g)).
Proof.
  intros H Hm. unfold subscribe, subscribe_private_channels. unfold_m. simpl.
  rewrite bool_decide_eq_false_2 by done. rewrite Hm.
  unfold set_trace, set_subscribed. simpl. by rewrite <- !app_assoc.
Qed.

(** A request that is in the registry is passed over in silence, and one
    whose symbol is unknown is only logged: either way no frame is sent and
    the registry stays as it is. *)
Lemma subscribe_registered req g :
  dict_mem (vt_symbol req) (subscribed g) = true ->
  let g' := exec (subscribe req) g in
  fst (subscribe req g) = Ok tt /\
  subscribed g' = subscribed g /\
  exists l, trace g' = trace g ++ l /\ sent l = [].
Proof.
  intros Hm. unfold exec.
  destruct (decide (symbol_contract_map g !! KStr (sub_symbol req) = None)) as [Hn|Hn].
  - rewrite subscribe_unknown_symbol by done. simpl. eauto.
  - rewrite subscribe_again by done. simpl.
    do 2 (split; [done|]). exists []. by rewrite app_nil_r.
Qed.

Lemma replay_registered reqs : forall g,
  Forall (fun req => dict_mem (vt_symbol req) (subscribed g) = true) reqs ->
  let g' := exec (for_each reqs subscribe) g in
  fst (for_each reqs subscribe g) = Ok tt /\
  subscribed g' = subscribed g /\
  exists l, trace g' = trace g ++ l /\ sent l = [].
Proof.
  induction reqs as [|req reqs IH]; intros g Hall; simpl.
  - do 2 (split; [done|]). exists []. by rewrite app_nil_r.
  - inversion Hall as [|? ? Hm Hrest]; subst.
    destruct (subscribe_registered req g Hm) as (Hok & Hs & l1 & Ht1 & Hl1).
    unfold exec in *. unfold mbind, M_bind.
    destruct (subscribe req g) as [r g1] eqn:E. simpl in *. subst r.
    destruct (IH g1) as (Hok' & Hs' & l2 & Ht2 & Hl2).
    { by rewrite Hs. }
    rewrite Hok'. split; [done|]. split; [congruence|].
    exists (l1 ++ l2). rewrite Ht2, Ht1, app_assoc. split; [done|].
    unfold sent in *. by rewrite omap_app, Hl1, Hl2.
Qed.

Lemma registry_keyed_mem subs :
  registry_keyed subs ->
  Forall (fun req => dict_mem (vt_symbol req) subs = true) (dict_values subs).
Proof.
  unfold registry_keyed, dict_values. intros H.
  apply Forall_forall. intros req Hin.
  apply list_elem_of_In, in_map_iff in Hin as ([k r] & <- & Hin). simpl.
  rewrite Forall_forall in H. specialize (H (k, r)).
  rewrite list_elem_of_In in H. specialize (H Hin). simpl in H. subst k.
  unfold dict_mem. apply existsb_exists. exists (vt_symbol r, r).
  split; [done|]. simpl. apply String.eqb_refl.
Qed.

(** What [on_connected] sends, whatever the registry holds: the ping and
    the login frame, and not one subscribe frame. *)
Lemma on_connected_replays_nothing lib timestamp g :
  registry_keyed (subscribed g) ->
  let g' := exec (on_connected lib timestamp) g in
  fst (on_connected lib timestamp g) = Ok tt /\
  subscribed g' = subscribed g /\
  length (sent (since g g')) = 2%nat /\
  filter is_subscribe (sent (since g g')) = [].
Proof.
  intros Hk. unfold exec, on_connected, ping, authenticate. unfold_m. simpl.
  match goal with
  | |- context [for_each ?l subscribe ?g1] =>
      destruct (replay_registered l g1) as (Hok & Hs & l' & Ht & Hl)
  end.
  { simpl. by apply registry_keyed_mem. }
  unfold exec in *.
  match goal with
  | |- context [for_each ?l subscribe ?g1] =>
      destruct (for_each l subscribe g1) as [r g2] eqn:E
  end.
  simpl in *. subst r. do 2 (split; [done|]).
  rewrite <- !app_assoc in Ht. simpl in Ht.
  rewrite (since_app _ _ _ Ht).
  rewrite 2!(sent_cons _ (_ :: _)), (sent_cons _ l'), Hl. done.
Qed.

(** The invariant holds at the start and [subscribe] and [unsubscribe]
    keep it. *)
Lemma registry_keyed_set req subs :
  registry_keyed subs -> registry_keyed (dict_set (vt_symbol req) req subs).
Proof.
  unfold registry_keyed. induction subs as [|[k r] subs IH]; intros H; simpl.
  - by constructor.
  - inversion H; subst. destruct (String.eqb k (vt_symbol req)).
    + by constructor.
    + constructor; [done|]. by apply IH.
Qed.

Lemma subscribe_keeps_registry_keyed req g :
  registry_keyed (subscribed g) ->
  registry_keyed (subscribed (exec (subscribe req) g)).
Proof.
  intros H. unfold exec.
  destruct (decide (symbol_contract_map g !! KStr (sub_symbol req) = None)) as [Hn|Hn].
  - by rewrite subscribe_unknown_symbol.
  - destruct (dict_mem (vt_symbol req) (subscribed g)) eqn:Hm.
    + by rewrite subscribe_again.
    + rewrite subscribe_fresh by done. simpl. by apply registry_keyed_set.
Qed.

Lemma unsubscribe_keeps_registry_keyed req g :
  registry_keyed (subscribed g) ->
  registry_keyed (subscribed (exec (unsubscribe req) g)).
Proof.
  intros H. unfold exec, unsubscribe. unfold_m. simpl.
  case_bool_decide; [done|].
  destruct (dict_mem (vt_symbol req) (subscribed g)); [|done].
  simpl. unfold registry_keyed, dict_pop in *.
  rewrite Forall_forall in *. intros p Hp.
  apply list_elem_of_filter in Hp as [_ Hp]. by apply H.
Qed.

End Registry.

(** C10.  With the symbol known, a second [subscribe] with the same request
    changes nothing at all: not the registry, not the frames sent, not any
    other part of the gateway.  When the request was not in the registry
    before, the first call records it and sends the ticker subscription
    followed by the two private-channel subscriptions, so the two calls
    together send exactly one ticker-subscribe frame. *)
Theorem subscribe_idempotent :
  forall (req : SubscribeRequest) (g : Gateway),
    symbol_contract_map g !! KStr (sub_symbol req) <> None ->
    let g1 := exec (FtxWebsocketApi.subscribe req) g in
    let g2 := exec (FtxWebsocketApi.subscribe req) g1 in
    fst (FtxWebsocketApi.subscribe req g) = Ok tt /\
    fst (FtxWebsocketApi.subscribe req g1) = Ok tt /\
    g2 = g1 /\
    (FtxWebsocketApi.dict_mem (vt_symbol req) (subscribed g) = false ->
     subscribed g1 = FtxWebsocketApi.dict_set (vt_symbol req) req (subscribed g) /\
     sent (since g g1)
       = [ FtxWebsocketApi.subscribe_ticker (sub_symbol req);
           JObj [("op", JStr "subscribe"); ("channel", JStr "fills")];
           JObj [("op", JStr "subscribe"); ("channel", JStr "orders")] ] /\
     length (filter is_ticker_subscribe (sent (since g g2))) = 1%nat).
Proof.
  intros req g Hc g1 g2. subst g2 g1. unfold exec.
  destruct (FtxWebsocketApi.dict_mem (vt_symbol req) (subscribed g)) eqn:Hm.
  - rewrite (subscribe_again req g Hc Hm). simpl.
    rewrite (subscribe_again req g Hc Hm). done.
  - rewrite (subscribe_fresh req g Hc Hm). simpl.
    rewrite subscribe_again; simpl; [|done|apply dict_mem_set].
    do 3 (split; [done|]). intros _. split; [done|].
    erewrite since_app by (simpl; reflexivity). done.
Qed.

(** C10 at work on the sample gateway. *)
Lemma subscribe_idempotent_witness :
  let g1 := exec (FtxWebsocketApi.subscribe Sample.btc) Sample.gateway in
  let g2 := exec (FtxWebsocketApi.subscribe Sample.btc) g1 in
  g2 = g1 /\
  length (filter is_ticker_subscribe (sent (since Sample.gateway g2))) = 1%nat.
Proof.
  pose proof (subscribe_idempotent Sample.btc Sample.gateway) as H.
  simpl in H. destruct H as (_ & _ & H1 & H2).
  - vm_compute. discriminate.
  - split; [exact H1|]. apply H2. reflexivity.
Defined.

(** C1, the code at a reconnect.  Two symbols are subscribed, the
    connection drops and comes back.  The disconnect leaves the registry
    alone, and so does the reconnect; but the reconnect sends the ping and
    the login frame only: the replay loop hands each registered request to
    [subscribe], which finds it in the registry and returns without sending
    anything.  No ticker frame, no fills frame, no orders frame goes out. *)
Theorem reconnect_resends_no_subscription :
  let connected :=
    exec (FtxWebsocketApi.connect "key" "secret") Sample.gateway in
  let before :=
    exec (FtxWebsocketApi.subscribe Sample.eth)
      (exec (FtxWebsocketApi.subscribe Sample.btc) connected) in
  let dropped := exec FtxWebsocketApi.on_disconnected before in
  let after :=
    exec (FtxWebsocketApi.on_connected Sample.library 1614592800000) dropped in
  FtxWebsocketApi.dict_values (subscribed before) = [Sample.btc; Sample.eth] /\
  subscribed dropped = subscribed before /\
  subscribed after = subscribed before /\
  sent (since dropped after)
    = [ JObj [("op", JStr "ping")];
        JObj [ ("args",
                JObj [ ("key", JStr "key");
                       ("sign", JStr "hmac-sha256(secret,1614592800000websocket_login)");
                       ("time", JInt 1614592800000) ]);
               ("op", JStr "login") ] ] /\
  filter is_subscribe (sent (since dropped after)) = [].
Proof. vm_compute. done. Qed.

(** ** Fills for orders the gateway has not seen *)

(** C2, the claim as written fails: a fills frame whose exchange order id
    is not in the id cache makes [on_packet] raise [KeyError]; nothing is
    logged on the way. *)
Lemma fill_for_unknown_order_raises_at_sample :
  FtxWebsocketApi.on_packet Sample.library (Sample.fills_frame 99) Sample.gateway
    = (Raise KeyError, Sample.gateway) /\
  order_id Sample.gateway !! KNum (Qc_of_Z 99) = None /\
  logged (trace Sample.gateway) = [].
Proof. vm_compute. done. Qed.

(** C2, as amended.  For every fills frame whose exchange order id is absent
    from the id cache, [on_packet] raises [KeyError] out of the handler.  The
    fill is dropped: the gateway is left exactly as it was, so no trade is
    published, no position query is queued and no log line is written. *)
Theorem fill_for_unknown_order_raises :
  forall (lib : Library) (g : Gateway) (packet d exchange_id : json) (k : key),
    getitem packet "type" = Ok (JStr "update") ->
    getitem packet "channel" = Ok (JStr "fills") ->
    getitem packet "data" = Ok d ->
    getitem d "orderId" = Ok exchange_id ->
    key_of exchange_id = Ok k ->
    order_id g !! k = None ->
    FtxWebsocketApi.on_packet lib packet g = (Raise KeyError, g).
Proof.
  intros lib g packet d exchange_id k Ht Hc Hd Ho Hk Hnone.
  unfold FtxWebsocketApi.on_packet, FtxWebsocketApi.on_packet_fills.
  unfold_m. rewrite Ht. simpl. rewrite Hc. simpl. rewrite Hd.
  destruct d as [| | | | |fields]; try discriminate.
  unfold getitem at 1. destruct (assoc "market" fields); [|done].
  rewrite Ho. simpl. by rewrite Hk, Hnone.
Qed.

(** The amended C2 on the sample frame. *)
Lemma fill_for_unknown_order_raises_witness :
  FtxWebsocketApi.on_packet Sample.library (Sample.fills_frame 99) Sample.gateway
    = (Raise KeyError, Sample.gateway).
Proof.
  eapply (fill_for_unknown_order_raises Sample.library Sample.gateway
            (Sample.fills_frame 99)); reflexivity.
Defined.

(** A fill for an order the gateway has seen goes through: the trade is
    published and a position query is queued. *)
Example fill_for_known_order :
  let g := exec (FtxWebsocketApi.on_packet Sample.library
                   (Sample.orders_frame "open" 10 0 10)) Sample.gateway in
  let g' := exec (FtxWebsocketApi.on_packet Sample.library
                    (Sample.fills_frame 4242)) g in
  fst (FtxWebsocketApi.on_packet Sample.library (Sample.fills_frame 4242) g)
    = Ok tt /\
  length (since g g') = 3%nat /\
  queued (since g g')
    = [FtxRestApi.get_request "/api/positions" cb_on_query_position SIGNED].
Proof. vm_compute. done. Qed.

(** ** Heap and cache after [on_order] *)

Lemma on_order_run (a : addr) (o : OrderData) (k : key) (g : Gateway) :
  heap g !! a = Some o ->
  key_of (orderid o) = Ok k ->
  FtxGateway.on_order a g
  = (Ok tt,
     set_trace (fun t => t ++ [push_order a])
       (set_orders (fun m => <[k := length (heap g)]> m)
          (set_heap (fun h => h ++ [o]) g))).
Proof.
  intros Ha Hk. unfold_m. simpl. rewrite Ha. simpl. by rewrite Hk.
Qed.

(** Marking the order at [a] as rejected: the object itself changes, and the
    cache gets a fresh copy of it under its id. *)
Lemma reject_run (a : addr) (o : OrderData) (id : string) (g : Gateway) :
  heap g !! a = Some o ->
  orderid o = JStr id ->
  let g' := exec (FtxRestApi.reject a) g in
  fst (FtxRestApi.reject a g) = Ok tt /\
  heap g' !! a = Some (with_status REJECTED o) /\
  cached_status g' id = Some (StatusMember REJECTED) /\
  since g g' = [push_order a].
Proof.
  intros Ha Hid. unfold exec, FtxRestApi.reject.
  unfold mbind at 1. unfold M_bind at 1.
  unfold deref at 1. unfold_m. simpl. rewrite Ha. simpl.
  assert (Hlt : (a < length (heap g))%nat) by (by eapply lookup_lt_Some).
  rewrite list_lookup_insert_eq by done. simpl. rewrite Hid. simpl.
  split; [done|].
  split.
  { rewrite lookup_app_l by (by rewrite length_insert).
    by rewrite list_lookup_insert_eq. }
  split.
  { unfold cached_status. simpl. rewrite lookup_insert_eq. simpl.
    rewrite list_lookup_middle by done. done. }
  by apply since_app.
Qed.


(** ** Cancelling *)

(** C8, the claim as written fails: cancelling an order id the cache does
    not hold still queues the DELETE request for that id. *)
Lemma cancel_unknown_order_sends_delete :
  let req := {| cancel_orderid := "424242"; cancel_symbol := "BTC-PERP";
                cancel_exchange := "FTX" |} in
  let g' := exec (FtxRestApi.cancel_order req) Sample.gateway in
  FtxGateway.get_order "424242" Sample.gateway = (Ok None, Sample.gateway) /\
  method <$> queued (since Sample.gateway g') = ["DELETE"] /\
  path <$> queued (since Sample.gateway g') = ["/api/orders/by_client_id/424242"].
Proof. vm_compute. done. Qed.

(** C8, as amended.  [cancel_order] with a client order id that is not in
    the cached order map publishes nothing and changes no cached order, but
    it does queue the signed DELETE request addressed by that id, carrying no
    order.  If that request later fails, the failure callback finds no order
    to mark: it writes its log line and leaves heap and cache alone. *)
Theorem cancel_unknown_order_still_requests :
  forall (req : CancelRequest) (g : Gateway),
    orders g !! KStr (cancel_orderid req) = None ->
    let rq := {| method := "DELETE";
                 path := "/api/orders/by_client_id/" +:+ cancel_orderid req;
                 callback_ := Some cb_on_cancel_order;
                 security := SIGNED;
                 data := []; params := []; extra := None;
                 on_error_ := None;
                 on_failed_ := Some cb_on_cancel_failed |} in
    FtxRestApi.cancel_order req g
      = (Ok tt, set_trace (fun t => t ++ [add_request rq]) g) /\
    forall (status_code response_text : string) (g' : Gateway),
      let g'' := exec (FtxRestApi.on_cancel_failed status_code response_text rq) g' in
      heap g'' = heap g' /\
      orders g'' = orders g' /\
      pushed (since g' g'') = [] /\
      length (logged (since g' g'')) = 1%nat.
Proof.
  intros req g Hnone rq. split.
  - unfold FtxRestApi.cancel_order. unfold_m. simpl. by rewrite Hnone.
  - intros code text g' g''. subst g''.
    unfold FtxRestApi.on_cancel_failed. unfold_m. simpl.
    do 2 (split; [done|]).
    erewrite since_app by (simpl; reflexivity). done.
Qed.

(** The amended C8 on the sample gateway. *)
Lemma cancel_unknown_order_still_requests_witness :
  let req := {| cancel_orderid := "424242"; cancel_symbol := "BTC-PERP";
                cancel_exchange := "FTX" |} in
  length (queued (trace (exec (FtxRestApi.cancel_order req) Sample.gateway)))
    = 1%nat.
Proof.
  intros req. unfold exec.
  destruct (cancel_unknown_order_still_requests req Sample.gateway) as [-> _];
    reflexivity.
Defined.

(** Cancelling an order the cache holds queues the same request, carrying
    the cached object. *)
Example cancel_known_order :
  let g := exec (FtxRestApi.send_order Sample.library Sample.buy) Sample.gateway in
  let req := {| cancel_orderid := "1000001"; cancel_symbol := "BTC-PERP";
                cancel_exchange := "FTX" |} in
  let g' := exec (FtxRestApi.cancel_order req) g in
  (fun r => (method r, path r, extra r)) <$> queued (since g g')
    = [("DELETE", "/api/orders/by_client_id/1000001", Some 1%nat)].
Proof. vm_compute. done. Qed.

(** ** Sending orders *)

(** [send_order], step by step: the counter moves on, the new order and its
    cached copy are allocated, the order is pushed; the request is queued
    after that, unless a table lookup raised in between. *)
Lemma send_order_run (lib : Library) (req : OrderRequest) (g : Gateway) :
  let id := str (connect_time g + (order_count g + 1)) in
  let o := create_order_data req id (gateway_name g) in
  let a := length (heap g) in
  let g1 :=
    set_trace (fun t => t ++ [push_order a])
      (set_orders (fun m => <[KStr id := S a]> m)
         (set_heap (fun h => h ++ [o; o])
            (set_order_count (fun c => c + 1) g))) in
  FtxRestApi.send_order lib req g
  = match DIRECTION_VT2FTX (req_direction req),
          ORDERTYPE_VT2FTX (req_type req) with
    | Ok side, Ok type =>
        (Ok (gateway_name g +:+ "." +:+ id),
         set_trace (fun t => t ++ [add_request
           {| method := "POST"; path := "/api/orders";
              callback_ := Some cb_on_send_order; security := SIGNED;
              data := [ ("market", JStr (upper (req_symbol req)));
                        ("side", JStr side);
                        ("price", JStr (str_of_float lib (req_price req)));
                        ("size", JStr (str_of_float lib (req_volume req)));
                        ("type", JStr type);
                        ("reduceOnly", JBool false);
                        ("ioc", JBool false);
                        ("postOnly", JBool false);
                        ("clientId", JStr id);
                        ("rejectOnPriceBand", JBool false) ];
              params := []; extra := Some a;
              on_error_ := Some cb_on_send_order_error;
              on_failed_ := Some cb_on_send_order_failed |}]) g1)
    | Raise e, _ => (Raise e, g1)
    | Ok _, Raise e => (Raise e, g1)
    end.
Proof.
  intros id o a g1. subst g1 a o id.
  unfold FtxRestApi.send_order, FtxRestApi._new_order_id. unfold_m. simpl.
  rewrite list_lookup_middle by done. simpl.
  rewrite length_app. simpl. rewrite Nat.add_1_r.
  unfold set_trace, set_orders, set_heap, set_order_count. simpl.
  rewrite <- !app_assoc. simpl.
  destruct (DIRECTION_VT2FTX (req_direction req)); simpl; [|done].
  by destruct (ORDERTYPE_VT2FTX (req_type req)).
Qed.

Lemma send_order_failed_rejects (a : addr) (o : OrderData) (id : string)
    (rq : Request) (g : Gateway) (status_code response_text : string) :
  extra rq = Some a ->
  heap g !! a = Some o ->
  orderid o = JStr id ->
  cached_status
    (exec (FtxRestApi.on_send_order_failed status_code response_text rq) g) id
  = Some (StatusMember REJECTED).
Proof.
  intros He Ha Hid.
  destruct (reject_run a o id g Ha Hid) as (Hok & _ & Hc & _).
  unfold exec in *. unfold FtxRestApi.on_send_order_failed. rewrite He.
  unfold mbind at 1. unfold M_bind at 1.
  destruct (FtxRestApi.reject a g) as [r g1]. simpl in *. subst r.
  unfold_m. simpl. exact Hc.
Qed.

Lemma send_order_error_rejects (a : addr) (o : OrderData) (id : string)
    (rq : Request) (g : Gateway) (transient : bool) (exception_value : string) :
  extra rq = Some a ->
  heap g !! a = Some o ->
  orderid o = JStr id ->
  cached_status
    (exec (FtxRestApi.on_send_order_error transient exception_value rq) g) id
  = Some (StatusMember REJECTED).
Proof.
  intros He Ha Hid.
  destruct (reject_run a o id g Ha Hid) as (Hok & _ & Hc & _).
  unfold exec in *. unfold FtxRestApi.on_send_order_error. rewrite He.
  unfold mbind at 1. unfold M_bind at 1.
  destruct (FtxRestApi.reject a g) as [r g1]. simpl in *. subst r.
  unfold_m. destruct transient; simpl; exact Hc.
Qed.

(** C7.  Every [send_order] call builds the order with status [SUBMITTING]
    under the new client order id, caches a copy of it under that id and
    pushes it to the host; this is the first thing the call does to the
    outside world, and the signed POST to [/api/orders] carrying the id is
    queued after it.  The push and the cache entry are there even when the
    call raises before it queues the request.  [get_order] finds the cached
    order by the id at once.  From any later state in which the order object
    still carries that id, either failure callback of the request leaves the
    order cached under the id with status [REJECTED]. *)
Theorem send_order_publishes_before_posting :
  forall (lib : Library) (req : OrderRequest) (g : Gateway),
    let id := str (connect_time g + (order_count g + 1)) in
    let order := length (heap g) in
    let submitted := create_order_data req id (gateway_name g) in
    let g1 := exec (FtxRestApi.send_order lib req) g in
    status submitted = StatusMember SUBMITTING /\
    heap g1 !! order = Some submitted /\
    FtxGateway.get_order id g1 = (Ok (Some (S order)), g1) /\
    heap g1 !! S order = Some submitted /\
    cached_status g1 id = Some (StatusMember SUBMITTING) /\
    (exists rest : list effect,
        since g g1 = push_order order :: rest /\
        ((exists rq : Request,
             fst (FtxRestApi.send_order lib req g)
               = Ok (gateway_name g +:+ "." +:+ id) /\
             rest = [add_request rq] /\
             method rq = "POST" /\
             path rq = "/api/orders" /\
             security rq = SIGNED /\
             assoc "clientId" (data rq) = Some (JStr id) /\
             extra rq = Some order)
         \/
         (fst (FtxRestApi.send_order lib req g) = Raise KeyError /\
          rest = []))) /\
    (forall (rq : Request) (g' : Gateway) (o : OrderData),
        extra rq = Some order ->
        heap g' !! order = Some o ->
        orderid o = JStr id ->
        (forall status_code response_text : string,
            cached_status
              (exec (FtxRestApi.on_send_order_failed status_code response_text rq) g')
              id = Some (StatusMember REJECTED)) /\
        (forall (transient : bool) (exception_value : string),
            cached_status
              (exec (FtxRestApi.on_send_order_error transient exception_value rq) g')
              id = Some (StatusMember REJECTED))).
Proof.
  intros lib req g id order submitted g1.
  assert (H1 : heap g1 = heap g ++ [submitted; submitted] /\
               orders g1 = <[KStr id := S order]> (orders g)).
  { subst g1. unfold exec. rewrite send_order_run.
    destruct (DIRECTION_VT2FTX (req_direction req)); [|done].
    by destruct (ORDERTYPE_VT2FTX (req_type req)). }
  destruct H1 as [Hh Ho].
  assert (Ha : heap g1 !! order = Some submitted).
  { rewrite Hh. by apply list_lookup_middle. }
  assert (Hc : heap g1 !! S order = Some submitted).
  { rewrite Hh. change (heap g ++ [submitted; submitted])
      with (heap g ++ [submitted] ++ [submitted]).
    rewrite app_assoc. apply list_lookup_middle.
    rewrite length_app. simpl. subst order. lia. }
  split; [done|]. split; [done|].
  split. { unfold FtxGateway.get_order, gets. by rewrite Ho, lookup_insert_eq. }
  split; [done|].
  split. { unfold cached_status. rewrite Ho, lookup_insert_eq. simpl. by rewrite Hc. }
  split.
  - subst g1. unfold exec. rewrite send_order_run.
    destruct (DIRECTION_VT2FTX (req_direction req)) as [side|e] eqn:Ed.
    + destruct (ORDERTYPE_VT2FTX (req_type req)) as [type|e] eqn:Et.
      * eexists. split.
        { apply since_app. simpl. rewrite <- app_assoc. reflexivity. }
        left. eexists. split; [done|]. split; [reflexivity|]. done.
      * exists []. simpl. split; [apply since_app; reflexivity|].
        right. split; [|done].
        destruct (req_type req); by simplify_eq/=.
    + exists []. simpl. split; [apply since_app; reflexivity|].
      right. split; [|done].
      destruct (req_direction req); by simplify_eq/=.
  - intros rq g' o He Hg' Hid. split.
    + intros. by eapply send_order_failed_rejects.
    + intros. by eapply send_order_error_rejects.
Qed.

(** C7 on the sample gateway: the order is cached as [SUBMITTING] after the
    call, also when the call raises, and as [REJECTED] after a failure
    callback. *)
Lemma send_order_publishes_before_posting_witness :
  let g1 := exec (FtxRestApi.send_order Sample.library Sample.buy) Sample.gateway in
  let rq := {| method := "POST"; path := "/api/orders";
               callback_ := Some cb_on_send_order; security := SIGNED;
               data := []; params := []; extra := Some 0%nat;
               on_error_ := Some cb_on_send_order_error;
               on_failed_ := Some cb_on_send_order_failed |} in
  cached_status g1 "1000001" = Some (StatusMember SUBMITTING) /\
  cached_status (exec (FtxRestApi.on_send_order_failed "400" "Not enough balances" rq) g1)
    "1000001" = Some (StatusMember REJECTED).
Proof.
  intros g1 rq.
  destruct (send_order_publishes_before_posting
              Sample.library Sample.buy Sample.gateway)
    as (_ & Ha & _ & _ & Hc & _ & Hfail).
  split; [exact Hc|].
  destruct (Hfail rq g1 _ eq_refl Ha eq_refl) as [Hf _].
  exact (Hf "400" "Not enough balances").
Defined.

(** A stop order cannot be translated: the call raises [KeyError] after the
    order was pushed and cached, and queues nothing. *)
Example send_stop_order :
  let g1 := exec (FtxRestApi.send_order Sample.library Sample.stop) Sample.gateway in
  fst (FtxRestApi.send_order Sample.library Sample.stop Sample.gateway)
    = Raise KeyError /\
  since Sample.gateway g1 = [push_order 0%nat] /\
  cached_status g1 "1000001" = Some (StatusMember SUBMITTING).
Proof. vm_compute. done. Qed.

(** ** Client order ids *)

(** [str] is injective: different numbers print differently. *)
Lemma to_int_proper (n : Z) :
  Z.to_int n <> Decimal.Pos Decimal.Nil /\ Z.to_int n <> Decimal.Neg Decimal.Nil.
Proof.
  destruct n; simpl; split; try discriminate; intros [= H];
    by apply (DecimalPos.Unsigned.to_uint_nonnil p).
Qed.

Lemma str_inj (a b : Z) : str a = str b -> a = b.
Proof.
  unfold str. intros H. apply to_int_inj.
  destruct (to_int_proper a) as [Ha1 Ha2], (to_int_proper b) as [Hb1 Hb2].
  pose proof (NilZero.isi _ Ha1 Ha2) as Ia.
  pose proof (NilZero.isi _ Hb1 Hb2) as Ib.
  rewrite H in Ia. congruence.
Qed.

Lemma StronglySorted_seqZ (len : nat) : forall m : Z,
  StronglySorted Z.lt (seqZ m (Z.of_nat len)).
Proof.
  induction len as [|len IH]; intros m.
  - rewrite seqZ_nil by lia. constructor.
  - rewrite seqZ_cons by lia.
    replace (Z.pred (Z.of_nat (S len))) with (Z.of_nat len) by lia.
    constructor; [apply IH|].
    apply Forall_forall. intros x Hx. apply elem_of_seqZ in Hx. lia.
Qed.

Lemma id_of_inj (a b : Z) : id_of a = id_of b -> a = b.
Proof. intros [= H]. by apply str_inj. Qed.

(** One call: the seed stays, the counter moves by one, and the one order
    pushed carries the seed plus the new count as its id. *)
Lemma send_order_ids (lib : Library) (req : OrderRequest) (g : Gateway) :
  let g1 := exec (FtxRestApi.send_order lib req) g in
  connect_time g1 = connect_time g /\
  order_count g1 = order_count g + 1 /\
  pushed_ids g g1 = [id_of (connect_time g + (order_count g + 1))].
Proof.
  simpl. unfold exec. rewrite send_order_run.
  destruct (DIRECTION_VT2FTX (req_direction req));
    [destruct (ORDERTYPE_VT2FTX (req_type req))|];
    simpl; (split; [done|]); (split; [done|]); unfold pushed_ids;
    (erewrite since_app by (simpl; rewrite <- ?app_assoc; reflexivity));
    simpl; by rewrite list_lookup_middle.
Qed.

(** A run of calls: the ids are the seed plus the next counts, in order. *)
Lemma send_orders_ids (lib : Library) (reqs : list OrderRequest) :
  forall g : Gateway,
    let r := send_orders lib reqs g in
    fst r = id_of <$> seqZ (connect_time g + (order_count g + 1))
                           (Z.of_nat (length reqs)) /\
    connect_time (snd r) = connect_time g /\
    order_count (snd r) = order_count g + Z.of_nat (length reqs).
Proof.
  induction reqs as [|req reqs IH]; intros g.
  - cbn [send_orders length fst snd]. rewrite seqZ_nil by lia.
    split; [done|]. split; [done|]. lia.
  - cbn [send_orders length].
    destruct (send_order_ids lib req g) as (Hct & Hoc & Hid).
    specialize (IH (exec (FtxRestApi.send_order lib req) g)).
    destruct (send_orders lib reqs (exec (FtxRestApi.send_order lib req) g))
      as [ids g'] eqn:E.
    cbn [fst snd] in *. destruct IH as (Hids & Hct' & Hoc').
    rewrite Hid, Hids, Hct, Hoc.
    rewrite Nat2Z.inj_succ, (seqZ_cons _ (Z.succ _)), Z.pred_succ by lia.
    rewrite fmap_cons. split.
    { cbn [app]. do 3 f_equal. lia. }
    split; [congruence|]. lia.
Qed.

Lemma connect_counters (now : Z) (g : Gateway) :
  let g' := exec (FtxRestApi.connect now) g in
  connect_time g' = now * order_count g /\ order_count g' = order_count g.
Proof. done. Qed.

(** C6, the claim as written fails.  The first connect reads the clock at
    2026-11-06 05:39:53 and eleven orders follow; the clock is then set back
    and the second connect reads 2026-11-03 18:18:18.  The first order of the
    second lifetime gets the id of the tenth order of the first. *)
Lemma lifetimes_collide_when_clock_runs_back :
  let g1 := exec (FtxRestApi.connect 261106053953) Sample.gateway in
  let first := send_orders Sample.library (replicate 11 Sample.buy) g1 in
  let g2 := exec (FtxRestApi.connect 261103181818) (snd first) in
  let second := send_orders Sample.library [Sample.buy] g2 in
  fst first !! 9%nat = Some (JStr "261106053954000010") /\
  fst second = [JStr "261106053954000010"].
Proof. vm_compute. done. Qed.

(** C6, as amended.  Take two connection lifetimes of one gateway: a connect
    that reads the clock as [now1], any number of [send_order] calls, a
    second connect that reads [now2], and again any number of calls.  If the
    clock reading did not go back between the two connects
    ([0 <= now1 <= now2]), no order id of the first lifetime is an order id
    of the second.  (The counter starts at 1000000 and is never reset, which
    is what [0 <= order_count g] stands for.) *)
Theorem lifetimes_disjoint_when_clock_runs_forward :
  forall (lib : Library) (g : Gateway) (now1 now2 : Z)
         (reqs1 reqs2 : list OrderRequest),
    0 <= order_count g ->
    0 <= now1 <= now2 ->
    let g1 := exec (FtxRestApi.connect now1) g in
    let first := send_orders lib reqs1 g1 in
    let g2 := exec (FtxRestApi.connect now2) (snd first) in
    let second := send_orders lib reqs2 g2 in
    forall id : json, id ∈ fst first -> id ∈ fst second -> False.
Proof.
  intros lib g now1 now2 reqs1 reqs2 Hc Hnow g1 first g2 second id H1 H2.
  destruct (send_orders_ids lib reqs1 g1) as (Hids1 & Hct1 & Hoc1).
  destruct (send_orders_ids lib reqs2 g2) as (Hids2 & _ & _).
  fold first in Hids1, Hct1, Hoc1. fold second in Hids2.
  rewrite Hids1 in H1. rewrite Hids2 in H2.
  apply list_elem_of_fmap in H1 as (a & -> & Ha).
  apply list_elem_of_fmap in H2 as (b & Hab & Hb).
  apply id_of_inj in Hab. subst b.
  apply elem_of_seqZ in Ha. apply elem_of_seqZ in Hb.
  destruct (connect_counters now1 g) as [Hg1 Hg1'].
  destruct (connect_counters now2 (snd first)) as [Hg2 Hg2'].
  fold g1 in Hg1, Hg1'. fold g2 in Hg2, Hg2'.
  rewrite Hg1, Hg1' in Ha. rewrite Hg2, Hg2', Hoc1, Hg1' in Hb.
  nia.
Qed.

(** The amended C6 at work: the same eleven orders, with the second connect
    one second after the first. *)
Lemma lifetimes_disjoint_when_clock_runs_forward_witness :
  let g1 := exec (FtxRestApi.connect 261106053953) Sample.gateway in
  let first := send_orders Sample.library (replicate 11 Sample.buy) g1 in
  let g2 := exec (FtxRestApi.connect 261106053954) (snd first) in
  let second := send_orders Sample.library [Sample.buy] g2 in
  Forall (fun id => id ∉ fst second) (fst first).
Proof.
  intros g1 first g2 second. apply Forall_forall. intros id H1 H2.
  apply (lifetimes_disjoint_when_clock_runs_forward
           Sample.library Sample.gateway 261106053953 261106053954
           (replicate 11 Sample.buy) [Sample.buy]) with (id := id).
  - vm_compute. discriminate.
  - lia.
  - exact H1.
  - exact H2.
Defined.

(** ** Concurrent callers *)

Section ConcurrentFacts.
Import Concurrent FtxRestApi.

Lemma omap_insert_same {A B} (f : A -> option B) (l : list A) :
  forall (t : nat) (p p' : A),
    l !! t = Some p -> f p' = f p -> omap f (<[t := p']> l) = omap f l.
Proof.
  induction l as [|x l IH]; intros [|t] p p' Hl Hf; simpl in *; try done.
  - injection Hl as ->. by rewrite Hf.
  - pose proof (IH t p p' Hl Hf) as E. unfold omap in E. by rewrite E.
Qed.

Lemma omap_insert_new {A B} (f : A -> option B) (l : list A) :
  forall (t : nat) (p p' : A) (v : B),
    l !! t = Some p -> f p = None -> f p' = Some v ->
    omap f (<[t := p']> l) ≡ₚ omap f l ++ [v].
Proof.
  induction l as [|x l IH]; intros [|t] p p' v Hl Hn Hs; simpl in *; try done.
  - injection Hl as ->. rewrite Hn, Hs. apply Permutation_cons_append.
  - pose proof (IH t p p' v Hl Hn Hs) as E. unfold omap in E.
    destruct (f x); simpl; by rewrite E.
Qed.

Lemma inv_spawn (n : nat) (g : Gateway) :
  inv (connect_time g) (spawn n g).
Proof.
  constructor; simpl.
  - done.
  - intros t p ct H. apply lookup_replicate in H as [-> _]. done.
  - intros t p H. apply lookup_replicate in H as [-> _]. done.
  - constructor.
  - constructor.
  - intros t ct c H. by apply lookup_replicate in H as [? _].
  - intros t ct H. by apply lookup_replicate in H as [? _].
  - induction n; simpl; done.
Qed.

Ltac updated H :=
  apply list_lookup_insert_Some in H as [(? & ? & _)|(? & H)]; simplify_eq/=.

(** Every step keeps the invariant. *)
Lemma inv_step (ct0 : Z) (t : nat) (w : world) :
  inv ct0 w -> inv ct0 (step t w).
Proof.
  intros Hw.
  pose proof Hw as [Hseed Hseeds Hlock Hsorted Hbound Hloaded Hfresh Howned].
  subst ct0. unfold step. destruct (threads w !! t) as [p|] eqn:Ht; [|done].
  destruct p as [|ct|ct|ct c|ct|ct n|id].
  - (* Start *)
    constructor; simpl; try done.
    + intros t' p' ct' H Hs. updated H; eauto.
    + intros t' p' H Hb. updated H; eauto.
    + intros t' ct' c' H. updated H; eauto.
    + intros t' ct' H. updated H; eauto.
    + by rewrite (omap_insert_same owned _ t Start).
  - (* WaitLock *)
    destruct (lock w) as [holder|] eqn:Hl; [done|].
    constructor; simpl; try done.
    + intros t' p' ct' H Hs. updated H; eauto.
    + intros t' p' H Hb. updated H; try done.
      specialize (Hlock _ _ H Hb). congruence.
    + intros t' ct' c' H. updated H; eauto.
    + intros t' ct' H. updated H; eauto.
    + by rewrite (omap_insert_same owned _ t (WaitLock ct)).
  - (* Locked *)
    constructor; simpl; try done.
    + intros t' p' ct' H Hs. updated H; eauto.
    + intros t' p' H Hb. updated H; eauto.
    + intros t' ct' c' H. updated H; eauto.
    + intros t' ct' H. updated H; eauto.
    + by rewrite (omap_insert_same owned _ t (Locked ct)).
  - (* Loaded *)
    assert (c = order_count (gw w)) as -> by eauto.
    constructor; simpl; try done.
    + intros t' p' ct' H Hs. updated H; eauto.
    + intros t' p' H Hb. updated H; eauto.
    + eapply Forall_impl; [exact Hbound|]. simpl. intros. lia.
    + intros t' ct' c' H. updated H.
      pose proof (Hlock _ _ H eq_refl) as H1.
      pose proof (Hlock _ _ Ht eq_refl) as H2. congruence.
    + intros t' ct' H. eapply Forall_impl; [exact Hbound|]. simpl. intros. lia.
    + by rewrite (omap_insert_same owned _ t (Loaded ct (order_count (gw w)))).
  - (* Incremented *)
    assert (ct = connect_time (gw w)) as -> by (by eapply (Hseeds _ _ _ Ht)).
    constructor; simpl; try done.
    + intros t' p' ct' H Hs. updated H; eauto.
    + intros t' p' H Hb. updated H; eauto.
    + apply StronglySorted_app_2; [|done|repeat constructor].
      intros x1 x2 H1 H2. apply list_elem_of_singleton in H2 as ->.
      specialize (Hfresh _ _ Ht). rewrite Forall_forall in Hfresh. eauto.
    + apply Forall_app. split; [done|]. by repeat constructor.
    + intros t' ct' c' H. updated H; eauto.
    + intros t' ct' H. updated H.
      pose proof (Hlock _ _ H eq_refl) as H1.
      pose proof (Hlock _ _ Ht eq_refl) as H2. congruence.
    + rewrite fmap_app. simpl.
      rewrite (omap_insert_new owned _ t (Incremented (connect_time (gw w))) _
                 (str (connect_time (gw w) + order_count (gw w)))) by done.
      by rewrite Howned.
  - (* Returning *)
    constructor; simpl; try done.
    + intros t' p' ct' H Hs. updated H; eauto.
    + intros t' p' H Hb. updated H; try done.
      pose proof (Hlock _ _ H Hb) as H1.
      pose proof (Hlock _ _ Ht eq_refl) as H2. congruence.
    + intros t' ct' c' H. updated H; eauto.
    + intros t' ct' H. updated H; eauto.
    + by rewrite (omap_insert_same owned _ t (Returning ct n)).
  - (* Done *)
    done.
Qed.

Lemma inv_run (ct0 : Z) (schedule : list nat) :
  forall w : world, inv ct0 w -> inv ct0 (run schedule w).
Proof.
  induction schedule as [|t schedule IH]; intros w Hw; [done|].
  simpl. apply IH. by apply inv_step.
Qed.

Lemma StronglySorted_lt_NoDup (l : list Z) :
  StronglySorted Z.lt l -> NoDup l.
Proof.
  induction 1 as [|x l _ IH Hx]; constructor; [|done].
  intros Hin. rewrite Forall_forall in Hx. specialize (Hx _ Hin). lia.
Qed.

Lemma finished_sublist_owned (l : list pc) :
  omap (fun p => match p with Done id => Some id | _ => None end) l
  `sublist_of` omap owned l.
Proof.
  induction l as [|p l IH]; simpl; [done|].
  destruct p; simpl; try done; by constructor.
Qed.

(** One thread alone, run to the end, does what the sequential code does:
    it leaves the counter one higher and holds the seed plus the new count. *)
Lemma single_thread_agrees (g : Gateway) :
  let w := run [0; 0; 0; 0; 0; 0]%nat (spawn 1 g) in
  gw w = exec _new_order_id g /\
  fst (_new_order_id g) = Ok (order_count g + 1) /\
  finished w = [str (connect_time g + (order_count g + 1))] /\
  lock w = None.
Proof. done. Qed.

End ConcurrentFacts.

(** C5.  Within one connection lifetime (no [connect] in between), the
    client order ids are strictly increasing and pairwise distinct.  Called
    one after the other, [send_order] hands out the seed plus the next
    counts in call order.  Called from any number of threads under any
    schedule, the numbers are handed out in strictly increasing order (the
    order in which the threads pass through the lock), no two finished calls
    hold the same id, and every finished call holds the text of one of the
    numbers handed out. *)
Theorem client_order_ids_increase :
  forall (lib : Library) (g : Gateway),
    (forall reqs : list OrderRequest,
        let numbers := seqZ (connect_time g + (order_count g + 1))
                            (Z.of_nat (length reqs)) in
        fst (send_orders lib reqs g) = id_of <$> numbers /\
        StronglySorted Z.lt numbers /\
        NoDup (fst (send_orders lib reqs g))) /\
    (forall (n : nat) (schedule : list nat),
        let w := Concurrent.run schedule (Concurrent.spawn n g) in
        StronglySorted Z.lt (Concurrent.generated w) /\
        NoDup (Concurrent.generated w) /\
        NoDup (Concurrent.finished w) /\
        Concurrent.finished w ⊆ str <$> Concurrent.generated w).
Proof.
  intros lib g. split.
  - intros reqs numbers.
    destruct (send_orders_ids lib reqs g) as (Hids & _ & _).
    split; [exact Hids|]. split; [apply StronglySorted_seqZ|].
    rewrite Hids. apply NoDup_fmap_2_strong; [|apply NoDup_seqZ].
    intros x y _ _. apply id_of_inj.
  - intros n schedule w.
    pose proof (inv_run _ schedule _ (inv_spawn n g)) as Hw. fold w in Hw.
    destruct Hw as [_ _ _ Hsorted _ _ _ Howned].
    pose proof (StronglySorted_lt_NoDup _ Hsorted) as Hnd.
    assert (Hstr : NoDup (str <$> Concurrent.generated w)).
    { apply NoDup_fmap_2_strong; [|done]. intros x y _ _. apply str_inj. }
    split; [done|]. split; [done|]. split.
    + eapply sublist_NoDup; [|apply finished_sublist_owned].
      by rewrite Howned.
    + intros id Hid. rewrite <- Howned.
      eapply elem_of_sublist; [exact Hid|apply finished_sublist_owned].
Qed.

(** Two threads of the sample gateway, interleaved: the second thread has to
    wait for the lock; both calls finish, with consecutive ids. *)
Example two_threads_interleaved :
  let g := exec (FtxRestApi.connect 261103083900) Sample.gateway in
  let w := Concurrent.run [0; 1; 0; 1; 0; 1; 0; 0; 0; 1; 1; 1; 1; 1]%nat
             (Concurrent.spawn 2 g) in
  Concurrent.generated w = [261103083901000001; 261103083901000002] /\
  Concurrent.finished w = ["261103083901000001"; "261103083901000002"] /\
  order_count (Concurrent.gw w) = 1000002.
Proof. vm_compute. done. Qed.

(** * Further results *)

(** ** The heartbeat *)

Lemma set_trace_app (l1 l2 : list effect) (g : Gateway) :
  set_trace (fun t => t ++ l2) (set_trace (fun t => t ++ l1) g)
  = set_trace (fun t => t ++ (l1 ++ l2)) g.
Proof. unfold set_trace. simpl. by rewrite app_assoc. Qed.

Lemma set_trace_nil (g : Gateway) : set_trace (fun t => t ++ []) g = g.
Proof. destruct g. unfold set_trace. simpl. by rewrite app_nil_r. Qed.

Lemma ticks_run (n : nat) : forall (count : Z) (g : Gateway),
  0 <= count < 15 ->
  Heartbeat.ticks n count g
  = (Ok ((count + Z.of_nat n) mod 15),
     set_trace
       (fun t => t ++ replicate (Z.to_nat ((count + Z.of_nat n) / 15))
                                (send_packet Heartbeat.ping_frame)) g).
Proof.
  induction n as [|n IH]; intros count g Hc.
  - simpl. rewrite Z.add_0_r, Z.mod_small, Z.div_small by lia. simpl.
    by rewrite set_trace_nil.
  - cbn [Heartbeat.ticks]. unfold mbind, M_bind.
    unfold Heartbeat.process_timer_event. cbv zeta.
    destruct (count + 1 <? 15) eqn:E.
    + apply Z.ltb_lt in E. unfold mret, M_ret. rewrite IH by lia.
      by replace (count + 1 + Z.of_nat n) with (count + Z.of_nat (S n)) by lia.
    + apply Z.ltb_ge in E. assert (count = 14) as -> by lia.
      unfold FtxWebsocketApi.ping. unfold_m. simpl. rewrite IH by lia.
      replace (14 + Z.of_nat (S n)) with (Z.of_nat n + 1 * 15) by lia.
      rewrite Z.mod_add, Z.div_add by lia. simpl (0 + _).
      rewrite set_trace_app. do 3 f_equal.
      rewrite Z2Nat.inj_add by (try apply Z.div_pos; lia).
      by rewrite Nat.add_comm.
Qed.

(** X1.  Counted from [init_ping], the timer handler sends a ping on every
    fifteenth event and on no other: after [n] events [n / 15] pings have
    gone out and the counter stands at [n mod 15]; nothing else of the
    gateway has changed. *)
Theorem heartbeat_every_fifteenth :
  forall (n : nat) (g : Gateway),
    let r := Heartbeat.ticks n Heartbeat.init_ping g in
    fst r = Ok (Z.of_nat n mod 15) /\
    sent (since g (snd r))
      = replicate (n / 15)%nat Heartbeat.ping_frame /\
    snd r = set_trace (fun t => t ++ since g (snd r)) g.
Proof.
  intros n g r. subst r. unfold Heartbeat.init_ping.
  rewrite ticks_run by lia. rewrite Z.add_0_l. cbn [fst snd].
  erewrite since_app by (simpl; reflexivity).
  split; [reflexivity|]. split; [|reflexivity].
  replace (Z.to_nat (Z.of_nat n / 15)) with (n / 15)%nat.
  - generalize (n / 15)%nat as k. intros k. induction k as [|k IH]; [done|].
    cbn [replicate]. by rewrite sent_cons, IH.
  - change 15 with (Z.of_nat 15). by rewrite <- Nat2Z.inj_div, Nat2Z.id.
Qed.

(** ** Relations kept by every method *)

Section Rel.
Context (R : Gateway -> Gateway -> Prop) `{!PreOrder R}.

Lemma rel_ret {A} (a : A) : rel R (mret a : M A).
Proof. intros g. simpl. reflexivity. Qed.

Lemma rel_lift {A} (r : result A) : rel R (lift r).
Proof. intros g. simpl. reflexivity. Qed.

Lemma rel_gets {A} (f : Gateway -> A) : rel R (gets f).
Proof. intros g. simpl. reflexivity. Qed.

Lemma rel_modify (f : Gateway -> Gateway) :
  (forall g, R g (f g)) -> rel R (modify f).
Proof. intros H g. apply H. Qed.

Lemma rel_bind {A B} (m : M A) (f : A -> M B) :
  rel R m -> (forall a, rel R (f a)) -> rel R (m ≫= f).
Proof.
  intros Hm Hf g. unfold mbind, M_bind. specialize (Hm g).
  destruct (m g) as [[a|e] g1]; simpl in *; [|done].
  etransitivity; [exact Hm|apply Hf].
Qed.

Lemma rel_for_each {A} (l : list A) (body : A -> M unit) :
  (forall x, rel R (body x)) -> rel R (for_each l body).
Proof.
  intros H. induction l as [|x l IH]; simpl.
  - apply rel_ret.
  - apply rel_bind; [apply H|]. intros _. apply IH.
Qed.

Lemma rel_run (lib : Library) (calls : list Host.call) :
  (forall c, rel R (Host.perform lib c)) ->
  forall g, R g (Host.run lib calls g).
Proof.
  intros H. induction calls as [|c calls IH]; intros g; simpl.
  - reflexivity.
  - etransitivity; [apply (H c g)|apply IH].
Qed.

End Rel.

(** Taking a method body apart, down to its state changes. *)
Ltac rel_step :=
  lazymatch goal with
  | |- rel ?R (mbind _ _) => apply (rel_bind R); [|intros ?]
  | |- rel ?R (mret _) => apply (rel_ret R)
  | |- rel ?R (lift _) => apply (rel_lift R)
  | |- rel ?R (gets _) => apply (rel_gets R)
  | |- rel ?R (for_each _ _) => apply (rel_for_each R); intros ?
  | |- rel _ (if ?b then _ else _) => destruct b
  | |- rel _ (match ?x with _ => _ end) => destruct x
  end.

Ltac unfold_methods :=
  unfold Host.perform, Host.with_request,
    FtxRestApi.connect, FtxRestApi.query_account, FtxRestApi.query_position,
    FtxRestApi.query_order, FtxRestApi.query_contract,
    FtxRestApi.send_order, FtxRestApi._new_order_id, FtxRestApi.cancel_order,
    FtxRestApi.on_query_order, FtxRestApi.on_query_order_item,
    FtxRestApi.on_query_contract, FtxRestApi.on_query_contract_item,
    FtxRestApi.on_send_order_error, FtxRestApi.on_send_order_failed,
    FtxRestApi.on_cancel_failed, FtxRestApi.reject, FtxRestApi.query_history,
    FtxWebsocketApi.connect, FtxWebsocketApi.on_connected,
    FtxWebsocketApi.on_disconnected, FtxWebsocketApi.authenticate,
    FtxWebsocketApi.ping, FtxWebsocketApi.subscribe,
    FtxWebsocketApi.unsubscribe, FtxWebsocketApi.subscribe_private_channels,
    FtxWebsocketApi.on_packet, FtxWebsocketApi.on_packet_ticker,
    FtxWebsocketApi.on_packet_fills, FtxWebsocketApi.on_packet_orders,
    FtxGateway.write_log, FtxGateway.on_order, FtxGateway.get_order,
    alloc, deref, store, emit.

Ltac rel_frame :=
  unfold_methods; cbv zeta; repeat rel_step;
  try (apply rel_modify; intros ?; done).

Global Instance same_count_preorder : PreOrder same_count.
Proof. split; [done|]. unfold same_count. congruence. Qed.

Global Instance same_seed_preorder : PreOrder same_seed.
Proof. split; [done|]. unfold same_seed. congruence. Qed.

Global Instance same_id_cache_preorder : PreOrder same_id_cache.
Proof. split; [done|]. unfold same_id_cache. congruence. Qed.

Global Instance same_registry_preorder : PreOrder same_registry.
Proof. split; [done|]. unfold same_registry. congruence. Qed.

Global Instance same_contracts_preorder : PreOrder same_contracts.
Proof. split; [done|]. unfold same_contracts. congruence. Qed.

Global Instance same_orders_preorder : PreOrder same_orders.
Proof.
  split; [done|]. intros x y z [H1 H2] [H3 H4]. split; congruence.
Qed.

Global Instance same_credentials_preorder : PreOrder same_credentials.
Proof.
  split; [done|]. intros x y z [H1 H2] [H3 H4]. split; congruence.
Qed.

Global Instance grows_preorder : PreOrder grows.
Proof.
  split.
  - intros g. unfold grows. repeat split; (done || lia).
  - intros x y z (H1 & H2 & H3 & H4) (H5 & H6 & H7 & H8).
    unfold grows. repeat split; (set_solver || lia).
Qed.



Lemma perform_same_id_cache (lib : Library) (c : Host.call) :
  match c with
  | Host.ws_packet _ => True
  | _ => rel same_id_cache (Host.perform lib c)
  end.
Proof. destruct c; try done; rel_frame. Qed.

Lemma perform_same_contracts (lib : Library) (c : Host.call) :
  match c with
  | Host.answer_contracts _ => True
  | _ => rel same_contracts (Host.perform lib c)
  end.
Proof. destruct c; try done; rel_frame. Qed.

Lemma perform_same_registry (lib : Library) (c : Host.call) :
  match c with
  | Host.call_subscribe _ | Host.call_unsubscribe _ | Host.ws_connected _ => True
  | _ => rel same_registry (Host.perform lib c)
  end.
Proof. destruct c; try done; rel_frame. Qed.


Lemma perform_same_credentials (lib : Library) (c : Host.call) :
  match c with
  | Host.ws_connect _ _ => True
  | _ => rel same_credentials (Host.perform lib c)
  end.
Proof. destruct c; try done; rel_frame. Qed.

Lemma perform_grows (lib : Library) (c : Host.call) :
  rel grows (Host.perform lib c).
Proof.
  destruct c; rel_frame;
    apply rel_modify; intros g; unfold grows; simpl;
    repeat split; try done; try lia; set_solver.
Qed.

(** ** Calls write their own part of the state only *)



(** X3.  Over any history of calls nothing is taken away: an order id that
    is cached stays cached (so [get_order] keeps finding it), an exchange
    order id that is known stays known, a contract that is known stays known,
    and the order counter never goes down. *)
Theorem nothing_is_taken_away :
  forall (lib : Library) (calls : list Host.call) (g : Gateway),
    let g' := Host.run lib calls g in
    dom (orders g) ⊆ dom (orders g') /\
    dom (order_id g) ⊆ dom (order_id g') /\
    dom (symbol_contract_map g) ⊆ dom (symbol_contract_map g') /\
    order_count g <= order_count g'.
Proof.
  intros lib calls g g'.
  apply (rel_run grows). apply perform_grows.
Qed.

(** ** Every reachable state is consistent *)

Global Instance keeps_consistent_preorder : PreOrder keeps_consistent.
Proof.
  split; [intros g H; exact H|]. intros x y z H1 H2 H. apply H2, H1, H.
Qed.

Lemma queued_app (t1 t2 : list effect) :
  queued (t1 ++ t2) = queued t1 ++ queued t2.
Proof. apply omap_app. Qed.

Lemma pushed_app (t1 t2 : list effect) :
  pushed (t1 ++ t2) = pushed t1 ++ pushed t2.
Proof. apply omap_app. Qed.

Lemma consistent_init (name : string) (contracts : gmap key ContractData) :
  consistent (init name contracts).
Proof.
  split; simpl; try done.
  - intros rq a H. by apply elem_of_nil in H.
  - intros rq H. by apply elem_of_nil in H.
  - intros a H. by apply elem_of_nil in H.
  - apply Forall_nil_2.
  - apply NoDup_nil_2.
Qed.

(** An order stays what it is when the heap gets one more object. *)
Lemma order_at_alloc (g : Gateway) (o : OrderData) (a : addr) (P : json -> Prop) :
  order_at g a P -> order_at (set_heap (fun h => h ++ [o]) g) a P.
Proof.
  intros (o' & Ha & HP). exists o'. split; [|done].
  simpl. by apply lookup_app_l_Some.
Qed.

Lemma consistent_alloc (o : OrderData) (g : Gateway) :
  consistent g -> consistent (set_heap (fun h => h ++ [o]) g).
Proof.
  intros [C1 C2 C3 C4 C5 C6 C7]. split; try done.
  - intros k a H. by apply order_at_alloc, C1.
  - intros rq a H1 H2. by apply order_at_alloc, (C2 rq).
  - intros a H. simpl. rewrite length_app. specialize (C4 a H). simpl in *. lia.
Qed.

(** Writing a status into an order leaves its id alone. *)
Lemma order_at_store (g : Gateway) (a : addr) (o : OrderData)
    (s : status_value) (b : addr) (P : json -> Prop) :
  heap g !! a = Some o ->
  order_at g b P ->
  order_at (set_heap (fun h => <[a := with_status s o]> h) g) b P.
Proof.
  intros Ha (o' & Hb & HP). simpl.
  destruct (decide (a = b)) as [->|Hne].
  - exists (with_status s o). split.
    + simpl. apply list_lookup_insert_eq. by eapply lookup_lt_Some.
    + simpl. by simplify_eq.
  - exists o'. split; [|done]. simpl. by rewrite list_lookup_insert_ne.
Qed.

Lemma consistent_store (a : addr) (o : OrderData) (s : status_value)
    (g : Gateway) :
  heap g !! a = Some o ->
  consistent g ->
  consistent (set_heap (fun h => <[a := with_status s o]> h) g).
Proof.
  intros Ha [C1 C2 C3 C4 C5 C6 C7]. split; try done.
  - intros k b H. by apply order_at_store, C1.
  - intros rq b H1 H2. by apply order_at_store, (C2 rq).
  - intros b H. simpl. rewrite length_insert. by apply C4.
Qed.

Lemma consistent_cache (k : key) (c : addr) (g : Gateway) :
  order_at g c (fun id => key_of id = Ok k) ->
  consistent g ->
  consistent (set_orders (fun m => <[k := c]> m) g).
Proof.
  intros Hc [C1 C2 C3 C4 C5 C6 C7]. split; try done.
  intros k' a. simpl. destruct (decide (k = k')) as [->|Hne].
  - rewrite lookup_insert_eq. intros [= <-]. exact Hc.
  - rewrite lookup_insert_ne by done. apply C1.
Qed.

Lemma consistent_push (a : addr) (g : Gateway) :
  (a < length (heap g))%nat ->
  consistent g ->
  consistent (set_trace (fun t => t ++ [push_order a]) g).
Proof.
  intros Ha [C1 C2 C3 C4 C5 C6 C7]. split; try done; simpl.
  - intros rq b. rewrite queued_app. simpl. rewrite app_nil_r. apply C2.
  - intros rq. rewrite queued_app. simpl. rewrite app_nil_r. apply C3.
  - intros b. rewrite pushed_app. simpl. intros [H|H]%elem_of_app.
    + by apply C4.
    + apply list_elem_of_singleton in H. by subst.
Qed.

Lemma consistent_request (rq : Request) (g : Gateway) :
  (forall a, extra rq = Some a -> order_at g a (carried_id rq)) ->
  (Host.is_send_order_failed rq = true ->
     Host.is_send_order_error rq = true /\
     exists a id, extra rq = Some a /\ assoc "clientId" (data rq) = Some (JStr id)) ->
  consistent g ->
  consistent (set_trace (fun t => t ++ [add_request rq]) g).
Proof.
  intros H1 H2 [C1 C2 C3 C4 C5 C6 C7]. split; try done; simpl.
  - intros rq' b. rewrite queued_app. simpl. intros [H|H]%elem_of_app.
    + by apply C2.
    + apply list_elem_of_singleton in H. subst rq'. apply H1.
  - intros rq'. rewrite queued_app. simpl. intros [H|H]%elem_of_app.
    + by apply C3.
    + apply list_elem_of_singleton in H. by subst rq'.
  - intros b. rewrite pushed_app. simpl. rewrite app_nil_r. apply C4.
Qed.

Lemma consistent_emit (e : effect) (g : Gateway) :
  names_no_order e = true ->
  consistent g ->
  consistent (set_trace (fun t => t ++ [e]) g).
Proof.
  intros He Hc. destruct e as [| | |rq| | | |a| | | |];
    try (destruct Hc as [C1 C2 C3 C4 C5 C6 C7]; split; try done; simpl;
         [ intros rq' b; rewrite queued_app; simpl; rewrite app_nil_r; apply C2
         | intros rq'; rewrite queued_app; simpl; rewrite app_nil_r; apply C3
         | intros b; rewrite pushed_app; simpl; rewrite app_nil_r; apply C4 ]).
  - simpl in He. apply consistent_request; [| |done].
    + intros a Ha. by rewrite Ha in He.
    + intros Hf. destruct (extra rq); [done|]. by rewrite Hf in He.
  - done.
Qed.

(** The registry. *)
Section RegistryKeys.
Import FtxWebsocketApi.

Lemma dict_set_keys {V} (k : string) (v : V) (d : list (string * V)) :
  fst <$> dict_set k v d
  = if dict_mem k d then fst <$> d else (fst <$> d) ++ [k].
Proof.
  induction d as [|[k' v'] d IH]; [done|].
  cbn [dict_set]. unfold dict_mem in *. cbn [existsb fst].
  destruct (String.eqb k' k) eqn:E.
  - apply String.eqb_eq in E. by subst.
  - cbn [orb fmap list_fmap fst]. simpl. rewrite IH.
    by destruct (existsb _ d).
Qed.

Lemma dict_mem_elem {V} (k : string) (d : list (string * V)) :
  dict_mem k d = false -> k ∉ fst <$> d.
Proof.
  induction d as [|[k' v'] d IH]; simpl.
  - intros _ H. by apply elem_of_nil in H.
  - unfold dict_mem in *. simpl. intros [E1 E2]%orb_false_iff.
    apply String.eqb_neq in E1.
    intros [H|H]%elem_of_cons; [congruence|by apply IH].
Qed.

Lemma dict_set_NoDup {V} (k : string) (v : V) (d : list (string * V)) :
  NoDup (fst <$> d) -> NoDup (fst <$> dict_set k v d).
Proof.
  intros H. rewrite dict_set_keys. destruct (dict_mem k d) eqn:E; [done|].
  apply NoDup_app. split; [done|]. split; [|apply NoDup_singleton].
  intros x Hx Hk. apply list_elem_of_singleton in Hk. subst x.
  by apply (dict_mem_elem k d).
Qed.

Lemma dict_pop_keys {V} (k : string) (d : list (string * V)) :
  fst <$> dict_pop k d = filter (fun x => x ≠ k) (fst <$> d).
Proof.
  unfold dict_pop. induction d as [|[k' v'] d IH]; [done|].
  rewrite fmap_cons, !filter_cons. cbn [fst].
  destruct (decide (k' ≠ k)); [rewrite fmap_cons|]; by rewrite IH.
Qed.

Lemma dict_pop_NoDup {V} (k : string) (d : list (string * V)) :
  NoDup (fst <$> d) -> NoDup (fst <$> dict_pop k d).
Proof. intros H. rewrite dict_pop_keys. by apply NoDup_filter. Qed.

Lemma registry_keyed_pop (k : string) subs :
  registry_keyed subs -> registry_keyed (dict_pop k subs).
Proof.
  unfold registry_keyed, dict_pop. rewrite !Forall_forall. intros H p Hp.
  apply list_elem_of_filter in Hp as [_ Hp]. by apply H.
Qed.

Lemma consistent_subscribed (req : SubscribeRequest) (g : Gateway) :
  consistent g ->
  consistent (set_subscribed (dict_set (vt_symbol req) req) g).
Proof.
  intros [C1 C2 C3 C4 C5 C6 C7]. split; try done; simpl.
  - by apply registry_keyed_set.
  - unfold registry_keys. simpl. by apply dict_set_NoDup.
Qed.

Lemma consistent_unsubscribed (k : string) (g : Gateway) :
  consistent g ->
  consistent (set_subscribed (dict_pop k) g).
Proof.
  intros [C1 C2 C3 C4 C5 C6 C7]. split; try done; simpl.
  - by apply registry_keyed_pop.
  - unfold registry_keys. simpl. by apply dict_pop_NoDup.
Qed.

End RegistryKeys.

(** The methods that handle an order. *)
Lemma on_order_consistent (a : addr) :
  rel keeps_consistent (FtxGateway.on_order a).
Proof.
  intros g Hc.
  destruct (heap g !! a) as [o|] eqn:Ha.
  - destruct (key_of (orderid o)) as [k|e] eqn:Hk.
    + rewrite (on_order_run a o k g Ha Hk). simpl.
      apply consistent_push.
      { simpl. rewrite length_app. apply lookup_lt_Some in Ha. lia. }
      apply consistent_cache; [|by apply consistent_alloc].
      exists o. split; [|done]. simpl. by apply list_lookup_middle.
    + unfold FtxGateway.on_order. unfold_m. simpl. rewrite Ha. simpl.
      rewrite Hk. simpl. by apply consistent_alloc.
  - unfold FtxGateway.on_order. unfold_m. simpl. by rewrite Ha.
Qed.

Lemma reject_consistent (a : addr) :
  rel keeps_consistent (FtxRestApi.reject a).
Proof.
  intros g Hc. unfold FtxRestApi.reject, deref, store, modify, gets, lift.
  unfold mbind, M_bind, mret, M_ret. simpl.
  destruct (heap g !! a) as [o|] eqn:Ha; simpl; [|done].
  apply (on_order_consistent a). by apply consistent_store.
Qed.

Lemma cancel_order_consistent (req : CancelRequest) :
  rel keeps_consistent (FtxRestApi.cancel_order req).
Proof.
  intros g Hc. unfold FtxRestApi.cancel_order. unfold_m. simpl.
  apply consistent_request; [| |done]; simpl.
  - intros a Ha. destruct (cache_in_heap g Hc _ _ Ha) as (o & Ho & Hk).
    exists o. split; [done|]. split; [by eexists|done].
  - done.
Qed.

Lemma send_order_consistent (lib : Library) (req : OrderRequest) :
  rel keeps_consistent (FtxRestApi.send_order lib req).
Proof.
  intros g Hc. rewrite send_order_run.
  set (id := str (connect_time g + (order_count g + 1))).
  set (o := create_order_data req id (gateway_name g)).
  assert (H1 : consistent
    (set_trace (fun t => t ++ [push_order (length (heap g))])
       (set_orders (fun m => <[KStr id := S (length (heap g))]> m)
          (set_heap (fun h => h ++ [o; o])
             (set_order_count (fun c => c + 1) g))))).
  { replace (set_heap (fun h => h ++ [o; o]) (set_order_count (fun c => c + 1) g))
      with (set_heap (fun h => h ++ [o])
              (set_heap (fun h => h ++ [o]) (set_order_count (fun c => c + 1) g)))
      by (unfold set_heap; simpl; by rewrite <- app_assoc).
    apply consistent_push.
    { simpl. rewrite !length_app. simpl. lia. }
    apply consistent_cache.
    { exists o. split; [|done]. simpl. apply list_lookup_middle.
      rewrite length_app. simpl. lia. }
    do 2 apply consistent_alloc.
    destruct Hc as [C1 C2 C3 C4 C5 C6 C7]. split; try done. simpl. lia. }
  destruct (DIRECTION_VT2FTX (req_direction req)); [|done].
  destruct (ORDERTYPE_VT2FTX (req_type req)); [|done].
  simpl. apply consistent_request; [| |done]; simpl.
  - intros b [= <-]. exists o. split.
    + simpl. by apply list_lookup_middle.
    + split; [by eexists|]. intros c [= <-]. done.
  - intros _. split; [done|]. by exists (length (heap g)), id.
Qed.

(** Taking apart every other method. *)
Ltac unfold_handlers :=
  unfold Host.perform, Host.with_request,
    FtxRestApi.connect, FtxRestApi.query_account, FtxRestApi.query_position,
    FtxRestApi.query_order, FtxRestApi.query_contract,
    FtxRestApi.on_query_order, FtxRestApi.on_query_order_item,
    FtxRestApi.on_query_contract, FtxRestApi.on_query_contract_item,
    FtxRestApi.on_send_order_error, FtxRestApi.on_send_order_failed,
    FtxRestApi.on_cancel_failed, FtxRestApi.query_history,
    FtxWebsocketApi.connect, FtxWebsocketApi.on_connected,
    FtxWebsocketApi.on_disconnected, FtxWebsocketApi.authenticate,
    FtxWebsocketApi.ping, FtxWebsocketApi.subscribe,
    FtxWebsocketApi.unsubscribe, FtxWebsocketApi.subscribe_private_channels,
    FtxWebsocketApi.on_packet, FtxWebsocketApi.on_packet_ticker,
    FtxWebsocketApi.on_packet_fills, FtxWebsocketApi.on_packet_orders,
    FtxGateway.write_log, alloc, deref;
  unfold FtxRestApi.query_position, emit.

Ltac consistent_leaf :=
  lazymatch goal with
  | |- rel _ (FtxGateway.on_order _) => apply on_order_consistent
  | |- rel _ (FtxRestApi.reject _) => apply reject_consistent
  | |- rel _ (FtxRestApi.cancel_order _) => apply cancel_order_consistent
  | |- rel _ (FtxRestApi.send_order _ _) => apply send_order_consistent
  | |- rel _ (modify (set_trace _)) =>
      apply rel_modify;
      intros ? ?; apply consistent_emit; [reflexivity|assumption]
  | |- rel _ (modify (set_heap _)) =>
      apply rel_modify; intros ? ?; by apply consistent_alloc
  | |- rel _ (modify (set_subscribed (FtxWebsocketApi.dict_set _ _))) =>
      apply rel_modify;
      intros ? ?; by apply consistent_subscribed
  | |- rel _ (modify (set_subscribed (FtxWebsocketApi.dict_pop _))) =>
      apply rel_modify;
      intros ? ?; by apply consistent_unsubscribed
  | |- rel _ (modify _) =>
      apply rel_modify;
      intros ? [? ? ? ? ? ? ?]; split; done
  end.

Lemma perform_consistent (lib : Library) (c : Host.call) :
  rel keeps_consistent (Host.perform lib c).
Proof.
  destruct c; unfold_handlers; cbv zeta; repeat rel_step; consistent_leaf.
Qed.

(** X4.  Whatever the host, the exchange and the transports have done to a
    gateway since it was built, its state hangs together: every cached order
    id leads to an order object with that id; the order a queued request
    carries exists and has the client id the request names; every request
    that [send_order] queued carries its order; every order pushed to the
    host exists; the subscription registry holds each request once, under
    its own [vt_symbol]; and the order counter has not fallen below its
    start. *)
Theorem reachable_states_are_consistent :
  forall (lib : Library) (name : string) (contracts : gmap key ContractData)
         (calls : list Host.call),
    consistent (Host.run lib calls (init name contracts)).
Proof.
  intros lib name contracts calls.
  apply (rel_run keeps_consistent lib calls (perform_consistent lib)).
  apply consistent_init.
Qed.
(** ** Failure callbacks in reachable states *)

Lemma reject_key (a : addr) (o : OrderData) (k : key) (g : Gateway) :
  heap g !! a = Some o ->
  key_of (orderid o) = Ok k ->
  FtxRestApi.reject a g
  = (Ok tt,
     set_trace (fun t => t ++ [push_order a])
       (set_orders (fun m => <[k := length (heap g)]> m)
          (set_heap (fun h => h ++ [with_status REJECTED o])
             (set_heap (fun h => <[a := with_status REJECTED o]> h) g)))).
Proof.
  intros Ha Hk. unfold FtxRestApi.reject, deref, store, modify, gets, lift.
  unfold mbind, M_bind, mret, M_ret. simpl. rewrite Ha. simpl.
  rewrite (on_order_run a (with_status REJECTED o) k).
  - simpl. by rewrite length_insert.
  - simpl. apply list_lookup_insert_eq. by eapply lookup_lt_Some.
  - done.
Qed.

Lemma reject_key_status (a : addr) (o : OrderData) (k : key) (g : Gateway) :
  heap g !! a = Some o ->
  key_of (orderid o) = Ok k ->
  let g' := exec (FtxRestApi.reject a) g in
  heap g' !! a = Some (with_status REJECTED o) /\
  status_under g' k = Some (StatusMember REJECTED).
Proof.
  intros Ha Hk. unfold exec. rewrite (reject_key a o k g Ha Hk). simpl.
  assert (Hlt : (a < length (heap g))%nat) by (by eapply lookup_lt_Some).
  split.
  - rewrite lookup_app_l by (by rewrite length_insert).
    by apply list_lookup_insert_eq.
  - unfold status_under. simpl. rewrite lookup_insert_eq. simpl.
    rewrite <- (length_insert (heap g) a (with_status REJECTED o)).
    by rewrite list_lookup_middle.
Qed.

Lemma on_cancel_failed_run (rq : Request) (g : Gateway)
    (status_code response_text : string) :
  (forall a, extra rq = Some a ->
     exists o k, heap g !! a = Some o /\ key_of (orderid o) = Ok k) ->
  FtxRestApi.on_cancel_failed status_code response_text rq g
  = (Ok tt,
     set_trace (fun t => t ++ [write_log
        ("撤单失败，状态码：" +:+ status_code +:+ "，信息：" +:+ response_text)])
       (match extra rq with
        | Some a => exec (FtxRestApi.reject a) g
        | None => g
        end)).
Proof.
  intros H. unfold FtxRestApi.on_cancel_failed.
  destruct (extra rq) as [a|].
  - destruct (H a eq_refl) as (o & k & Ha & Hk).
    unfold mbind, M_bind, exec. rewrite (reject_key a o k g Ha Hk).
    by unfold_m.
  - by unfold_m.
Qed.

Lemma on_send_order_failed_run (a : addr) (o : OrderData) (k : key)
    (rq : Request) (g : Gateway) (status_code response_text : string) :
  extra rq = Some a ->
  heap g !! a = Some o ->
  key_of (orderid o) = Ok k ->
  let msg := "委托失败，状态码：" +:+ status_code +:+ "，信息：" +:+ response_text in
  FtxRestApi.on_send_order_failed status_code response_text rq g
  = (Ok tt,
     set_trace (fun t => t ++ [write_log msg; print (PText msg)])
       (exec (FtxRestApi.reject a) g)).
Proof.
  intros He Ha Hk msg. unfold FtxRestApi.on_send_order_failed. rewrite He.
  unfold mbind, M_bind, exec. rewrite (reject_key a o k g Ha Hk).
  unfold_m. simpl. unfold set_trace. simpl. by rewrite <- !app_assoc.
Qed.

Lemma on_send_order_error_run (a : addr) (o : OrderData) (k : key)
    (rq : Request) (g : Gateway) (transient : bool) (exception_value : string) :
  extra rq = Some a ->
  heap g !! a = Some o ->
  key_of (orderid o) = Ok k ->
  FtxRestApi.on_send_order_error transient exception_value rq g
  = (Ok tt,
     set_trace (fun t => t ++ (if transient then [] else [rest_on_error])
                           ++ [print (PText exception_value)])
       (exec (FtxRestApi.reject a) g)).
Proof.
  intros He Ha Hk. unfold FtxRestApi.on_send_order_error. rewrite He.
  unfold mbind, M_bind, exec. rewrite (reject_key a o k g Ha Hk).
  unfold_m. destruct transient; simpl; unfold set_trace; simpl;
    by rewrite <- ?app_assoc.
Qed.

(** X5.  In every state a gateway can reach, the failure callbacks can be
    run on any request it has queued, and they return: the order a request
    carries is still there and its id can still be hashed.  A failed
    cancellation leaves the order it carries marked [REJECTED], object and
    cached copy alike; either failure callback of a request queued by
    [send_order] leaves the order cached as [REJECTED] under the client id
    the request named, whatever has happened to the order in between. *)
Theorem failure_callbacks_in_reachable_states :
  forall (lib : Library) (name : string) (contracts : gmap key ContractData)
         (calls : list Host.call) (n : nat) (rq : Request),
    let g := Host.run lib calls (init name contracts) in
    queued (trace g) !! n = Some rq ->
    (forall status_code response_text : string,
        fst (FtxRestApi.on_cancel_failed status_code response_text rq g) = Ok tt) /\
    (forall (a : addr) (status_code response_text : string),
        extra rq = Some a ->
        let g' := exec (FtxRestApi.on_cancel_failed status_code response_text rq) g in
        exists (o : OrderData) (k : key),
          heap g !! a = Some o /\
          key_of (orderid o) = Ok k /\
          heap g' !! a = Some (with_status REJECTED o) /\
          status_under g' k = Some (StatusMember REJECTED)) /\
    (Host.is_send_order_failed rq = true ->
     exists id : string,
       assoc "clientId" (data rq) = Some (JStr id) /\
       (forall status_code response_text : string,
           fst (FtxRestApi.on_send_order_failed status_code response_text rq g)
             = Ok tt /\
           cached_status
             (exec (FtxRestApi.on_send_order_failed status_code response_text rq) g)
             id = Some (StatusMember REJECTED)) /\
       (forall (transient : bool) (exception_value : string),
           fst (FtxRestApi.on_send_order_error transient exception_value rq g)
             = Ok tt /\
           cached_status
             (exec (FtxRestApi.on_send_order_error transient exception_value rq) g)
             id = Some (StatusMember REJECTED))).
Proof.
  intros lib name contracts calls n rq g Hn.
  assert (Hc : consistent g).
  { apply (rel_run keeps_consistent lib calls (perform_consistent lib)).
    apply consistent_init. }
  apply list_elem_of_lookup_2 in Hn.
  assert (Hx : forall a, extra rq = Some a ->
             exists o k, heap g !! a = Some o /\ key_of (orderid o) = Ok k).
  { intros a Ha.
    destruct (queued_in_heap g Hc rq a Hn Ha) as (o & Ho & [k Hk] & _).
    by exists o, k. }
  split; [|split].
  - intros sc txt. by rewrite on_cancel_failed_run.
  - intros a sc txt Ha g'. destruct (Hx a Ha) as (o & k & Ho & Hk).
    exists o, k. do 2 (split; [done|]).
    subst g'. unfold exec. rewrite on_cancel_failed_run by done. rewrite Ha.
    apply (reject_key_status a o k g Ho Hk).
  - intros Hf.
    destruct (queued_send_order g Hc rq Hn Hf) as (_ & a & id & Ha & Hid).
    destruct (queued_in_heap g Hc rq a Hn Ha) as (o & Ho & _ & Hcid).
    specialize (Hcid _ Hid).
    assert (Hk : key_of (orderid o) = Ok (KStr id)) by (by rewrite Hcid).
    exists id. split; [done|]. split.
    + intros sc txt. unfold exec.
      rewrite (on_send_order_failed_run a o (KStr id)) by done.
      split; [done|]. apply (reject_key_status a o (KStr id) g Ho Hk).
    + intros transient ev. unfold exec.
      rewrite (on_send_order_error_run a o (KStr id)) by done.
      split; [done|]. apply (reject_key_status a o (KStr id) g Ho Hk).
Qed.

(** X5 on the sample gateway, after [connect] and one [send_order]: the
    fifth queued request is the order's. *)
Lemma failure_callbacks_in_reachable_states_witness :
  let calls := [Host.rest_connect 261103120000; Host.call_send_order Sample.buy] in
  let g := Host.run Sample.library calls Sample.gateway in
  Host.is_send_order_failed <$> queued (trace g) !! 4%nat = Some true /\
  cached_status
    (exec (Host.perform Sample.library
             (Host.fail_send_order 4 "400" "Not enough balances")) g)
    "261103120001000001" = Some (StatusMember REJECTED).
Proof.
  intros calls g.
  destruct (queued (trace g) !! 4%nat) as [rq|] eqn:E; [|by vm_compute in E].
  destruct (failure_callbacks_in_reachable_states Sample.library "FTX" _
              calls 4 rq E) as (_ & _ & H).
  assert (Hf : Host.is_send_order_failed rq = true).
  { vm_compute in E. by injection E as <-. }
  split; [simpl; by rewrite Hf|].
  destruct (H Hf) as (id & Hid & H1 & _).
  destruct (H1 "400" "Not enough balances") as [_ H2].
  assert (id = "261103120001000001") as <-.
  { vm_compute in E. injection E as <-. vm_compute in Hid. by injection Hid. }
  unfold Host.perform, Host.with_request. unfold exec in *. unfold_m.
  fold g. rewrite E. simpl. rewrite Hf. exact H2.
Defined.
(** ** Cancelling an order the cache holds *)

Lemma cancel_order_run (req : CancelRequest) (g : Gateway) :
  FtxRestApi.cancel_order req g
  = (Ok tt,
     set_trace (fun t => t ++ [add_request
       {| method := "DELETE";
          path := "/api/orders/by_client_id/" +:+ cancel_orderid req;
          callback_ := Some cb_on_cancel_order; security := SIGNED;
          data := []; params := [];
          extra := orders g !! KStr (cancel_orderid req);
          on_error_ := None;
          on_failed_ := Some cb_on_cancel_failed |}]) g).
Proof. reflexivity. Qed.

Lemma cached_status_set_trace (f : list effect -> list effect) (g : Gateway)
    (id : string) :
  cached_status (set_trace f g) id = cached_status g id.
Proof. reflexivity. Qed.

(** X6.  In every state a gateway can reach, cancelling an order id that the
    cache holds queues one request, carrying the cached object; if that
    request fails, the callback returns and the order is cached as
    [REJECTED] under the id, whatever its status was before: an order that
    was already filled or cancelled is [REJECTED] afterwards too. *)
Theorem failed_cancel_rejects_cached_order :
  forall (lib : Library) (name : string) (contracts : gmap key ContractData)
         (calls : list Host.call) (req : CancelRequest)
         (status_code response_text : string),
    let g := Host.run lib calls (init name contracts) in
    let g1 := exec (FtxRestApi.cancel_order req) g in
    is_Some (orders g !! KStr (cancel_orderid req)) ->
    exists rq : Request,
      queued (since g g1) = [rq] /\
      extra rq = orders g !! KStr (cancel_orderid req) /\
      fst (FtxRestApi.on_cancel_failed status_code response_text rq g1) = Ok tt /\
      cached_status
        (exec (FtxRestApi.on_cancel_failed status_code response_text rq) g1)
        (cancel_orderid req) = Some (StatusMember REJECTED).
Proof.
  intros lib name contracts calls req sc txt g g1 [a Ha].
  assert (Hc : consistent g).
  { apply (rel_run keeps_consistent lib calls (perform_consistent lib)).
    apply consistent_init. }
  destruct (cache_in_heap g Hc _ _ Ha) as (o & Ho & Hk).
  subst g1. unfold exec. rewrite cancel_order_run. cbn [snd].
  eexists. split.
  { erewrite since_app by (simpl; reflexivity). reflexivity. }
  split; [done|].
  rewrite on_cancel_failed_run.
  - split; [done|]. cbn [snd extra]. rewrite Ha.
    rewrite cached_status_set_trace.
    match goal with
    | |- cached_status (exec (FtxRestApi.reject a) ?g1) _ = _ =>
        exact (proj2 (reject_key_status a o (KStr (cancel_orderid req)) g1 Ho Hk))
    end.
  - cbn [extra]. rewrite Ha. intros b [= <-].
    by exists o, (KStr (cancel_orderid req)).
Qed.

(** X6 on the sample gateway: an order reported as filled, cancelled by its
    id; the cancellation fails. *)
Lemma failed_cancel_rejects_cached_order_witness :
  let calls := [Host.ws_packet (Sample.orders_frame "closed" 10 10 0)] in
  let req := {| cancel_orderid := "7"; cancel_symbol := "BTC-PERP";
                cancel_exchange := "FTX" |} in
  let g := Host.run Sample.library calls Sample.gateway in
  let g1 := exec (FtxRestApi.cancel_order req) g in
  cached_status g "7" = Some (StatusMember ALLTRADED) /\
  exists rq : Request,
    queued (since g g1) = [rq] /\
    cached_status
      (exec (FtxRestApi.on_cancel_failed "400" "Order already closed" rq) g1)
      "7" = Some (StatusMember REJECTED).
Proof.
  intros calls req g g1. split; [by vm_compute|].
  destruct (failed_cancel_rejects_cached_order Sample.library "FTX"
              (symbol_contract_map Sample.gateway)
              calls req "400" "Order already closed")
    as (rq & H1 & _ & _ & H2).
  { vm_compute. by eexists. }
  exists rq. split; [exact H1|exact H2].
Defined.

(** ** Subscribing and unsubscribing *)

Section RegistryRoundTrip.
Import FtxWebsocketApi.

Lemma dict_pop_set {V} (k : string) (v : V) (d : list (string * V)) :
  dict_mem k d = false -> dict_pop k (dict_set k v d) = d.
Proof.
  unfold dict_mem, dict_pop. induction d as [|[k' v'] d IH]; simpl.
  - intros _. rewrite filter_cons. simpl. by rewrite decide_False by (by intros []).
  - intros [E1 E2]%orb_false_iff. rewrite E1.
    apply String.eqb_neq in E1.
    rewrite filter_cons. simpl. rewrite decide_True by done.
    by rewrite IH.
Qed.

(** [unsubscribe], case by case. *)
Lemma unsubscribe_unknown_symbol req g :
  symbol_contract_map g !! KStr (sub_symbol req) = None ->
  unsubscribe req g
  = (Ok tt, set_trace
              (fun t => t ++ [write_log ("找不到该合约代码" +:+ sub_symbol req)]) g).
Proof.
  intros H. unfold unsubscribe. unfold_m. simpl.
  by rewrite bool_decide_eq_true_2.
Qed.

Lemma unsubscribe_absent req g :
  symbol_contract_map g !! KStr (sub_symbol req) <> None ->
  dict_mem (vt_symbol req) (subscribed g) = false ->
  unsubscribe req g = (Ok tt, g).
Proof.
  intros H Hm. unfold unsubscribe. unfold_m. simpl.
  rewrite bool_decide_eq_false_2 by done. by rewrite Hm.
Qed.

Lemma unsubscribe_registered req g :
  symbol_contract_map g !! KStr (sub_symbol req) <> None ->
  dict_mem (vt_symbol req) (subscribed g) = true ->
  unsubscribe req g
  = (Ok tt,
     set_trace (fun t => t ++ [send_packet (unsubscribe_ticker (sub_symbol req))])
       (set_subscribed (dict_pop (vt_symbol req)) g)).
Proof.
  intros H Hm. unfold unsubscribe. unfold_m. simpl.
  rewrite bool_decide_eq_false_2 by done. by rewrite Hm.
Qed.

(** X7.  For a known symbol that is not in the registry: [unsubscribe] after
    [subscribe] puts the registry back as it was and sends one frame, the
    ticker's; the fills and orders channels that [subscribe] asked for are
    not given up.  A second [unsubscribe] changes nothing at all.
    Subscribing once more sends the three frames of the first time again,
    the two private subscriptions included. *)
Theorem unsubscribe_undoes_subscribe :
  forall (req : SubscribeRequest) (g : Gateway),
    symbol_contract_map g !! KStr (sub_symbol req) <> None ->
    dict_mem (vt_symbol req) (subscribed g) = false ->
    let g1 := exec (subscribe req) g in
    let g2 := exec (unsubscribe req) g1 in
    let g3 := exec (subscribe req) g2 in
    subscribed g2 = subscribed g /\
    sent (since g1 g2) = [unsubscribe_ticker (sub_symbol req)] /\
    unsubscribe req g2 = (Ok tt, g2) /\
    sent (since g2 g3) = sent (since g g1) /\
    length (filter is_subscribe (sent (since g g1))) = 3%nat /\
    subscribed g3 = subscribed g1.
Proof.
  intros req g Hk Hm g1 g2 g3. subst g1 g2 g3. unfold exec.
  rewrite (subscribe_fresh req g Hk Hm). cbn [snd].
  rewrite unsubscribe_registered;
    [|done|by (simpl; apply dict_mem_set)].
  cbn [snd].
  rewrite (unsubscribe_absent req);
    [|done|by (simpl; rewrite dict_pop_set)].
  rewrite (subscribe_fresh req);
    [|done|by (simpl; rewrite dict_pop_set)].
  cbn [snd]. simpl subscribed. rewrite dict_pop_set by done.
  split; [done|].
  split. { by erewrite since_app by (simpl; reflexivity). }
  split; [done|].
  split.
  { erewrite !since_app by (simpl; reflexivity). reflexivity. }
  split; [|done].
  erewrite since_app by (simpl; reflexivity). reflexivity.
Qed.

(** X7 on the sample gateway. *)
Lemma unsubscribe_undoes_subscribe_witness :
  let g1 := exec (subscribe Sample.btc) Sample.gateway in
  let g2 := exec (unsubscribe Sample.btc) g1 in
  subscribed g2 = [] /\
  sent (since g1 g2) = [unsubscribe_ticker "BTC-PERP"].
Proof.
  intros g1 g2.
  destruct (unsubscribe_undoes_subscribe Sample.btc Sample.gateway)
    as (H1 & H2 & _); [by vm_compute|by vm_compute|].
  split; [exact H1|exact H2].
Defined.

End RegistryRoundTrip.

(** ** Subscribing before the contracts are known *)

Section BeforeContracts.
Import FtxWebsocketApi.

Lemma perform_before_contracts (lib : Library) (c : Host.call) (g : Gateway) :
  no_contracts_answer c = true ->
  symbol_contract_map g = ∅ ->
  subscribed g = [] ->
  let g' := exec (Host.perform lib c) g in
  symbol_contract_map g' = ∅ /\ subscribed g' = [].
Proof.
  intros Hc Hm Hs g'. subst g'. unfold exec. split.
  - pose proof (perform_same_contracts lib c) as H.
    destruct c; try done;
      specialize (H g); unfold same_contracts in H; by rewrite H.
  - pose proof (perform_same_registry lib c) as H.
    destruct c;
      try (specialize (H g); unfold same_registry in H; by rewrite H); simpl.
    + destruct (on_connected_replays_nothing lib timestamp g) as (_ & H1 & _).
      { rewrite Hs. apply Forall_nil_2. }
      unfold exec in *. by rewrite H1.
    + rewrite subscribe_unknown_symbol; [done|].
      by rewrite Hm, lookup_empty.
    + rewrite unsubscribe_unknown_symbol; [done|].
      by rewrite Hm, lookup_empty.
Qed.

Lemma run_before_contracts (lib : Library) (calls : list Host.call) :
  forall g : Gateway,
    forallb no_contracts_answer calls = true ->
    symbol_contract_map g = ∅ ->
    subscribed g = [] ->
    symbol_contract_map (Host.run lib calls g) = ∅ /\
    subscribed (Host.run lib calls g) = [].
Proof.
  induction calls as [|c calls IH]; intros g Hc Hm Hs; [done|].
  simpl in Hc. apply andb_true_iff in Hc as [Hc1 Hc2].
  destruct (perform_before_contracts lib c g Hc1 Hm Hs) as [Hm' Hs'].
  simpl. by apply IH.
Qed.

(** X8.  A gateway that starts with an empty contract cache knows no symbol
    until the contract query is answered.  Until then, whatever else has
    happened, [subscribe] sends no frame and registers nothing: the request
    is dropped with one log line, and since the registry stays empty no
    later reconnect brings it back. *)
Theorem subscriptions_before_contracts_are_dropped :
  forall (lib : Library) (name : string) (calls : list Host.call)
         (req : SubscribeRequest),
    forallb no_contracts_answer calls = true ->
    let g := Host.run lib calls (init name ∅) in
    subscribed g = [] /\
    subscribe req g
    = (Ok tt,
       set_trace
         (fun t => t ++ [write_log ("找不到该合约代码" +:+ sub_symbol req)]) g).
Proof.
  intros lib name calls req Hc g.
  destruct (run_before_contracts lib calls (init name ∅) Hc) as [Hm Hs];
    [done|done|].
  split; [done|]. apply subscribe_unknown_symbol.
  subst g. by rewrite Hm, lookup_empty.
Qed.

(** X8 for a gateway that was connected, asked for a subscription and
    reconnected before the contracts arrived. *)
Lemma subscriptions_before_contracts_are_dropped_witness :
  let calls := [ Host.rest_connect 261103120000; Host.ws_connect "key" "secret";
                 Host.call_subscribe Sample.btc;
                 Host.ws_connected 1614592800000 ] in
  let g := Host.run Sample.library calls (init "FTX" ∅) in
  subscribed g = [] /\
  sent (since g (exec (subscribe Sample.btc) g)) = [].
Proof.
  intros calls g.
  destruct (subscriptions_before_contracts_are_dropped
              Sample.library "FTX" calls Sample.btc) as [H1 H2]; [done|].
  split; [exact H1|]. unfold exec. fold g in H2. rewrite H2.
  by erewrite since_app by (simpl; reflexivity).
Defined.

End BeforeContracts.
(** ** What each call can do to the outside world *)

Global Instance adds_only_preorder (P : effect -> bool) : PreOrder (adds_only P).
Proof.
  split.
  - intros g. exists []. by rewrite app_nil_r.
  - intros x y z (l1 & H1 & P1) (l2 & H2 & P2). exists (l1 ++ l2).
    rewrite H2, H1, app_assoc. split; [done|].
    by rewrite forallb_app, P1, P2.
Qed.

Lemma adds_only_emit (P : effect -> bool) (e : effect) :
  P e = true -> rel (adds_only P) (modify (set_trace (fun t => t ++ [e]))).
Proof.
  intros H. apply rel_modify. intros g. exists [e]. split; [done|].
  simpl. by rewrite H.
Qed.

Lemma adds_only_silent (P : effect -> bool) (f : Gateway -> Gateway) :
  (forall g, trace (f g) = trace g) -> rel (adds_only P) (modify f).
Proof.
  intros H. apply rel_modify. intros g. exists []. by rewrite H, app_nil_r.
Qed.

(** As [rel_step], keeping what a test found out. *)
Ltac rel_step_eq :=
  lazymatch goal with
  | |- rel ?R (mbind _ _) => apply (rel_bind R); [|intros ?]
  | |- rel ?R (mret _) => apply (rel_ret R)
  | |- rel ?R (lift _) => apply (rel_lift R)
  | |- rel ?R (gets _) => apply (rel_gets R)
  | |- rel ?R (for_each _ _) => apply (rel_for_each R); intros ?
  | |- rel _ (if ?b then _ else _) => destruct b eqn:?
  | |- rel _ (match ?x with _ => _ end) => destruct x
  end.

Ltac adds_only_leaf :=
  lazymatch goal with
  | |- rel _ (modify (set_trace _)) =>
      apply adds_only_emit; simpl; (reflexivity || assumption)
  | |- rel _ (modify _) => apply adds_only_silent; intros ?; reflexivity
  end.

Lemma perform_adds_only (lib : Library) (c : Host.call) :
  rel (adds_only (allowed c)) (Host.perform lib c).
Proof.
  destruct c; unfold_methods; unfold FtxRestApi.query_position, emit;
    cbv zeta; repeat rel_step_eq; adds_only_leaf.
Qed.

(** X9.  Whatever the state and however the call ends, a call only appends
    to what the outside world has seen, and only effects of its own kinds.
    In particular: the REST side (connect, orders, cancellations, answers and
    failure callbacks) never sends a WebSocket frame; the WebSocket side
    queues one REST request only, the position query after a fill;
    [on_packet] writes no log line and sends no frame, so a frame it cannot
    handle is reported by the exception alone; and a tick is published only
    if it has a last price. *)
Theorem calls_have_their_own_effects :
  forall (lib : Library) (c : Host.call) (g : Gateway),
    let g' := exec (Host.perform lib c) g in
    trace g' = trace g ++ since g g' /\
    forallb (allowed c) (since g g') = true.
Proof.
  intros lib c g g'. subst g'.
  destruct (perform_adds_only lib c g) as (l & H1 & H2).
  unfold exec. by rewrite (since_app _ _ _ H1).
Qed.
(** ** Orders frames and fills frames *)

Section Frames.
Import FtxWebsocketApi.
Context (lib : Library).

Lemma on_order_same_id_cache (a : addr) :
  rel same_id_cache (FtxGateway.on_order a).
Proof. rel_frame. Qed.

(** A fills frame that is handled: the trade takes its order id from the
    id cache. *)
Lemma fills_frame_run (packet : json) (g : Gateway) :
  getitem packet "type" = Ok (JStr "update") ->
  getitem packet "channel" = Ok (JStr "fills") ->
  fst (on_packet lib packet g) = Ok tt ->
  exists (d : json) (k : key) (t : TradeData),
    getitem packet "data" = Ok d /\
    getitem d "orderId" ≫= key_of = Ok k /\
    order_id g !! k = Some (trade_orderid t) /\
    snd (on_packet lib packet g)
    = set_trace (fun tr => tr ++ [print (PTrade t); push_trade t;
         add_request (FtxRestApi.get_request "/api/positions"
                        cb_on_query_position SIGNED)]) g.
Proof.
  intros Ht Hc. unfold on_packet, on_packet_fills, FtxRestApi.query_position.
  unfold_m. rewrite Ht. simpl. rewrite Hc. simpl.
  unfold result_bind.
  intros H. repeat case_match; simplify_eq/=.
  lazymatch goal with
  | |- context [push_trade ?t] => eexists _, _, t
  end.
  split; [reflexivity|]. split.
  { match goal with H : getitem _ "orderId" = _ |- _ => rewrite H end.
    eassumption. }
  split; [simpl; assumption|].
  unfold set_trace. simpl. by rewrite <- !app_assoc.
Qed.

(** A fills frame for an exchange order id the id cache does not hold. *)
Lemma fills_frame_unknown (packet fill : json) (k : key) (g : Gateway) :
  getitem packet "type" = Ok (JStr "update") ->
  getitem packet "channel" = Ok (JStr "fills") ->
  getitem packet "data" = Ok fill ->
  getitem fill "orderId" ≫= key_of = Ok k ->
  order_id g !! k = None ->
  on_packet lib packet g = (Raise KeyError, g).
Proof.
  intros Ht Hc Hd Hk Hnone. unfold on_packet, on_packet_fills.
  unfold_m. rewrite Ht. simpl. rewrite Hc. simpl. rewrite Hd.
  destruct fill as [| | | | |fields]; try discriminate.
  unfold getitem at 1. destruct (assoc "market" fields); [|done].
  rewrite Hk. by rewrite Hnone.
Qed.

(** An orders frame that is handled: the client id is recorded under the
    exchange id. *)
Lemma orders_frame_run (packet : json) (g : Gateway) :
  getitem packet "type" = Ok (JStr "update") ->
  getitem packet "channel" = Ok (JStr "orders") ->
  fst (on_packet lib packet g) = Ok tt ->
  exists (d : json) (k : key) (c : json),
    getitem packet "data" = Ok d /\
    getitem d "id" ≫= key_of = Ok k /\
    getitem d "clientId" = Ok c /\
    order_id (snd (on_packet lib packet g)) = <[k := c]> (order_id g).
Proof.
  intros Ht Hc. unfold on_packet, on_packet_orders.
  unfold alloc, emit, modify, gets, lift. unfold mbind, M_bind, mret, M_ret.
  rewrite Ht. simpl. rewrite Hc. simpl.
  unfold result_bind.
  intros H. repeat case_match; simplify_eq/=.
  do 3 eexists. split; [reflexivity|]. split.
  { match goal with H : getitem _ "id" = _ |- _ => rewrite H end.
    eassumption. }
  split; [eassumption|].
  match goal with
  | |- context [FtxGateway.on_order ?a ?g1] =>
      pose proof (on_order_same_id_cache a g1) as E
  end.
  unfold same_id_cache in E. simpl in E. by rewrite E.
Qed.

(** X10.  An orders frame and, after it, a fills frame for the same exchange
    order id, both handled without an exception: the fill is published as
    one trade, and the trade's order id is the client id the orders frame
    carried; one position query is queued. *)
Theorem fill_carries_the_recorded_client_id :
  forall (orders_packet fills_packet order fill client_id : json) (k : key)
         (g : Gateway),
    let g1 := exec (on_packet lib orders_packet) g in
    let g2 := exec (on_packet lib fills_packet) g1 in
    getitem orders_packet "type" = Ok (JStr "update") ->
    getitem orders_packet "channel" = Ok (JStr "orders") ->
    getitem orders_packet "data" = Ok order ->
    getitem order "id" ≫= key_of = Ok k ->
    getitem order "clientId" = Ok client_id ->
    getitem fills_packet "type" = Ok (JStr "update") ->
    getitem fills_packet "channel" = Ok (JStr "fills") ->
    getitem fills_packet "data" = Ok fill ->
    getitem fill "orderId" ≫= key_of = Ok k ->
    fst (on_packet lib orders_packet g) = Ok tt ->
    fst (on_packet lib fills_packet g1) = Ok tt ->
    exists t : TradeData,
      trades (since g1 g2) = [t] /\
      trade_orderid t = client_id /\
      queued (since g1 g2)
        = [FtxRestApi.get_request "/api/positions" cb_on_query_position SIGNED].
Proof.
  intros po pf order fill c k g g1 g2 Ht1 Hc1 Hd1 Hk1 Hid Ht2 Hc2 Hd2 Hk2 Ho Hf.
  destruct (orders_frame_run po g Ht1 Hc1 Ho) as (d & k' & c' & Hd & Hk & Hc & Hm).
  rewrite Hd1 in Hd. injection Hd as <-. rewrite Hk1 in Hk. injection Hk as <-.
  rewrite Hid in Hc. injection Hc as <-.
  destruct (fills_frame_run pf g1 Ht2 Hc2 Hf) as (d & k' & t & Hd & Hk & Hl & Hs).
  rewrite Hd2 in Hd. injection Hd as <-. rewrite Hk2 in Hk. injection Hk as <-.
  exists t. subst g2. unfold exec. rewrite Hs.
  erewrite since_app by (simpl; reflexivity).
  split; [done|]. split; [|done].
  subst g1. unfold exec in Hl. rewrite Hm, lookup_insert_eq in Hl.
  by injection Hl.
Qed.

(** X11.  The open orders that the REST query reports are cached, but their
    exchange ids are not recorded: whatever the answer holds, a fill for an
    exchange order id that was unknown before the answer still raises
    [KeyError] after it, and is dropped. *)
Theorem rest_orders_get_no_fills :
  forall (data fills_packet fill : json) (k : key) (g : Gateway),
    let g1 := exec (FtxRestApi.on_query_order lib data) g in
    getitem fills_packet "type" = Ok (JStr "update") ->
    getitem fills_packet "channel" = Ok (JStr "fills") ->
    getitem fills_packet "data" = Ok fill ->
    getitem fill "orderId" ≫= key_of = Ok k ->
    order_id g !! k = None ->
    order_id g1 = order_id g /\
    on_packet lib fills_packet g1 = (Raise KeyError, g1).
Proof.
  intros data pf fill k g g1 Ht Hc Hd Hk Hnone.
  assert (E : order_id g1 = order_id g).
  { apply (perform_same_id_cache lib (Host.answer_orders data) g). }
  split; [done|].
  apply (fills_frame_unknown pf fill k g1 Ht Hc Hd Hk). by rewrite E.
Qed.

End Frames.

(** X10 on the sample frames. *)
Lemma fill_carries_the_recorded_client_id_witness :
  let g1 := exec (FtxWebsocketApi.on_packet Sample.library (Sample.orders_frame "open" 10 0 10))
              Sample.gateway in
  let g2 := exec (FtxWebsocketApi.on_packet Sample.library (Sample.fills_frame 4242)) g1 in
  trade_orderid <$> trades (since g1 g2) = [JStr "7"].
Proof.
  intros g1 g2.
  destruct (fill_carries_the_recorded_client_id Sample.library
              (Sample.orders_frame "open" 10 0 10) (Sample.fills_frame 4242)
              (Sample.order_record "open" 10 0 10)
              (JObj [ ("market", JStr "BTC-PERP"); ("orderId", JInt 4242);
                      ("tradeId", JInt 1); ("side", JStr "buy");
                      ("price", JInt 20000); ("size", JInt 1);
                      ("time", JStr "2021-03-01T10:00:01.000000+00:00") ])
              (JStr "7") (KNum (Qc_of_Z 4242)) Sample.gateway)
    as (t & H1 & H2 & _); [reflexivity..|].
  fold g1 g2 in H1. by rewrite H1, <- H2.
Defined.

(** X11 on the sample gateway: the order with exchange id 4242 comes in with
    the answer to the open-orders query; its fill is dropped. *)
Lemma rest_orders_get_no_fills_witness :
  let data := JObj [("result", JArr [Sample.order_record "open" 10 0 10])] in
  let g1 := exec (FtxRestApi.on_query_order Sample.library data) Sample.gateway in
  cached_status g1 "7" = Some (StatusMember NOTTRADED) /\
  fst (FtxWebsocketApi.on_packet Sample.library (Sample.fills_frame 4242) g1)
    = Raise KeyError.
Proof.
  intros data g1. split; [by vm_compute|].
  destruct (rest_orders_get_no_fills Sample.library data (Sample.fills_frame 4242)
              (JObj [ ("market", JStr "BTC-PERP"); ("orderId", JInt 4242);
                      ("tradeId", JInt 1); ("side", JStr "buy");
                      ("price", JInt 20000); ("size", JInt 1);
                      ("time", JStr "2021-03-01T10:00:01.000000+00:00") ])
              (KNum (Qc_of_Z 4242)) Sample.gateway)
    as [_ H]; [reflexivity..|].
  fold g1 in H. by rewrite H.
Defined.
(** ** The answer to the contract query *)

Lemma for_each_cons_ok {A} (x : A) (l : list A) (body : A -> M unit)
    (g : Gateway) :
  fst (for_each (x :: l) body g) = Ok tt ->
  fst (body x g) = Ok tt /\
  for_each (x :: l) body g = for_each l body (snd (body x g)).
Proof.
  simpl. unfold mbind, M_bind. destruct (body x g) as [[[]|e] g1]; [done|].
  simpl. discriminate.
Qed.

Lemma key_of_text (v : json) (s : string) : key_of v = Ok (KStr s) -> v = JStr s.
Proof.
  destruct v as [|b|q|s'| |]; simpl; try discriminate.
  by intros [= ->].
Qed.

Lemma contract_item_run (d : json) (g : Gateway) :
  fst (FtxRestApi.on_query_contract_item d g) = Ok tt ->
  exists (c : ContractData) (k : key),
    getitem d "name" = Ok (contract_symbol c) /\
    key_of (contract_symbol c) = Ok k /\
    contract_gateway_name c = gateway_name g /\
    snd (FtxRestApi.on_query_contract_item d g)
    = set_symbol_contract_map (fun m => <[k := c]> m)
        (set_trace (fun t => t ++ [push_contract c]) g).
Proof.
  unfold FtxRestApi.on_query_contract_item. unfold_m. unfold result_bind.
  intros H. repeat case_match; simplify_eq/=.
  lazymatch goal with
  | |- context [push_contract ?c] => exists c
  end.
  eexists. split; [reflexivity|]. split; [eassumption|]. done.
Qed.

Lemma contract_loop (items : list json) : forall g : Gateway,
  fst (for_each items FtxRestApi.on_query_contract_item g) = Ok tt ->
  let g' := snd (for_each items FtxRestApi.on_query_contract_item g) in
  gateway_name g' = gateway_name g /\
  (exists l, trace g' = trace g ++ l /\
     Forall2 (fun d c => getitem d "name" = Ok (contract_symbol c) /\
                         contract_gateway_name c = gateway_name g)
       items (published_contracts l)) /\
  (forall s, knows g s \/ (exists d, d ∈ items /\ getitem d "name" = Ok (JStr s)) ->
     knows g' s).
Proof.
  induction items as [|d items IH]; intros g Hok g'.
  - subst g'. simpl. split; [done|]. split.
    + exists []. rewrite app_nil_r. split; [done|]. constructor.
    + intros s [H|(d & Hd & _)]; [done|]. by apply elem_of_nil in Hd.
  - destruct (for_each_cons_ok _ _ _ _ Hok) as [Hd E]. subst g'.
    rewrite E in Hok |- *. clear E.
    destruct (contract_item_run d g Hd) as (c & k & Hn & Hk & Hg & Hs).
    set (g0 := snd (FtxRestApi.on_query_contract_item d g)) in *.
    destruct (IH g0 Hok) as (Hname & (l & Hl & Hall) & Hknown).
    assert (Hname0 : gateway_name g0 = gateway_name g) by (by rewrite Hs).
    split; [congruence|]. split.
    + exists (push_contract c :: l). split.
      * rewrite Hl, Hs. simpl. by rewrite <- app_assoc.
      * unfold published_contracts in *. simpl. constructor; [done|].
        eapply Forall2_impl; [exact Hall|]. intros d' c' [? ?].
        split; [done|congruence].
    + intros s Hsrc. apply Hknown.
      destruct Hsrc as [(c1 & Hc1 & Hsym)|(d' & [->|Hin]%elem_of_cons & Hd')].
      * left. rewrite Hs. unfold knows. simpl.
        destruct (decide (k = KStr s)) as [->|Hne].
        -- exists c. rewrite lookup_insert_eq. split; [done|].
           by apply key_of_text.
        -- exists c1. by rewrite lookup_insert_ne.
      * left. rewrite Hs. unfold knows. simpl.
        rewrite Hn in Hd'. injection Hd' as Hsym. rewrite Hsym in Hk.
        simpl in Hk. injection Hk as <-.
        exists c. by rewrite lookup_insert_eq.
      * right. by exists d'.
Qed.

Lemma on_query_contract_run (data : json) (items : list json) (g : Gateway) :
  getitem data "result" ≫= iter_items = Ok items ->
  FtxRestApi.on_query_contract data g
  = let g0 := set_trace (fun t => t ++
                [print (PText ("合约数量: " +:+ str (Z.of_nat (length items))))]) g in
    match for_each items FtxRestApi.on_query_contract_item g0 with
    | (Ok _, g1) =>
        (Ok tt, set_trace (fun t => t ++ [write_log "合约信息查询成功"]) g1)
    | (Raise e, g1) => (Raise e, g1)
    end.
Proof.
  intros H. unfold FtxRestApi.on_query_contract. unfold_m. rewrite H. simpl.
  by destruct (for_each items _ _) as [[[]|e] g1].
Qed.

(** X12.  When the answer to the contract query is handled without an
    exception, one contract per listed market has been published, in the
    order of the list, each under the market's name and the gateway's, and
    every market that the list names by a text is known afterwards, so that
    [subscribe] accepts it; markets known before stay known. *)
Theorem listed_contracts_become_known :
  forall (data : json) (items : list json) (g : Gateway),
    let g' := exec (FtxRestApi.on_query_contract data) g in
    getitem data "result" ≫= iter_items = Ok items ->
    fst (FtxRestApi.on_query_contract data g) = Ok tt ->
    Forall2 (fun d c => getitem d "name" = Ok (contract_symbol c) /\
                        contract_gateway_name c = gateway_name g)
      items (published_contracts (since g g')) /\
    (forall (d : json) (s : string),
        d ∈ items -> getitem d "name" = Ok (JStr s) ->
        exists c, symbol_contract_map g' !! KStr s = Some c /\
                  contract_symbol c = JStr s) /\
    (forall (s : string) (c : ContractData),
        symbol_contract_map g !! KStr s = Some c -> contract_symbol c = JStr s ->
        exists c', symbol_contract_map g' !! KStr s = Some c' /\
                   contract_symbol c' = JStr s).
Proof.
  intros data items g g' Hitems. subst g'. unfold exec.
  rewrite (on_query_contract_run data items g Hitems). cbv zeta.
  match goal with
  | |- context [for_each items _ ?g1] =>
      set (g0 := g1);
      pose proof (contract_loop items g0) as Hloop
  end.
  destruct (for_each items FtxRestApi.on_query_contract_item g0)
    as [[[]|e] g2] eqn:E; [|discriminate].
  intros _. simpl in *.
  destruct (Hloop eq_refl) as (Hname & (l & Hl & Hall) & Hknown).
  split; [|split].
  - erewrite since_app; last first.
    { simpl. rewrite Hl. subst g0. simpl. rewrite <- !app_assoc. reflexivity. }
    unfold published_contracts in *. simpl. rewrite omap_app. simpl.
    by rewrite app_nil_r.
  - intros d s Hd Hs. apply (Hknown s). right. by exists d.
  - intros s c Hc Hs. apply (Hknown s). left. by exists c.
Qed.

(** X12 on the sample gateway: a market it did not know is listed. *)
Lemma listed_contracts_become_known_witness :
  let market := JObj [ ("name", JStr "SOL-PERP"); ("priceIncrement", JInt 1);
                       ("sizeIncrement", JInt 1); ("type", JStr "future") ] in
  let data := JObj [("result", JArr [market])] in
  let g' := exec (FtxRestApi.on_query_contract data) Sample.gateway in
  symbol_contract_map Sample.gateway !! KStr "SOL-PERP" = None /\
  exists c, symbol_contract_map g' !! KStr "SOL-PERP" = Some c /\
            contract_symbol c = JStr "SOL-PERP".
Proof.
  intros market data g'. split; [reflexivity|].
  destruct (listed_contracts_become_known data [market] Sample.gateway)
    as (_ & H & _); [reflexivity..|].
  apply (H market "SOL-PERP"); [|reflexivity].
  by apply list_elem_of_singleton.
Defined.

(** ** Historical bars *)

Lemma bars_of_spec (req : HistoryRequest) (name : string) (items : list json) :
  forall history bars : list BarData,
    FtxRestApi.bars_of req name items history = Ok bars ->
    exists new,
      bars = history ++ new /\
      Forall2 (fun d b => FtxRestApi.bar_of req name d = Ok b) items new.
Proof.
  induction items as [|d items IH]; intros history bars; simpl.
  - intros [= <-]. exists []. by rewrite app_nil_r.
  - destruct (FtxRestApi.bar_of req name d) as [b|e] eqn:E; simpl; [|done].
    intros H. destruct (IH _ _ H) as (new & -> & Hall).
    exists (b :: new). rewrite <- app_assoc. split; [done|].
    by constructor.
Qed.

Lemma bar_of_fields (req : HistoryRequest) (name : string) (d : json)
    (b : BarData) :
  FtxRestApi.bar_of req name d = Ok b ->
  bar_symbol b = hist_symbol req /\
  bar_exchange b = hist_exchange req /\
  bar_interval b = hist_interval req /\
  bar_gateway_name b = name /\
  getitem d "close" = Ok (close_price b).
Proof.
  unfold FtxRestApi.bar_of. unfold mbind, result_bind.
  intros H. repeat case_match; simplify_eq/=. done.
Qed.

(** X13.  [query_history] asks the exchange once, whatever the time span,
    with an unsigned GET for the candles of the request's symbol; for an
    interval it cannot translate it raises [KeyError] before asking.  When
    it returns bars, they are the candles of the answer, one bar each, in the
    answer's order, none left out for lying outside the span asked for, and
    each under the symbol, exchange and interval of the request. *)
Theorem query_history_returns_every_candle :
  forall (req : HistoryRequest) (response : json) (g : Gateway),
    let r := FtxRestApi.query_history req response g in
    (hist_interval req = TICK -> r = (Raise KeyError, g)) /\
    (hist_interval req <> TICK ->
     exists rq : Request,
       snd r = set_trace (fun t => t ++ [request rq]) g /\
       method rq = "GET" /\
       path rq = "/api/markets/" +:+ hist_symbol req +:+ "/candles?" /\
       security rq = NONE /\
       assoc "start_time" (params rq) = Some (JNum (hist_start req)) /\
       assoc "end_time" (params rq) = Some (JNum (hist_end req))) /\
    (forall bars : list BarData,
        fst r = Ok (FtxRestApi.ret_bars bars) ->
        exists items : list json,
          getitem response "result" ≫= iter_items = Ok items /\
          Forall2 (fun d b => FtxRestApi.bar_of req (gateway_name g) d = Ok b)
            items bars /\
          Forall (fun b => bar_symbol b = hist_symbol req /\
                           bar_exchange b = hist_exchange req /\
                           bar_interval b = hist_interval req) bars).
Proof.
  intros req response g r. subst r. unfold FtxRestApi.query_history.
  cbv zeta. unfold_m. split; [|split].
  - by intros ->.
  - intros Hi. destruct (INTERVAL_VT2FTX (hist_interval req)) as [n|e] eqn:E.
    2: { by destruct (hist_interval req). }
    simpl. eexists. split.
    { repeat case_match; reflexivity. }
    repeat split; reflexivity.
  - intros bars. destruct (INTERVAL_VT2FTX (hist_interval req)); [|done]. simpl.
    unfold result_bind. intros H. repeat case_match; simplify_eq/=.
    eexists. split; [reflexivity|].
    match goal with
    | E : FtxRestApi.bars_of _ _ _ _ = Ok _ |- _ =>
        destruct (bars_of_spec _ _ _ _ _ E) as (new & -> & Hall)
    end.
    simpl. split; [done|].
    clear -Hall. induction Hall as [|d b ds bs Hb _ IH]; simpl; constructor;
      [|done].
    by destruct (bar_of_fields _ _ _ _ Hb) as (? & ? & ? & _).
Qed.

(** ** The answers to the account and position queries *)

Section QueriesFacts.
Import Queries.

Lemma account_loop (name : string) (items : list json) :
  let events := fst (on_query_account_loop name items) in
  let r := snd (on_query_account_loop name items) in
  exists built : list AccountData,
    Forall2 (fun d a => account_of name d = Ok a)
      (take (length built) items) built /\
    accounts events = List.filter (fun a => truthy (balance a)) built /\
    printed_accounts events = accounts events /\
    logs events = [] /\
    (r = Ok tt -> length built = length items).
Proof.
  induction items as [|d items IH]; simpl.
  - exists []. by repeat split.
  - destruct (account_of name d) as [a|e] eqn:E; simpl.
    + destruct IH as (built & H1 & H2 & H3 & H4 & H5).
      destruct (on_query_account_loop name items) as [later r]. simpl in *.
      exists (a :: built). simpl. split; [by constructor|].
      unfold accounts, printed_accounts, logs in *.
      rewrite !omap_app, H3, H2, H4.
      destruct (truthy (balance a)); simpl; repeat split; try done;
        intros Hr; by rewrite H5.
    + exists []. simpl. by repeat split.
Qed.

(** X14.  Of the coins in the answer to the balance query, those with a
    balance are published and printed, in the answer's order, and those with
    a zero balance are passed over in silence; the success line is logged
    exactly when the whole answer was handled. *)
Theorem only_funded_accounts_are_published :
  forall (name : string) (data : json),
    let events := fst (on_query_account name data) in
    let r := snd (on_query_account name data) in
    Forall (fun a => truthy (balance a) = true) (accounts events) /\
    printed_accounts events = accounts events /\
    logs events = match r with Ok _ => ["账户资金查询成功"] | Raise _ => [] end /\
    (r = Ok tt ->
     exists (items : list json) (built : list AccountData),
       getitem data "result" ≫= iter_items = Ok items /\
       Forall2 (fun d a => account_of name d = Ok a) items built /\
       accounts events = List.filter (fun a => truthy (balance a)) built).
Proof.
  intros name data events r. subst events r. unfold on_query_account.
  destruct (getitem data "result" ≫= iter_items) as [items|e]; simpl.
  2: { repeat split; try done; constructor. }
  destruct (account_loop name items) as (built & H1 & H2 & H3 & H4 & H5).
  destruct (on_query_account_loop name items) as [events [[]|e]]; simpl in *.
  - unfold accounts, printed_accounts, logs in *.
    rewrite !omap_app, H3, H2, H4. simpl. rewrite !app_nil_r.
    split.
    { apply Forall_forall. intros a Ha. apply list_elem_of_In in Ha.
      by apply filter_In in Ha as [_ Ha]. }
    do 2 (split; [done|]). intros _. exists items, built.
    split; [done|]. split; [|done].
    rewrite H5 in H1 by done. by rewrite firstn_all in H1.
  - unfold accounts, printed_accounts, logs in *.
    rewrite H3, H2, H4. split.
    { apply Forall_forall. intros a Ha. apply list_elem_of_In in Ha.
      by apply filter_In in Ha as [_ Ha]. }
    by repeat split.
Qed.

Context (lib : Library).

Lemma position_loop (name : string) (items : list json) :
  let events := fst (on_query_position_loop lib name items) in
  let r := snd (on_query_position_loop lib name items) in
  exists found : list (option PositionData),
    Forall2 (fun d p => position_of lib name d = Ok p)
      (take (length found) items) found /\
    printed_positions events = omap id found /\
    positions events
    = List.filter (fun p => negb (bool_decide (position_volume p = Qc_of_Z 0)))
        (printed_positions events) /\
    logs events = [] /\
    (r = Ok tt -> length found = length items).
Proof.
  induction items as [|d items IH]; simpl.
  - exists []. by repeat split.
  - destruct (position_of lib name d) as [p|e] eqn:E; simpl.
    + destruct IH as (found & H1 & H2 & H3 & H4 & H5).
      destruct (on_query_position_loop lib name items) as [later r]. simpl in *.
      exists (p :: found). simpl. split; [by constructor|].
      unfold positions, printed_positions, logs in *.
      rewrite !omap_app, H2, H4. rewrite H2 in H3. rewrite H3.
      destruct p as [p|]; simpl.
      * destruct (bool_decide (position_volume p = Qc_of_Z 0)) eqn:Hb; simpl;
          rewrite ?Hb; simpl; repeat split; try done; intros Hr; by rewrite H5.
      * repeat split; try done; intros Hr; by rewrite H5.
    + exists []. simpl. by repeat split.
Qed.

(** X15.  Of the positions in the answer to the position query, one without
    an entry price is skipped unread; every other one is printed, in the
    answer's order, and published unless its volume is zero.  The success
    line is logged exactly when the whole answer was handled. *)
Theorem flat_positions_are_printed_not_published :
  forall (name : string) (data : json),
    let events := fst (on_query_position lib name data) in
    let r := snd (on_query_position lib name data) in
    positions events
    = List.filter (fun p => negb (bool_decide (position_volume p = Qc_of_Z 0)))
        (printed_positions events) /\
    logs events = match r with Ok _ => ["持仓信息查询成功"] | Raise _ => [] end /\
    (r = Ok tt ->
     exists (items : list json) (found : list (option PositionData)),
       getitem data "result" ≫= iter_items = Ok items /\
       Forall2 (fun d p => position_of lib name d = Ok p) items found /\
       printed_positions events = omap id found) /\
    (forall d : json,
        getitem d "entryPrice" = Ok JNull -> position_of lib name d = Ok None).
Proof.
  intros name data events r. subst events r. unfold on_query_position.
  split; [|split; [|split]].
  4: { intros d Hd. unfold position_of. by rewrite Hd. }
  all: destruct (getitem data "result" ≫= iter_items) as [items|e]; simpl;
    try done.
  all: destruct (position_loop name items) as (found & H1 & H2 & H3 & H4 & H5).
  all: destruct (on_query_position_loop lib name items) as [events [[]|e]];
    simpl in *.
  all: unfold positions, printed_positions, logs in *.
  all: rewrite ?omap_app, ?H4; simpl; rewrite ?app_nil_r; try done.
  intros _. exists items, found. split; [done|]. split; [|done].
  rewrite H5 in H1 by done. by rewrite firstn_all in H1.
Qed.

End QueriesFacts.
(** ** The order object and its copies *)

(** X16.  The order that [send_order] hands to the host and the order that a
    failure callback marks are one object: what the host was given as
    [SUBMITTING] reads [REJECTED] after the failure, and it is that object
    which is pushed again.  The cache never holds the object itself: it holds
    a copy taken at the first push, which keeps saying [SUBMITTING], until
    the second push replaces it by a copy that says [REJECTED]. *)
Theorem failure_marks_the_submitted_object :
  forall (lib : Library) (req : OrderRequest) (g : Gateway)
         (status_code response_text side type : string),
    DIRECTION_VT2FTX (req_direction req) = Ok side ->
    ORDERTYPE_VT2FTX (req_type req) = Ok type ->
    let id := str (connect_time g + (order_count g + 1)) in
    let a := length (heap g) in
    let g1 := exec (FtxRestApi.send_order lib req) g in
    exists rq : Request,
      queued (since g g1) = [rq] /\
      let g2 := exec (FtxRestApi.on_send_order_failed status_code response_text rq) g1 in
      pushed (since g g2) = [a; a] /\
      status <$> heap g1 !! a = Some (StatusMember SUBMITTING) /\
      status <$> heap g2 !! a = Some (StatusMember REJECTED) /\
      orders g1 !! KStr id = Some (S a) /\
      status <$> heap g2 !! S a = Some (StatusMember SUBMITTING) /\
      orders g2 !! KStr id = Some (S (S a)) /\
      status <$> heap g2 !! S (S a) = Some (StatusMember REJECTED).
Proof.
  intros lib req g sc txt side type Hd Ht id a g1. subst g1. unfold exec.
  rewrite send_order_run, Hd, Ht. cbn [snd].
  eexists. split.
  { erewrite since_app; [|simpl; rewrite <- app_assoc; reflexivity]. reflexivity. }
  cbv zeta.
  set (o := create_order_data req id (gateway_name g)).
  erewrite (on_send_order_failed_run (length (heap g)) o (KStr id));
    [|reflexivity|by apply list_lookup_middle|reflexivity].
  cbn [snd]. unfold exec.
  erewrite (reject_key (length (heap g)) o (KStr id));
    [|by apply list_lookup_middle|reflexivity].
  cbn [snd]. fold a.
  assert (Ha : (a < length (heap g ++ [o; o]))%nat)
    by (rewrite length_app; simpl; subst a; lia).
  split.
  { erewrite since_app; [|simpl; rewrite <- !app_assoc; reflexivity]. reflexivity. }
  simpl. fold a. rewrite !lookup_insert_eq.
  rewrite length_app. simpl. replace (a + 2)%nat with (S (S a)) by lia.
  split. { by rewrite list_lookup_middle. }
  split.
  { rewrite lookup_app_l by (by rewrite length_insert).
    by rewrite list_lookup_insert_eq. }
  split; [done|]. split.
  { rewrite lookup_app_l by (rewrite length_insert, length_app; simpl; lia).
    rewrite list_lookup_insert_ne by lia.
    rewrite lookup_app_r by (subst a; lia).
    by replace (S a - length (heap g))%nat with 1%nat by (subst a; lia). }
  split. { f_equal. subst a. lia. }
  rewrite list_lookup_middle; [done|].
  rewrite length_insert. fold o. rewrite length_app. simpl. subst a. lia.
Qed.

(** X16 on the sample gateway. *)
Lemma failure_marks_the_submitted_object_witness :
  let g1 := exec (FtxRestApi.send_order Sample.library Sample.buy) Sample.gateway in
  exists rq : Request,
    queued (since Sample.gateway g1) = [rq] /\
    pushed (since Sample.gateway
              (exec (FtxRestApi.on_send_order_failed "400" "Not enough balances" rq)
                 g1))
      = [0%nat; 0%nat].
Proof.
  intros g1.
  destruct (failure_marks_the_submitted_object Sample.library Sample.buy
              Sample.gateway "400" "Not enough balances" "buy" "limit")
    as (rq & H1 & H2 & _); [reflexivity..|].
  exists rq. split; [exact H1|exact H2].
Defined.

(** ** Reconnecting *)

Section Reconnect.
Import FtxWebsocketApi.

Lemma run_app (lib : Library) (l1 l2 : list Host.call) (g : Gateway) :
  Host.run lib (l1 ++ l2) g = Host.run lib l2 (Host.run lib l1 g).
Proof. apply foldl_app. Qed.

Lemma run_cons (lib : Library) (c : Host.call) (l : list Host.call)
    (g : Gateway) :
  Host.run lib (c :: l) g = Host.run lib l (exec (Host.perform lib c) g).
Proof. reflexivity. Qed.

Lemma run_keeps_credentials (lib : Library) (calls : list Host.call) :
  forall g : Gateway,
    forallb keeps_credentials calls = true ->
    api_key (Host.run lib calls g) = api_key g /\
    api_secret_key (Host.run lib calls g) = api_secret_key g.
Proof.
  induction calls as [|c calls IH]; intros g Hc; [done|].
  simpl in Hc. apply andb_true_iff in Hc as [Hc1 Hc2].
  destruct (IH (exec (Host.perform lib c) g) Hc2) as [H1 H2].
  simpl. rewrite H1, H2.
  pose proof (perform_same_credentials lib c) as H.
  destruct c; try done; apply (H g).
Qed.

(** X17.  In every state a gateway can reach, a reconnect returns and sends
    two frames: the ping, and the login built from the key and the secret of
    the latest [connect].  It sends no subscription, although it walks the
    registry: every request in it is passed to [subscribe], which finds it
    registered and returns.  The registry is left as it was. *)
Theorem reconnect_logs_in_and_replays_nothing :
  forall (lib : Library) (name : string) (contracts : gmap key ContractData)
         (before after : list Host.call) (k secret : string) (timestamp : Z),
    forallb keeps_credentials after = true ->
    let g := Host.run lib (before ++ Host.ws_connect k secret :: after)
               (init name contracts) in
    let g' := exec (on_connected lib timestamp) g in
    fst (on_connected lib timestamp g) = Ok tt /\
    sent (since g g')
    = Heartbeat.ping_frame
      :: sent (since g (exec (authenticate lib timestamp k secret) g)) /\
    length (sent (since g g')) = 2%nat /\
    subscribed g' = subscribed g.
Proof.
  intros lib name contracts before after k secret timestamp Hc g g'.
  assert (Hcons : consistent g).
  { apply (rel_run keeps_consistent lib _ (perform_consistent lib)).
    apply consistent_init. }
  assert (Hk : api_key g = k /\ api_secret_key g = secret).
  { unfold g. rewrite run_app, run_cons.
    destruct (run_keeps_credentials lib after
                (exec (Host.perform lib (Host.ws_connect k secret))
                   (Host.run lib before (init name contracts))) Hc) as [-> ->].
    done. }
  destruct Hk as [Hk Hs].
  pose proof (registry_is_keyed g Hcons) as Hreg.
  subst g'. unfold exec, on_connected, ping, authenticate. unfold_m. simpl.
  rewrite Hk, Hs.
  match goal with
  | |- context [for_each ?l subscribe ?g1] =>
      destruct (replay_registered l g1) as (Hok & Hsub & l' & Ht & Hl)
  end.
  { simpl. by apply registry_keyed_mem. }
  unfold exec in *.
  match goal with
  | |- context [for_each ?l subscribe ?g1] =>
      destruct (for_each l subscribe g1) as [r g2] eqn:E
  end.
  simpl in *. subst r. split; [done|].
  rewrite <- !app_assoc in Ht. simpl in Ht.
  rewrite (since_app _ _ _ Ht).
  erewrite (since_app g) by (simpl; reflexivity).
  rewrite 2!(sent_cons _ (_ :: _)), (sent_cons _ l'), Hl. done.
Qed.

(** X17 on the sample gateway, with two subscriptions in the registry. *)
Lemma reconnect_logs_in_and_replays_nothing_witness :
  let calls := [ Host.ws_connect "key" "secret"; Host.call_subscribe Sample.btc;
                 Host.call_subscribe Sample.eth; Host.ws_disconnected ] in
  let g := Host.run Sample.library calls Sample.gateway in
  length (subscribed g) = 2%nat /\
  length (sent (since g (exec (on_connected Sample.library 1614592800000) g)))
    = 2%nat.
Proof.
  intros calls g. split; [reflexivity|].
  destruct (reconnect_logs_in_and_replays_nothing Sample.library "FTX"
              (symbol_contract_map Sample.gateway) []
              [Host.call_subscribe Sample.btc; Host.call_subscribe Sample.eth;
               Host.ws_disconnected] "key" "secret" 1614592800000)
    as (_ & _ & H & _); [reflexivity|].
  exact H.
Defined.

End Reconnect.
(** ** Concurrent callers: nothing lost, nobody stuck *)

Section AccountingFacts.
Import Concurrent Accounting.

Lemma accounted_spawn (n : nat) (g : Gateway) :
  accounted (order_count g) (connect_time g) (spawn n g).
Proof.
  constructor; simpl; try done. unfold pending. simpl. lia.
Qed.

Lemma pending_other (w : world) (t : nat) (p p' : pc) (l : option nat)
    (g : Gateway) (gen : list Z) :
  threads w !! t = Some p ->
  in_block p = false ->
  l = lock w ->
  (forall t', lock w = Some t' ->
     exists q, threads w !! t' = Some q /\ in_block q = true) ->
  pending {| gw := g; lock := l; threads := <[t := p']> (threads w);
             generated := gen |}
  = pending w.
Proof.
  intros Ht Hp -> Hown. unfold pending. simpl.
  destruct (lock w) as [t'|] eqn:Hl; [|done].
  destruct (Hown t' eq_refl) as (q & Hq & Hb).
  rewrite list_lookup_insert_ne; [done|]. intros ->. congruence.
Qed.

Lemma accounted_step (c0 ct0 : Z) (t : nat) (w : world) :
  inv ct0 w -> accounted c0 ct0 w -> accounted c0 ct0 (step t w).
Proof.
  intros Hinv Hw.
  pose proof Hinv as [Hseed Hseeds Hlock _ _ Hloaded _ _].
  pose proof Hw as [Hown Hgen Hcount].
  unfold step. destruct (threads w !! t) as [p|] eqn:Ht; [|done].
  assert (Hlt : (t < length (threads w))%nat) by (by eapply lookup_lt_Some).
  destruct p as [|ct|ct|ct c|ct|ct n|id].
  - (* Start *)
    constructor; simpl; try done.
    + intros t' Hl. destruct (Hown t' Hl) as (q & Hq & Hb).
      exists q. rewrite list_lookup_insert_ne; [done|]. intros ->.
      rewrite Ht in Hq. by injection Hq as <-.
    + by rewrite (pending_other w t Start).
  - (* WaitLock *)
    destruct (lock w) as [holder|] eqn:Hl; [done|].
    constructor; simpl; try done.
    + intros t' [= <-]. eexists. by rewrite list_lookup_insert_eq.
    + rewrite Hcount. unfold pending. simpl.
      by rewrite Hl, list_lookup_insert_eq.
  - (* Locked *)
    pose proof (Hlock _ _ Ht eq_refl) as Hl.
    constructor; simpl; try done.
    + intros t' Hl'. rewrite Hl in Hl'. injection Hl' as <-.
      eexists. by rewrite list_lookup_insert_eq.
    + rewrite Hcount. unfold pending. simpl.
      by rewrite Hl, Ht, list_lookup_insert_eq.
  - (* Loaded *)
    pose proof (Hlock _ _ Ht eq_refl) as Hl.
    assert (c = order_count (gw w)) as -> by eauto.
    constructor; simpl; try done.
    + intros t' Hl'. rewrite Hl in Hl'. injection Hl' as <-.
      eexists. by rewrite list_lookup_insert_eq.
    + rewrite Hcount. unfold pending. simpl.
      rewrite Hl, Ht, list_lookup_insert_eq by done. lia.
  - (* Incremented *)
    pose proof (Hlock _ _ Ht eq_refl) as Hl.
    assert (ct = ct0) as -> by (by eapply (Hseeds _ _ _ Ht)).
    assert (Hc : order_count (gw w) = c0 + Z.of_nat (length (generated w)) + 1).
    { rewrite Hcount. unfold pending. by rewrite Hl, Ht. }
    constructor; simpl.
    + intros t' Hl'. rewrite Hl in Hl'. injection Hl' as <-.
      eexists. by rewrite list_lookup_insert_eq.
    + rewrite length_app. simpl. rewrite Nat.add_1_r, seqZ_S, <- Hgen.
      f_equal. f_equal. lia.
    + rewrite Hc, length_app. simpl. unfold pending. simpl.
      rewrite Hl, list_lookup_insert_eq by done. lia.
  - (* Returning *)
    pose proof (Hlock _ _ Ht eq_refl) as Hl.
    constructor; simpl; try done.
    rewrite Hcount. unfold pending. simpl. by rewrite Hl, Ht.
  - (* Done *)
    done.
Qed.

Lemma accounted_run (c0 ct0 : Z) (schedule : list nat) :
  forall w : world,
    inv ct0 w -> accounted c0 ct0 w ->
    inv ct0 (run schedule w) /\ accounted c0 ct0 (run schedule w).
Proof.
  induction schedule as [|t schedule IH]; intros w Hi Hw; [done|].
  simpl. apply IH; [by apply inv_step|by apply accounted_step].
Qed.

Lemma step_length (t : nat) (w : world) :
  length (threads (step t w)) = length (threads w).
Proof.
  unfold step. destruct (threads w !! t) as [p|]; [|done].
  destruct p; simpl; rewrite ?length_insert; try done.
  destruct (lock w); simpl; by rewrite ?length_insert.
Qed.

Lemma run_length (schedule : list nat) : forall w : world,
  length (threads (run schedule w)) = length (threads w).
Proof.
  induction schedule as [|t schedule IH]; intros w; [done|].
  simpl. by rewrite IH, step_length.
Qed.

Lemma omap_length_le {A B} (f : A -> option B) (l : list A) :
  (length (omap f l) <= length l)%nat.
Proof.
  induction l as [|x l IH]; simpl; [done|]. unfold omap in IH.
  destruct (f x); simpl; lia.
Qed.

(** Callers that have not finished. *)
Lemma unfinished (l : list pc) :
  (length (omap (fun p => match p with Done id => Some id | _ => None end) l)
   < length l)%nat ->
  exists t p, l !! t = Some p /\ remaining p <> 0%nat.
Proof.
  induction l as [|p l IH]; simpl; [lia|]. unfold omap in IH.
  destruct p; try (by exists 0%nat; eexists; split; [reflexivity|]).
  simpl. intros H. destruct IH as (t & p & Ht & Hp); [lia|].
  by exists (S t), p.
Qed.

Lemma all_finished (l : list pc) :
  length (omap (fun p => match p with Done id => Some id | _ => None end) l)
  = length l ->
  omap owned l
  = omap (fun p => match p with Done id => Some id | _ => None end) l /\
  Forall (fun p => in_block p = false) l.
Proof.
  induction l as [|p l IH]; simpl; [done|]. unfold omap in IH.
  pose proof (omap_length_le
    (fun p => match p with Done id => Some id | _ => None end) l) as Hle.
  unfold omap in Hle.
  destruct p; simpl; intros H; try lia.
  destruct IH as [H1 H2]; [lia|]. unfold omap in H1. rewrite H1.
  split; [done|]. by constructor.
Qed.

Lemma work_insert (l : list pc) : forall (t : nat) (p p' : pc),
  l !! t = Some p ->
  remaining p = S (remaining p') ->
  sum_list_with remaining l = S (sum_list_with remaining (<[t := p']> l)).
Proof.
  induction l as [|x l IH]; intros [|t] p p' Hl Hr; simpl in *; try done.
  - injection Hl as ->. lia.
  - rewrite (IH t p p' Hl Hr). lia.
Qed.

End AccountingFacts.

(** X18.  However the callers of [send_order] are interleaved, no increment
    of the order counter is lost and no number is skipped: the numbers
    handed out are the seed plus the counts that follow the starting count,
    each once, in order; and once all [n] callers have finished, the lock is
    free, the counter stands [n] above its start, and the ids the callers
    hold are the texts of exactly these [n] numbers. *)
Theorem concurrent_callers_lose_no_number :
  forall (g : Gateway) (n : nat) (schedule : list nat),
    let w := Concurrent.run schedule (Concurrent.spawn n g) in
    let numbers := seqZ (connect_time g + (order_count g + 1)) in
    Concurrent.generated w
      = numbers (Z.of_nat (length (Concurrent.generated w))) /\
    (length (Concurrent.generated w) <= n)%nat /\
    (length (Concurrent.finished w) = n ->
     Concurrent.lock w = None /\
     order_count (Concurrent.gw w) = order_count g + Z.of_nat n /\
     Concurrent.finished w ≡ₚ str <$> numbers (Z.of_nat n)).
Proof.
  intros g n schedule w numbers.
  destruct (accounted_run (order_count g) (connect_time g) schedule
              (Concurrent.spawn n g) (inv_spawn n g) (accounted_spawn n g))
    as [Hinv Hacc].
  fold w in Hinv, Hacc.
  destruct Hinv as [_ _ Hlock _ _ _ _ Howned].
  destruct Hacc as [Hown Hgen Hcount].
  assert (Hn : length (Concurrent.threads w) = n).
  { unfold w. rewrite run_length. simpl. apply length_replicate. }
  assert (Hlen : (length (Concurrent.generated w) <= n)%nat).
  { rewrite <- Hn.
    rewrite <- (length_fmap str (Concurrent.generated w)), <- Howned.
    apply omap_length_le. }
  split; [exact Hgen|]. split; [exact Hlen|].
  intros Hfin. unfold Concurrent.finished in *. rewrite <- Hn in Hfin.
  destruct (all_finished _ Hfin) as [Hall Hout].
  assert (Hfree : Concurrent.lock w = None).
  { destruct (Concurrent.lock w) as [t|] eqn:Hl; [|done].
    destruct (Hown t eq_refl) as (p & Hp & Hb).
    rewrite Forall_forall in Hout.
    rewrite (Hout p) in Hb; [done|]. by eapply list_elem_of_lookup_2. }
  assert (Hgn : length (Concurrent.generated w) = n).
  { rewrite <- (length_fmap str (Concurrent.generated w)), <- Howned, Hall.
    by rewrite Hfin. }
  split; [done|]. split.
  - rewrite Hcount. unfold Accounting.pending. rewrite Hfree, Hgn. lia.
  - rewrite <- Hall, Howned, Hgen. by rewrite Hgn.
Qed.

(** X19.  The callers never block one another for good: as long as one of
    them has not finished, some caller can take a step, and each step taken
    brings the callers one step closer to the end; six steps per caller,
    and all are done. *)
Theorem some_caller_can_always_move :
  forall (g : Gateway) (n : nat) (schedule : list nat),
    let w := Concurrent.run schedule (Concurrent.spawn n g) in
    Accounting.work (Concurrent.spawn n g) = (6 * n)%nat /\
    ((length (Concurrent.finished w) < n)%nat ->
     exists t : nat,
       (t < n)%nat /\
       Accounting.work w = S (Accounting.work (Concurrent.step t w))).
Proof.
  intros g n schedule w. split.
  { unfold Accounting.work. simpl. induction n as [|n IH]; [done|].
    simpl in *. rewrite IH. lia. }
  intros Hfin.
  destruct (accounted_run (order_count g) (connect_time g) schedule
              (Concurrent.spawn n g) (inv_spawn n g) (accounted_spawn n g))
    as [Hinv Hacc].
  fold w in Hinv, Hacc.
  destruct Hinv as [_ _ Hlock _ _ _ _ _].
  destruct Hacc as [Hown _ _].
  assert (Hn : length (Concurrent.threads w) = n).
  { unfold w. rewrite run_length. simpl. apply length_replicate. }
  unfold Accounting.work.
  destruct (Concurrent.lock w) as [t|] eqn:Hl.
  - destruct (Hown t eq_refl) as (p & Hp & Hb). exists t. split.
    { rewrite <- Hn. by eapply lookup_lt_Some. }
    unfold Concurrent.step. rewrite Hp.
    destruct p; try discriminate; simpl; by eapply work_insert.
  - unfold Concurrent.finished in Hfin. rewrite <- Hn in Hfin.
    destruct (unfinished _ Hfin) as (t & p & Hp & Hr). exists t. split.
    { rewrite <- Hn. by eapply lookup_lt_Some. }
    unfold Concurrent.step. rewrite Hp.
    destruct p; simpl;
      try (by eapply work_insert);
      try (by (pose proof (Hlock _ _ Hp eq_refl); congruence)).
    + rewrite Hl. simpl. by eapply work_insert.
    + done.
Qed.

(** X19 on two callers of the sample gateway, the first of them holding the
    lock. *)
Lemma some_caller_can_always_move_witness :
  let w := Concurrent.run [0; 0; 1; 1]%nat (Concurrent.spawn 2 Sample.gateway) in
  Concurrent.lock w = Some 0%nat /\
  exists t : nat,
    (t < 2)%nat /\
    Accounting.work w = S (Accounting.work (Concurrent.step t w)).
Proof.
  intros w. split; [reflexivity|].
  destruct (some_caller_can_always_move Sample.gateway 2 [0; 0; 1; 1]%nat)
    as [_ H].
  apply H. vm_compute. lia.
Defined.
(** ** The two places that build an order from a record *)

Section OrderRecords.
Import FtxWebsocketApi.
Context (lib : Library).

Ltac allocated :=
  repeat match goal with
  | H : ((_ ++ [_]) ++ [_]) !! length _ = _ |- _ =>
      rewrite lookup_app_l in H by (rewrite length_app; simpl; lia);
      rewrite list_lookup_middle in H by done; simplify_eq/=
  | H : (_ ++ [_]) !! length _ = _ |- _ =>
      rewrite list_lookup_middle in H by done; simplify_eq/=
  | H1 : ?x = Ok _, H2 : ?x = Ok _ |- _ => rewrite H1 in H2; simplify_eq/=
  | H1 : ?x = Ok _, H2 : ?x = Raise _ |- _ => rewrite H1 in H2; discriminate
  end.

(** An orders frame that is handled, in full. *)
Lemma orders_frame_state (packet : json) (g : Gateway) :
  getitem packet "type" = Ok (JStr "update") ->
  getitem packet "channel" = Ok (JStr "orders") ->
  fst (on_packet lib packet g) = Ok tt ->
  exists (d : json) (o : OrderData) (k kc : key),
    getitem packet "data" = Ok d /\
    getitem d "id" ≫= key_of = Ok k /\
    getitem d "clientId" = Ok (orderid o) /\
    key_of (orderid o) = Ok kc /\
    snd (on_packet lib packet g)
    = set_trace (fun t => t ++ [print (POrder o); push_order (length (heap g))])
        (set_orders (fun m => <[kc := S (length (heap g))]> m)
           (set_order_id (fun m => <[k := orderid o]> m)
              (set_heap (fun h => h ++ [o; o]) g))).
Proof.
  intros Ht Hc. unfold on_packet, on_packet_orders.
  unfold_m. rewrite Ht. simpl. rewrite Hc. simpl.
  unfold result_bind.
  intros H. repeat (case_match; simplify_eq/=); allocated.
  lazymatch goal with
  | |- context [print (POrder ?o)] => eexists _, o, _, _
  end.
  split; [reflexivity|]. split.
  { match goal with H : getitem _ "id" = _ |- _ => rewrite H end.
    eassumption. }
  split; [simpl; assumption|]. split; [simpl; eassumption|].
  unfold set_trace, set_orders, set_order_id, set_heap. simpl.
  rewrite length_app, <- !app_assoc. simpl. by rewrite Nat.add_1_r.
Qed.

(** X20.  The order is built from a record in two places, written out
    twice: in the loop of [on_query_order] and in the [orders] branch of
    [on_packet].  They agree: whenever an orders frame is handled without an
    exception, the loop body handles its record too, and both allocate the
    same order, cache the same copy under the same id and push the same
    object.  They differ in one thing besides the order of printing and
    pushing: only [on_packet] records the exchange id. *)
Theorem both_order_paths_build_the_same_order :
  forall (packet d : json) (g : Gateway),
    let g1 := exec (FtxRestApi.on_query_order_item lib d) g in
    let g2 := exec (on_packet lib packet) g in
    getitem packet "type" = Ok (JStr "update") ->
    getitem packet "channel" = Ok (JStr "orders") ->
    getitem packet "data" = Ok d ->
    fst (on_packet lib packet g) = Ok tt ->
    fst (FtxRestApi.on_query_order_item lib d g) = Ok tt /\
    heap g1 = heap g2 /\
    orders g1 = orders g2 /\
    pushed (since g g1) = pushed (since g g2) /\
    order_id g1 = order_id g /\
    (exists (k : key) (c : json),
        getitem d "id" ≫= key_of = Ok k /\
        getitem d "clientId" = Ok c /\
        order_id g2 = <[k := c]> (order_id g)).
Proof.
  intros packet d g g1 g2 Ht Hc Hd. subst g1 g2.
  unfold exec, on_packet, on_packet_orders, FtxRestApi.on_query_order_item.
  unfold_m. rewrite Ht. simpl. rewrite Hc. simpl. rewrite Hd.
  unfold result_bind.
  intros H. repeat (case_match; simplify_eq/=); allocated.
  rewrite ?status_paths_agree.
  split; [done|].
  split. { by rewrite <- !app_assoc. }
  split; [done|].
  split.
  { erewrite !since_app by (simpl; rewrite <- ?app_assoc; reflexivity).
    reflexivity. }
  split; [done|].
  do 2 eexists. split; [reflexivity|]. split; reflexivity.
Qed.

(** X21.  An order that was not placed through the gateway has no client
    id.  Its record is cached all the same, under the key [None]: two such
    orders, reported one after the other, take the same slot of the order
    cache, the second replacing the first, and leave every slot that
    [get_order] can reach by a text id as it was, so that neither can be
    looked up or cancelled by id; both exchange ids are recorded as
    belonging to the client id [None]. *)
Theorem orders_without_client_id_share_one_slot :
  forall (first second d1 d2 : json) (k1 k2 : key) (g : Gateway),
    let g1 := exec (on_packet lib first) g in
    let g2 := exec (on_packet lib second) g1 in
    getitem first "type" = Ok (JStr "update") ->
    getitem first "channel" = Ok (JStr "orders") ->
    getitem first "data" = Ok d1 ->
    getitem d1 "clientId" = Ok JNull ->
    getitem d1 "id" ≫= key_of = Ok k1 ->
    getitem second "type" = Ok (JStr "update") ->
    getitem second "channel" = Ok (JStr "orders") ->
    getitem second "data" = Ok d2 ->
    getitem d2 "clientId" = Ok JNull ->
    getitem d2 "id" ≫= key_of = Ok k2 ->
    fst (on_packet lib first g) = Ok tt ->
    fst (on_packet lib second g1) = Ok tt ->
    orders g1 !! KNone = Some (S (length (heap g))) /\
    orders g2 !! KNone = Some (S (length (heap g1))) /\
    (forall id : string, orders g2 !! KStr id = orders g !! KStr id) /\
    order_id g2 !! k1 = Some JNull /\
    order_id g2 !! k2 = Some JNull.
Proof.
  intros p1 p2 d1 d2 k1 k2 g g1 g2 Ht1 Hc1 Hd1 Hn1 Hk1 Ht2 Hc2 Hd2 Hn2 Hk2 H1 H2.
  destruct (orders_frame_state p1 g Ht1 Hc1 H1)
    as (d & o1 & k & kc & Hd & Hk & Hcid & Hkc & Hs1).
  rewrite Hd1 in Hd. injection Hd as <-. rewrite Hk1 in Hk. injection Hk as <-.
  rewrite Hn1 in Hcid. injection Hcid as Ho1. rewrite <- Ho1 in Hkc, Hs1.
  simpl in Hkc. injection Hkc as <-.
  destruct (orders_frame_state p2 g1 Ht2 Hc2 H2)
    as (d & o2 & k & kc & Hd & Hk & Hcid & Hkc & Hs2).
  rewrite Hd2 in Hd. injection Hd as <-. rewrite Hk2 in Hk. injection Hk as <-.
  rewrite Hn2 in Hcid. injection Hcid as Ho2. rewrite <- Ho2 in Hkc, Hs2.
  simpl in Hkc. injection Hkc as <-.
  subst g2. unfold exec in *. rewrite Hs2. simpl.
  assert (E1 : orders g1 = <[KNone := S (length (heap g))]> (orders g))
    by (subst g1; by rewrite Hs1).
  assert (E2 : order_id g1 = <[k1 := JNull]> (order_id g))
    by (subst g1; by rewrite Hs1).
  rewrite E1, E2, !lookup_insert_eq.
  split; [done|]. split; [done|]. split.
  { intros id. by rewrite !lookup_insert_ne. }
  split; [|done].
  destruct (decide (k2 = k1)) as [->|Hne].
  - by rewrite lookup_insert_eq.
  - by rewrite lookup_insert_ne, lookup_insert_eq.
Qed.

End OrderRecords.

(** X20 on the sample record. *)
Lemma both_order_paths_build_the_same_order_witness :
  let d := Sample.order_record "open" 10 4 6 in
  let g1 := exec (FtxRestApi.on_query_order_item Sample.library d) Sample.gateway in
  let g2 := exec (FtxWebsocketApi.on_packet Sample.library
                    (Sample.orders_frame "open" 10 4 6)) Sample.gateway in
  heap g1 = heap g2 /\ orders g1 = orders g2 /\
  cached_status g2 "7" = Some (StatusMember PARTTRADED).
Proof.
  intros d g1 g2.
  destruct (both_order_paths_build_the_same_order Sample.library
              (Sample.orders_frame "open" 10 4 6) d Sample.gateway)
    as (_ & H1 & H2 & _); [reflexivity..|].
  split; [exact H1|]. split; [exact H2|]. reflexivity.
Defined.

(** X21 on two records without a client id. *)
Lemma orders_without_client_id_share_one_slot_witness :
  let record (id : Z) :=
    JObj [ ("id", JInt id); ("clientId", JNull);
           ("market", JStr "BTC-PERP"); ("type", JStr "limit");
           ("side", JStr "buy"); ("price", JInt 20000);
           ("size", JInt 1); ("filledSize", JInt 0);
           ("remainingSize", JInt 1); ("status", JStr "new");
           ("createdAt", JStr "2021-03-01T10:00:00.000000+00:00") ] in
  let frame (id : Z) :=
    JObj [ ("channel", JStr "orders"); ("type", JStr "update");
           ("data", record id) ] in
  let g1 := exec (FtxWebsocketApi.on_packet Sample.library (frame 1)) Sample.gateway in
  let g2 := exec (FtxWebsocketApi.on_packet Sample.library (frame 2)) g1 in
  orders g1 !! KNone = Some 1%nat /\
  orders g2 !! KNone = Some 3%nat /\
  dom (orders g2) = {[ KNone ]}.
Proof.
  intros record frame g1 g2.
  destruct (orders_without_client_id_share_one_slot Sample.library
              (frame 1) (frame 2) (record 1) (record 2)
              (KNum (Qc_of_Z 1)) (KNum (Qc_of_Z 2)) Sample.gateway)
    as (H1 & H2 & _); [reflexivity..|].
  split; [exact H1|]. split; [exact H2|]. by vm_compute.
Defined.
(** ** Worked examples of the results above *)

(** X13 on the sample request, answered with two candles. *)
Lemma query_history_returns_every_candle_witness :
  let candle (t : Z) :=
    JObj [ ("time", JInt t); ("open", JInt 1); ("high", JInt 3);
           ("low", JInt 1); ("close", JInt 2); ("volume", JInt 10) ] in
  let response := JObj [("result", JArr [candle 1614592800000; candle 1614592860000])] in
  let r := FtxRestApi.query_history Sample.history response Sample.gateway in
  exists bars : list BarData,
    fst r = Ok (FtxRestApi.ret_bars bars) /\
    length bars = 2%nat /\
    Forall (fun b => bar_symbol b = "BTC-PERP") bars.
Proof.
  intros candle response r.
  destruct (fst r) as [[bars|n]|e] eqn:E; try (by vm_compute in E).
  exists bars. split; [reflexivity|].
  destruct (query_history_returns_every_candle Sample.history response
              Sample.gateway) as (_ & _ & H).
  destruct (H bars E) as (items & Hitems & Hall & Hfields).
  split.
  - apply Forall2_length in Hall. rewrite <- Hall.
    vm_compute in Hitems. by injection Hitems as <-.
  - eapply Forall_impl; [exact Hfields|]. by intros b (H1 & _).
Defined.

(** X14 on an answer with one funded coin and one empty one. *)
Lemma only_funded_accounts_are_published_witness :
  let coin (name : string) (total free : Z) :=
    JObj [("coin", JStr name); ("total", JInt total); ("free", JInt free)] in
  let data := JObj [("result", JArr [coin "USD" 100 40; coin "BTC" 0 0])] in
  let events := fst (Queries.on_query_account "FTX" data) in
  exists built : list Queries.AccountData,
    length built = 2%nat /\
    Queries.accounts events
    = List.filter (fun a => truthy (Queries.balance a)) built /\
    length (Queries.accounts events) = 1%nat.
Proof.
  intros coin data events.
  destruct (only_funded_accounts_are_published "FTX" data) as (_ & _ & _ & H).
  destruct (H eq_refl) as (items & built & Hitems & Hall & Hacc).
  exists built. split; [|split; [exact Hacc|reflexivity]].
  apply Forall2_length in Hall. rewrite <- Hall.
  vm_compute in Hitems. by injection Hitems as <-.
Defined.

(** X15 on an answer with an open position, a flat one and one without an
    entry price. *)
Lemma flat_positions_are_printed_not_published_witness :
  let position (future : string) (size : Z) (entry : json) :=
    JObj [ ("future", JStr future); ("side", JStr "buy"); ("size", JInt size);
           ("entryPrice", entry); ("unrealizedPnl", JInt 0) ] in
  let data := JObj [("result", JArr [ position "BTC-PERP" 2 (JInt 20000);
                                      position "ETH-PERP" 0 (JInt 1500);
                                      position "SOL-PERP" 0 JNull ])] in
  let events := fst (Queries.on_query_position Sample.library "FTX" data) in
  length (Queries.printed_positions events) = 2%nat /\
  Queries.positions events
  = List.filter
      (fun p => negb (bool_decide (Queries.position_volume p = Qc_of_Z 0)))
      (Queries.printed_positions events) /\
  length (Queries.positions events) = 1%nat.
Proof.
  intros position data events.
  destruct (flat_positions_are_printed_not_published Sample.library "FTX" data)
    as (H & _).
  split; [reflexivity|]. split; [exact H|reflexivity].
Defined.

(** X18 on two callers of the sample gateway, run to the end. *)
Lemma concurrent_callers_lose_no_number_witness :
  let w := Concurrent.run [0; 1; 0; 1; 0; 1; 0; 0; 0; 1; 1; 1; 1; 1]%nat
             (Concurrent.spawn 2 Sample.gateway) in
  Concurrent.lock w = None /\
  order_count (Concurrent.gw w) = 1000002 /\
  Concurrent.finished w ≡ₚ ["1000001"; "1000002"].
Proof.
  intros w.
  destruct (concurrent_callers_lose_no_number Sample.gateway 2
              [0; 1; 0; 1; 0; 1; 0; 0; 0; 1; 1; 1; 1; 1]%nat) as (_ & _ & H).
  destruct (H eq_refl) as (H1 & H2 & H3).
  split; [exact H1|]. split; [exact H2|exact H3].
Defined.
